(** * Auto-Converter-Pro: the template rendering engine of [Auto-Converter.py]

    A shallow embedding of the document converter tab
    ([DocumentConverterTab]): Python text operations, the python-docx
    document tree, the pandas data frames read with [header=None], and
    the converter's own methods, each under the name it has in the source.

    Text is modelled by the standard library's [string] over 8-bit
    characters; the case and white-space operations are those of Python on
    ASCII text.  A value read from a sheet is a [str] or another object (a
    number, a truth value, a time stamp), known by the name of its type, its
    [str] image and its truth value; a missing cell ([NaN]) is [None].

    A document is the body that python-docx exposes through
    [doc.paragraphs] and [doc.tables]; paragraph styles and merged cells
    are left out.  The disk is seen through an existence predicate, picture
    loading and file saving through their outcomes, the thread pool through
    the order in which its jobs complete.  Of the user interface only the
    message boxes and the printed lines are kept: the progress bar and the
    status label are left out.  The floating-point total of the labor
    table is a parameter. *)

From Stdlib Require Import String Ascii List Bool Arith NArith Lia.
From Stdlib Require Import Numbers.DecimalString.
From stdpp Require Import gmap strings list.

Import ListNotations.
Local Open Scope string_scope.
Local Open Scope list_scope.

(* ===================================================================== *)
(** ** Python text operations *)
(* ===================================================================== *)

Module PyStr.

(** The line feed, ["\n"]. *)
Definition nl : string := String (ascii_of_nat 10) "".

Definition is_empty (s : string) : bool :=
  match s with "" => true | String _ _ => false end.

(** Python truthiness of a [str]: the non-empty ones. *)
Definition truthy (s : string) : bool := negb (is_empty s).

(** [str.isspace] on one ASCII character: TAB, LF, VT, FF, CR, the four
    separators 0x1c-0x1f and the space. *)
Definition isspace (c : ascii) : bool :=
  let n := nat_of_ascii c in
  ((9 <=? n)%nat && (n <=? 13)%nat) || ((28 <=? n)%nat && (n <=? 32)%nat).

Definition is_upper (c : ascii) : bool :=
  let n := nat_of_ascii c in (65 <=? n)%nat && (n <=? 90)%nat.

Definition is_lower (c : ascii) : bool :=
  let n := nat_of_ascii c in (97 <=? n)%nat && (n <=? 122)%nat.

Definition lower_char (c : ascii) : ascii :=
  if is_upper c then ascii_of_nat (nat_of_ascii c + 32) else c.

Definition upper_char (c : ascii) : ascii :=
  if is_lower c then ascii_of_nat (nat_of_ascii c - 32) else c.

Fixpoint map_chars (f : ascii -> ascii) (s : string) : string :=
  match s with
  | "" => ""
  | String c s' => String (f c) (map_chars f s')
  end.

(** [s.lower()] and [s.upper()]. *)
Definition lower : string -> string := map_chars lower_char.
Definition upper : string -> string := map_chars upper_char.

(** [s.lstrip(chars)], [s.rstrip(chars)] and [s.strip(chars)], the set of
    stripped characters given as a predicate. *)
Fixpoint lstrip_by (p : ascii -> bool) (s : string) : string :=
  match s with
  | "" => ""
  | String c s' => if p c then lstrip_by p s' else s
  end.

Fixpoint rstrip_by (p : ascii -> bool) (s : string) : string :=
  match s with
  | "" => ""
  | String c s' =>
      let r := rstrip_by p s' in
      if is_empty r && p c then "" else String c r
  end.

Definition strip_by (p : ascii -> bool) (s : string) : string :=
  rstrip_by p (lstrip_by p s).

(** [s.strip()]. *)
Definition strip : string -> string := strip_by isspace.

Fixpoint mem_char (c : ascii) (chars : string) : bool :=
  match chars with
  | "" => false
  | String d chars' => Ascii.eqb c d || mem_char c chars'
  end.

(** [s.strip(chars)]. *)
Definition strip_chars (chars : string) : string -> string :=
  strip_by (fun c => mem_char c chars).

(** [s.split(sep)] for a one-character separator: never the empty list. *)
Fixpoint split (sep : ascii) (s : string) : list string :=
  match s with
  | "" => [""]
  | String c s' =>
      if Ascii.eqb c sep then "" :: split sep s'
      else match split sep s' with
           | h :: t => String c h :: t
           | [] => [String c ""]
           end
  end.

(** [sep.join(l)]. *)
Fixpoint join (sep : string) (l : list string) : string :=
  match l with
  | [] => ""
  | [x] => x
  | x :: l' => x +:+ sep +:+ join sep l'
  end.

(** [s.startswith(p)]. *)
Definition startswith (p s : string) : bool := String.prefix p s.

(** [sub in s]. *)
Fixpoint contains (sub s : string) : bool :=
  String.prefix sub s ||
  match s with
  | "" => false
  | String _ s' => contains sub s'
  end.

(** [x in l] for a list of strings. *)
Definition in_list (x : string) (l : list string) : bool :=
  existsb (String.eqb x) l.

(** [s[:n]]. *)
Fixpoint take (n : nat) (s : string) : string :=
  match n, s with
  | S n', String c s' => String c (take n' s')
  | _, _ => ""
  end.

(** [s[n:]]. *)
Fixpoint drop (n : nat) (s : string) : string :=
  match n, s with
  | S n', String _ s' => drop n' s'
  | _, _ => s
  end.

(** [s.replace(old, new)] for a non-empty [old]: the non-overlapping
    occurrences, leftmost first.  [skip] counts the characters of an
    occurrence that are still to be dropped. *)
Fixpoint replace_from (skip : nat) (old new s : string) : string :=
  match s with
  | "" => ""
  | String c s' =>
      match skip with
      | S k => replace_from k old new s'
      | O =>
          if String.prefix old s
          then new +:+ replace_from (String.length old - 1) old new s'
          else String c (replace_from 0 old new s')
      end
  end.

Definition replace (old new s : string) : string := replace_from 0 old new s.

(** [str(n)] for a natural number. *)
Definition str_of_nat (n : nat) : string :=
  NilZero.string_of_uint (Nat.to_uint n).

(** [f"{n:03d}"]. *)
Definition pad3 (n : nat) : string :=
  let s := str_of_nat n in
  match String.length s with
  | 1 => "00" +:+ s
  | 2 => "0" +:+ s
  | _ => s
  end.

(** [f"{{{key}}}"]: the placeholder token of a name. *)
Definition token (key : string) : string := "{" +:+ key +:+ "}".

(** [s.split(sep)] for a non-empty separator string. *)
Fixpoint split_str_from (skip : nat) (sep s : string) : list string :=
  match s with
  | "" => [""]
  | String c s' =>
      match skip with
      | S k => split_str_from k sep s'
      | O =>
          if String.prefix sep s
          then "" :: split_str_from (String.length sep - 1) sep s'
          else match split_str_from 0 sep s' with
               | h :: t => String c h :: t
               | [] => [String c ""]
               end
      end
  end.

Definition split_str (sep s : string) : list string := split_str_from 0 sep s.

(** [enumerate(l, 1)]. *)
Definition enumerate1 {A} (l : list A) : list (nat * A) :=
  combine (seq 1 (List.length l)) l.

End PyStr.

(* ===================================================================== *)
(** ** Python dictionaries with insertion order *)
(* ===================================================================== *)

Module PyDict.

(** A [dict] whose iteration order matters: keys are unique, a key that is
    assigned again keeps its place. *)
Definition t (V : Type) : Type := list (string * V).

Fixpoint get {V} (d : t V) (k : string) : option V :=
  match d with
  | [] => None
  | (k', v) :: d' => if String.eqb k k' then Some v else get d' k
  end.

(** [d.get(k, default)]. *)
Definition get_or {V} (d : t V) (k : string) (default : V) : V :=
  match get d k with Some v => v | None => default end.

(** [k in d]. *)
Definition mem {V} (d : t V) (k : string) : bool :=
  match get d k with Some _ => true | None => false end.

(** [d[k] = v]. *)
Fixpoint set {V} (d : t V) (k : string) (v : V) : t V :=
  match d with
  | [] => [(k, v)]
  | (k', v') :: d' =>
      if String.eqb k k' then (k', v) :: d' else (k', v') :: set d' k v
  end.

(** [d.update(e)]. *)
Definition update {V} (d e : t V) : t V :=
  fold_left (fun acc kv => set acc (fst kv) (snd kv)) e d.

Definition keys {V} (d : t V) : list string := map fst d.

End PyDict.

(* ===================================================================== *)
(** ** Calls that may raise *)
(* ===================================================================== *)

(** What a Python call does: it returns a value or raises an exception,
    kept here by its message. *)
Inductive outcome (A : Type) : Type :=
| Returned (a : A)
| Raised (e : string).

Arguments Returned {A} a.
Arguments Raised {A} e.

#[global] Instance outcome_bind : MBind outcome := fun A B k m =>
  match m with
  | Returned a => k a
  | Raised e => Raised e
  end.

(** A loop that calls [f] on each element in turn and ends at the first
    call that raises. *)
Fixpoint each {A B : Type} (f : A -> outcome B) (l : list A) : outcome (list B) :=
  match l with
  | [] => Returned []
  | x :: l' => y ← f x; ys ← each f l'; Returned (y :: ys)
  end.

(* ===================================================================== *)
(** ** The values of cells and record fields *)
(* ===================================================================== *)

(** A value read from a sheet: a [str], or an object of another type (an
    [int], a [float], a [bool], a time stamp) given by the name of its type,
    its [str] image and its truth value. *)
Inductive value : Type :=
| Str (s : string)
| Obj (type_name image : string) (truth : bool).

(** [str(v)]. *)
Definition str_of (v : value) : string :=
  match v with
  | Str s => s
  | Obj _ image _ => image
  end.

(** [type(v).__name__]. *)
Definition type_name_of (v : value) : string :=
  match v with
  | Str _ => "str"
  | Obj type_name _ _ => type_name
  end.

(** [bool(v)], the test of [if v]. *)
Definition bool_of (v : value) : bool :=
  match v with
  | Str s => PyStr.truthy s
  | Obj _ _ truth => truth
  end.

(** A row of replacement data, or one auxiliary record: field name to
    value. *)
Definition record : Type := PyDict.t value.

(** [str(d.get(k, ''))]. *)
Definition get_str (d : record) (k : string) : string :=
  str_of (PyDict.get_or d k (Str "")).

(** The items of [sep.join(l)]: an item that is not a [str] raises
    [TypeError]. *)
Fixpoint str_items (i : nat) (l : list value) : outcome (list string) :=
  match l with
  | [] => Returned []
  | Str s :: l' => items ← str_items (S i) l'; Returned (s :: items)
  | Obj type_name _ _ :: _ =>
      Raised ("sequence item " +:+ PyStr.str_of_nat i
                +:+ ": expected str instance, " +:+ type_name +:+ " found")
  end.

(** [sep.join(l)] on a list of values. *)
Definition join_values (sep : string) (l : list value) : outcome string :=
  items ← str_items 0 l; Returned (PyStr.join sep items).

(* ===================================================================== *)
(** ** The ranked-needs transformation *)
(* ===================================================================== *)

Module Ranking.
Import PyStr.

(** The guard of [process_bus_info_needs_ranking]:
    [not bus_info_needs or bus_info_needs.lower() in ['nan', 'na', '']]. *)
Definition no_needs (bus_info_needs : string) : bool :=
  negb (truthy bus_info_needs)
  || in_list (lower bus_info_needs) ["nan"; "na"; ""].

(** [[item.strip() for item in bus_info_needs.split(',') if item.strip()]]. *)
Definition split_items (bus_info_needs : string) : list string :=
  map strip (List.filter (fun item => truthy (strip item)) (split "," bus_info_needs)).

(** One turn of the loop over [items]: what [processed_items] becomes. *)
Definition process_item (bus_info_needs_o : string)
    (processed_items : list string) (item : string) : list string :=
  let item_clean := strip item in
  if truthy item_clean && negb (in_list (lower item_clean) ["na"; ""]) then
    if in_list (lower item_clean) ["others"; "specify"] then
      if truthy bus_info_needs_o
         && negb (in_list (lower bus_info_needs_o) ["nan"; "na"; ""])
      then processed_items ++ ["Others, specify: " +:+ bus_info_needs_o]
      else processed_items ++ ["Others, specify"]
    else processed_items ++ [item_clean]
  else processed_items.

(** The list [processed_items] at the end of the loop; the early return of
    the guard computes no list and stands for the empty one. *)
Definition processed_items (data_row : record) : list string :=
  let bus_info_needs := strip (get_str data_row "bus_info_needs") in
  let bus_info_needs_o := strip (get_str data_row "bus_info_needs_o") in
  if no_needs bus_info_needs then []
  else fold_left (process_item bus_info_needs_o) (split_items bus_info_needs) [].

Definition reason_key (i : nat) : string :=
  "bus_info_needs_rank_reason" +:+ str_of_nat i.

(** The value stored under [reason_key i] when [n] items were kept. *)
Definition reason_slot (data_row : record) (n i : nat) : string :=
  if (i <=? n)%nat then
    match PyDict.get data_row (reason_key i) with
    | Some v =>
        if negb (in_list (strip (str_of v)) [""; "nan"; "NA"]) then str_of v
        else token (reason_key i)
    | None => token (reason_key i)
    end
  else "".

(** [range(1, 10)]. *)
Definition reason_indices : list nat := seq 1 9.

Definition process_bus_info_needs_ranking (data_row : record) : record :=
  let bus_info_needs := strip (get_str data_row "bus_info_needs") in
  let result : record := [] in
  if no_needs bus_info_needs then
    let result := PyDict.set result "bus_info_needs" (Str "") in
    let result := PyDict.set result "bus_info_needs_rank" (Str "") in
    fold_left (fun r i => PyDict.set r (reason_key i) (Str "")) reason_indices result
  else
    let items := processed_items data_row in
    let result := PyDict.set result "bus_info_needs" (Str (join nl items)) in
    let rank_numbers := map str_of_nat (seq 1 (length items)) in
    let result := PyDict.set result "bus_info_needs_rank" (Str (join nl rank_numbers)) in
    fold_left
      (fun r i =>
         PyDict.set r (reason_key i) (Str (reason_slot data_row (length items) i)))
      reason_indices result.

End Ranking.

(* ===================================================================== *)
(** ** Data frames read with [header=None] *)
(* ===================================================================== *)

Module Frame.
Import PyStr.

(** A cell is [None] when [pd.notna] fails on it, else its value. *)
Definition cell : Type := option value.
Definition series : Type := list cell.
Definition t : Type := list series.

(** The columns of a frame read with [header=None] are [0 .. width-1]. *)
Definition width (df : t) : nat := fold_right (fun r w => Nat.max (List.length r) w) 0 df.

(** [row.iloc[c]]: short rows are padded with missing cells. *)
Definition at_col (row : series) (c : nat) : cell := nth c row None.

(** [df.iloc[r]] as the list of its [width df] cells. *)
Definition iloc_row (df : t) (r : nat) : series :=
  map (at_col (nth r df [])) (seq 0 (width df)).

(** [df.iloc[r, c]]. *)
Definition iloc (df : t) (r c : nat) : cell := at_col (nth r df []) c.

(** [df.iloc[4:]]: each row a [Series] over all the columns of the frame. *)
Definition data_rows (df : t) : list series :=
  map (fun r => map (at_col r) (seq 0 (width df))) (skipn 4 df).

(** The index of the first cell of a series that satisfies [p]. *)
Fixpoint first_index_from (p : cell -> bool) (i : nat) (row : series) : option nat :=
  match row with
  | [] => None
  | x :: row' => if p x then Some i else first_index_from p (S i) row'
  end.

Definition first_index (p : cell -> bool) (row : series) : option nat :=
  first_index_from p 0 row.

(** [pd.notna(v) and str(v).strip().upper() == marker]. *)
Definition is_marker (marker : string) (v : cell) : bool :=
  match v with
  | Some s => String.eqb (upper (strip (str_of s))) marker
  | None => false
  end.

(** The loop that looks for a marker cell in row 4 (index 3); it is
    written once for ["KEY"] and once for ["PARENT_KEY"]. *)
Definition marker_column (marker : string) (df : t) : option nat :=
  if (3 <? List.length df)%nat then first_index (is_marker marker) (iloc_row df 3)
  else None.

End Frame.

(* ===================================================================== *)
(** ** The converter tab: its state and the two caches built up front *)
(* ===================================================================== *)

(** The instance state of [DocumentConverterTab] that the rendering engine
    reads or writes.  File contents stand for the paths: an auxiliary file
    that [pd.read_excel] cannot read is [None]. *)
Record tab : Type := Tab {
  additional_excel_paths : list (option Frame.t);
  image_folder_path : option string;
  image_width : N;
  _placeholders_cache : option (list string);
  _additional_data_cache : gmap string (list record);
  _column_mapping_cache : option (PyDict.t nat)
}.

Module Mapper.
Import PyStr.

(** [pd.notna(cell_value)] and
    [str(cell_value).strip().lower() == placeholder.lower()]. *)
Definition cell_matches (placeholder : string) (v : Frame.cell) : bool :=
  match v with
  | Some s => String.eqb (lower (strip (str_of s))) (lower placeholder)
  | None => false
  end.

(** The inner loop: the columns of one row, left to right. *)
Definition scan_row (df : Frame.t) (placeholder : string) (row_idx : nat) : option nat :=
  Frame.first_index (cell_matches placeholder) (Frame.iloc_row df row_idx).

(** The outer loop over [range(search_rows)], left at the first hit. *)
Fixpoint scan_rows (df : Frame.t) (placeholder : string) (rows : list nat) : option nat :=
  match rows with
  | [] => None
  | row_idx :: rows' =>
      match scan_row df placeholder row_idx with
      | Some col => Some col
      | None => scan_rows df placeholder rows'
      end
  end.

Definition search_rows (df : Frame.t) : nat := Nat.min 4 (List.length df).

Definition warning (placeholder : string) : string :=
  "Warning: Placeholder '" +:+ placeholder +:+ "' not found in any of the first 4 rows".

(** The two nested loops for one placeholder. *)
Definition scan (df : Frame.t) (placeholder : string) : option nat :=
  scan_rows df placeholder (seq 0 (search_rows df)).

(** One turn of the loop over the placeholders, on the mapping built so far
    and the lines printed so far. *)
Definition map_placeholder (df : Frame.t)
    (acc : PyDict.t nat * list string) (placeholder : string)
    : PyDict.t nat * list string :=
  match scan df placeholder with
  | Some col_name => (PyDict.set (fst acc) placeholder col_name, snd acc)
  | None => (fst acc, snd acc ++ [warning placeholder])
  end.

(** Python truthiness of the cache: set and not empty. *)
Definition cached (self : tab) : option (PyDict.t nat) :=
  match _column_mapping_cache self with
  | Some (kv :: m) => Some (kv :: m)
  | _ => None
  end.

Definition set_cache (self : tab) (m : PyDict.t nat) : tab :=
  {| additional_excel_paths := additional_excel_paths self;
     image_folder_path := image_folder_path self;
     image_width := image_width self;
     _placeholders_cache := _placeholders_cache self;
     _additional_data_cache := _additional_data_cache self;
     _column_mapping_cache := Some m |}.

(** [find_column_mapping]: the new state, the mapping returned and the
    warnings printed. *)
Definition find_column_mapping (self : tab) (df : Frame.t) (placeholders : list string)
    : tab * PyDict.t nat * list string :=
  match cached self with
  | Some m => (self, m, [])
  | None =>
      let '(column_mapping, printed) :=
        fold_left (map_placeholder df) placeholders ([], []) in
      (set_cache self column_mapping, column_mapping, printed)
  end.

(** The specification's words: cell [(r, c)] is the first cell of rows 0-3,
    rows top to bottom and cells left to right, that matches. *)
Definition matches_at (df : Frame.t) (placeholder : string) (r c : nat) : Prop :=
  r < 4 /\ r < List.length df /\ c < Frame.width df
  /\ cell_matches placeholder (Frame.iloc df r c) = true.

Definition first_match (df : Frame.t) (placeholder : string) (r c : nat) : Prop :=
  matches_at df placeholder r c
  /\ forall r' c', matches_at df placeholder r' c' ->
       r < r' \/ (r = r' /\ c <= c').

(** The claim about one placeholder: it is bound to the column of its
    first match, or it matches nowhere, is left out and is warned about. *)
Definition binds_first_match (self : tab) (df : Frame.t) (placeholders : list string)
    (placeholder : string) : Prop :=
  let mapping := snd (fst (find_column_mapping self df placeholders)) in
  let printed := snd (find_column_mapping self df placeholders) in
  (exists r c, first_match df placeholder r c
               /\ PyDict.get mapping placeholder = Some c)
  \/ ((forall r c, ~ matches_at df placeholder r c)
      /\ PyDict.get mapping placeholder = None
      /\ In (warning placeholder) printed).

End Mapper.

Module AuxIndex.
Import PyStr.

(** The dictionary built for one data row: header to value, blank for a
    missing value; a missing header gives no entry. *)
Definition make_row_data (headers row : Frame.series) (ncols : nat) : record :=
  fold_left
    (fun row_data idx =>
       match Frame.at_col headers idx with
       | Some header =>
           PyDict.set row_data (strip (str_of header))
             (match Frame.at_col row idx with Some v => v | None => Str "" end)
       | None => row_data
       end)
    (seq 0 ncols) [].

(** One turn of the loop over the data rows of a file. *)
Definition add_row (df : Frame.t) (parent_key_col : nat)
    (cache : gmap string (list record)) (row : Frame.series)
    : gmap string (list record) :=
  match Frame.at_col row parent_key_col with
  | Some v =>
      let key_value := strip (str_of v) in
      let cache :=
        match cache !! key_value with
        | Some _ => cache
        | None => <[key_value := []]> cache
        end in
      let row_data := make_row_data (Frame.iloc_row df 3) row (Frame.width df) in
      alter (fun l => l ++ [row_data]) key_value cache
  | None => cache
  end.

(** One turn of the loop over [additional_excel_paths]. *)
Definition add_file (cache : gmap string (list record)) (file : option Frame.t)
    : gmap string (list record) :=
  match file with
  | None => cache
  | Some df =>
      match Frame.marker_column "PARENT_KEY" df with
      | Some parent_key_col =>
          fold_left (add_row df parent_key_col) (Frame.data_rows df) cache
      | None => cache
      end
  end.

Definition _preload_additional_data (self : tab) : tab :=
  {| additional_excel_paths := additional_excel_paths self;
     image_folder_path := image_folder_path self;
     image_width := image_width self;
     _placeholders_cache := _placeholders_cache self;
     _additional_data_cache := fold_left add_file (additional_excel_paths self) ∅;
     _column_mapping_cache := _column_mapping_cache self |}.

(** [get_additional_data_for_key_optimized], the key given by its [str]
    image. *)
Definition get_additional_data_for_key_optimized (self : tab) (key_value : string)
    : list record :=
  match _additional_data_cache self !! strip key_value with
  | Some l => l
  | None => []
  end.

(** The list under a key, empty when the key is absent. *)
Definition entries (cache : gmap string (list record)) (key : string) : list record :=
  match cache !! key with Some l => l | None => [] end.

(** What one data row adds under [key]. *)
Definition row_records (df : Frame.t) (col : nat) (key : string) (row : Frame.series)
    : list record :=
  match Frame.at_col row col with
  | Some v =>
      if String.eqb (strip (str_of v)) key
      then [make_row_data (Frame.iloc_row df 3) row (Frame.width df)]
      else []
  | None => []
  end.

(** The specification's words: the records of one file whose trimmed
    PARENT_KEY value is [key], in file order. *)
Definition file_records (file : option Frame.t) (key : string) : list record :=
  match file with
  | None => []
  | Some df =>
      match Frame.marker_column "PARENT_KEY" df with
      | None => []
      | Some col =>
          map (fun row => make_row_data (Frame.iloc_row df 3) row (Frame.width df))
            (List.filter (fun row => match Frame.at_col row col with
                                | Some v => String.eqb (strip (str_of v)) key
                                | None => false
                                end)
               (Frame.data_rows df))
      end
  end.

End AuxIndex.

(* ===================================================================== *)
(** ** [os.path] on POSIX paths *)
(* ===================================================================== *)

Module OsPath.
Import PyStr.

(** [s.rfind(c)], [None] for Python's [-1]. *)
Fixpoint rfind (c : ascii) (s : string) : option nat :=
  match s with
  | "" => None
  | String d s' =>
      match rfind c s' with
      | Some i => Some (S i)
      | None => if Ascii.eqb d c then Some 0 else None
      end
  end.

(** Some character of [s[lo:hi]] differs from [c]. *)
Definition some_other (c : ascii) (s : string) (lo hi : nat) : bool :=
  negb (forallb (fun i => match String.get i s with
                          | Some d => Ascii.eqb d c
                          | None => true
                          end) (seq lo (hi - lo))).

(** [os.path.splitext(p)[0]]: the last dot of the last component starts
    the extension, unless only dots precede it there. *)
Definition splitext_root (p : string) : string :=
  let filenameIndex := match rfind "/" p with Some i => S i | None => 0 end in
  match rfind "." p with
  | Some dotIndex =>
      if (filenameIndex <=? dotIndex)%nat && some_other "." p filenameIndex dotIndex
      then take dotIndex p
      else p
  | None => p
  end.

(** [os.path.basename(p)]. *)
Definition basename (p : string) : string :=
  match rfind "/" p with Some i => drop (S i) p | None => p end.

(** [s.endswith("/")]. *)
Fixpoint ends_with_sep (s : string) : bool :=
  match s with
  | "" => false
  | String c "" => Ascii.eqb c "/"
  | String _ s' => ends_with_sep s'
  end.

(** [os.path.join(a, b)]. *)
Definition join (a b : string) : string :=
  if startswith "/" b then b
  else if is_empty a || ends_with_sep a then a +:+ b
  else a +:+ "/" +:+ b.

End OsPath.

(* ===================================================================== *)
(** ** The placeholder pattern [\{[^}]+\}] *)
(* ===================================================================== *)

Module Pattern.
Import PyStr.

(** The length of the longest run of characters other than ["}"] at the
    head of [s], when a ["}"] ends it. *)
Fixpoint body_length (s : string) : option nat :=
  match s with
  | "" => None
  | String c s' =>
      if Ascii.eqb c "}" then Some 0
      else match body_length s' with Some n => Some (S n) | None => None end
  end.

(** The length of the match of [\{[^}]+\}] at the head of [s], if any. *)
Definition match_length (s : string) : option nat :=
  match s with
  | String c s' =>
      if Ascii.eqb c "{" then
        match body_length s' with
        | Some (S n) => Some (S n + 2)
        | _ => None
        end
      else None
  | "" => None
  end.

(** [pattern.sub('', s)]: the matches are looked for from left to right,
    and the search resumes after each one.  [skip] counts the characters
    of the current match that are still to be dropped. *)
Fixpoint sub_from (skip : nat) (s : string) : string :=
  match s with
  | "" => ""
  | String c s' =>
      match skip with
      | S k => sub_from k s'
      | O =>
          match match_length s with
          | Some n => sub_from (n - 1) s'
          | None => String c (sub_from 0 s')
          end
      end
  end.

Definition sub (s : string) : string := sub_from 0 s.

(** A match of the pattern starts somewhere in [s]. *)
Fixpoint has_match (s : string) : bool :=
  match match_length s with
  | Some _ => true
  | None =>
      match s with
      | "" => false
      | String _ s' => has_match s'
      end
  end.

(** The specification's words: a token [{name}] with a non-empty name free
    of ["}"] occurs somewhere in [s]. *)
Definition no_close (name : string) : Prop :=
  forall i, String.get i name <> Some "}"%char.

Definition has_token (s : string) : Prop :=
  exists pre name post,
    s = pre +:+ "{" +:+ name +:+ "}" +:+ post /\ name <> "" /\ no_close name.

End Pattern.

(* ===================================================================== *)
(** ** The python-docx document tree *)
(* ===================================================================== *)

Module Docx.
Import PyStr.

(** A run holds text or an inline picture of a given width. *)
Inductive run : Type :=
| Text (s : string)
| Picture (image_path : string) (width : N).

Definition paragraph : Type := list run.

(** A table has a grid of [grid] columns and rows of cells; a cell holds
    paragraphs and, nested to any depth, tables. *)
Inductive table : Type :=
| Table (grid : nat) (rows : list (list cell))
with cell : Type :=
| Cell (paragraphs : list paragraph) (tables : list table).

Record document : Type := Document {
  paragraphs : list paragraph;
  tables : list table
}.

Definition run_text (r : run) : string :=
  match r with Text s => s | Picture _ _ => "" end.

(** [paragraph.text]. *)
Definition text (p : paragraph) : string :=
  fold_right (fun r acc => run_text r +:+ acc) "" p.

(** [paragraph.text = s]: one run replaces the content. *)
Definition set_text (s : string) : paragraph := [Text s].

Definition rows (t : table) : list (list cell) :=
  match t with Table _ rs => rs end.

Definition grid (t : table) : nat :=
  match t with Table g _ => g end.

Definition cell_paragraphs (c : cell) : list paragraph :=
  match c with Cell ps _ => ps end.

Definition cell_tables (c : cell) : list table :=
  match c with Cell _ ts => ts end.

(** [cell.text]. *)
Definition cell_text (c : cell) : string :=
  join nl (map text (cell_paragraphs c)).

(** [cell.text = s]: the content becomes one paragraph of one run. *)
Definition set_cell_text (s : string) : cell := Cell [[Text s]] [].

(** A cell of a row made by [table.add_row()]: one empty paragraph. *)
Definition new_cell : cell := Cell [[]] [].

(** [' '.join(cell.text for row in table.rows[:2] for cell in row.cells)]. *)
Definition first_two_rows_text (t : table) : string :=
  join " " (map cell_text (List.concat (firstn 2 (rows t)))).

(** Every paragraph of the tree, nested tables included. *)
Fixpoint table_all_paragraphs (t : table) : list paragraph :=
  match t with
  | Table _ rs => flat_map (flat_map cell_all_paragraphs) rs
  end
with cell_all_paragraphs (c : cell) : list paragraph :=
  match c with
  | Cell ps ts => ps ++ flat_map table_all_paragraphs ts
  end.

Definition all_paragraphs (d : document) : list paragraph :=
  paragraphs d ++ flat_map table_all_paragraphs (tables d).

(** Induction over the tree. *)
Section Induction.
Variable P : table -> Prop.
Variable Q : cell -> Prop.
Hypothesis table_case :
  forall g rs, Forall (Forall Q) rs -> P (Table g rs).
Hypothesis cell_case :
  forall ps ts, Forall P ts -> Q (Cell ps ts).

Fixpoint table_tree_ind (t : table) : P t :=
  match t with
  | Table g rs =>
      table_case g rs
        ((fix over_rows (l : list (list cell)) : Forall (Forall Q) l :=
            match l with
            | [] => @List.Forall_nil _ _
            | r :: l' =>
                @List.Forall_cons _ _ _ _
                  ((fix over_cells (r : list cell) : Forall Q r :=
                      match r with
                      | [] => @List.Forall_nil _ _
                      | c :: r' => @List.Forall_cons _ _ _ _ (cell_tree_ind c) (over_cells r')
                      end) r)
                  (over_rows l')
            end) rs)
  end
with cell_tree_ind (c : cell) : Q c :=
  match c with
  | Cell ps ts =>
      cell_case ps ts
        ((fix over_tables (l : list table) : Forall P l :=
            match l with
            | [] => @List.Forall_nil _ _
            | t :: l' => @List.Forall_cons _ _ _ _ (table_tree_ind t) (over_tables l')
            end) ts)
  end.
End Induction.

End Docx.

(* ===================================================================== *)
(** ** Placeholder substitution, with pictures *)
(* ===================================================================== *)

Module Render.
Import PyStr Docx.

(** [while len(table.rows) > header_rows: table._tbl.remove(table.rows[-1]._tr)].
    Each turn removes one row, so as many turns as there are rows suffice. *)
Fixpoint remove_rows_loop (turns header_rows : nat) (rs : list (list cell))
    : list (list cell) :=
  match turns with
  | O => rs
  | S turns' =>
      if (header_rows <? List.length rs)%nat
      then remove_rows_loop turns' header_rows (removelast rs)
      else rs
  end.

Definition remove_data_rows (header_rows : nat) (rs : list (list cell))
    : list (list cell) :=
  remove_rows_loop (List.length rs) header_rows rs.

(** The cells of a fresh row, then [cells[i].text = s] under the guard
    [len(cells) > i] for each assignment of the list. *)
Definition fill_row (g : nat) (assignments : list (nat * cell)) : list cell :=
  fold_left (fun cells a => <[fst a := snd a]> cells) assignments (repeat new_cell g).

Definition image_extensions : list string :=
  [".png"; ".jpg"; ".jpeg"; ".gif"; ".bmp"; ".tiff"; ".webp"].

(** [value.strip().lower() not in ['', 'nan']] and the like. *)
Definition is_blank (s : string) : bool := in_list (lower (strip s)) [""; "nan"].

Section WithEnvironment.

(** [os.path.exists]. *)
Variable path_exists : string -> bool.

(** Whether [run.add_picture] reads the file; it raises otherwise. *)
Variable picture_loads : string -> bool.

Variable self : tab.

(** The truthiness test on [self.image_folder_path]. *)
Definition image_folder : option string :=
  match image_folder_path self with
  | Some folder => if truthy folder then Some folder else None
  | None => None
  end.

(** The picture run, or what the [except] branch leaves: the empty run
    made by [add_run()] and a run that names the file. *)
Definition picture_runs (image_path : string) (width : N) : paragraph :=
  if picture_loads image_path then [Picture image_path width]
  else [Text ""; Text ("[Image not found: " +:+ OsPath.basename image_path +:+ "]")].

(** The paragraph afterwards, and the value returned. *)
Definition replace_image_in_paragraph (paragraph : Docx.paragraph)
    (image_path : string) (width : N) (placeholder_name : string)
    : Docx.paragraph * bool :=
  if contains (token placeholder_name) (text paragraph) then
    let text_parts := split_str (token placeholder_name) (text paragraph) in
    let before_text := nth 0 text_parts "" in
    let after_text :=
      if (1 <? List.length text_parts)%nat then nth 1 text_parts "" else "" in
    ((if truthy before_text then [Text before_text] else [])
       ++ picture_runs image_path width
       ++ (if truthy after_text then [Text after_text] else []),
     true)
  else (paragraph, false).

(** The name tried for one entry of [[''] + image_extensions]. *)
Definition test_filename (image_filename ext : string) : string :=
  if is_empty ext then image_filename
  else OsPath.splitext_root image_filename +:+ ext.

(** The loop over [[''] + image_extensions], left at the first name that
    exists and takes the picture. *)
Fixpoint try_extensions (folder image_filename : string) (paragraph : Docx.paragraph)
    (exts : list string) : option Docx.paragraph :=
  match exts with
  | [] => None
  | ext :: exts' =>
      let image_path := OsPath.join folder (test_filename image_filename ext) in
      if path_exists image_path then
        match replace_image_in_paragraph paragraph image_path (image_width self) "resp_pix" with
        | (p, true) => Some p
        | (_, false) => try_extensions folder image_filename paragraph exts'
        end
      else try_extensions folder image_filename paragraph exts'
  end.

(** The image branch of the paragraph loop: [Some] when a picture was
    inserted and the text replacement is skipped. *)
Definition try_image (data_row : record) (paragraph : Docx.paragraph) : option Docx.paragraph :=
  match image_folder with
  | Some folder =>
      if PyDict.mem data_row "resp_pix" && contains "{resp_pix}" (text paragraph) then
        let image_filename := strip (get_str data_row "resp_pix") in
        if truthy image_filename && negb (String.eqb (lower image_filename) "nan")
        then try_extensions folder image_filename paragraph ("" :: image_extensions)
        else None
      else None
  | None => None
  end.

(** [for key, value in data_row.items(): new_text = new_text.replace(...)]. *)
Definition substitute (data_row : record) (s : string) : string :=
  fold_left (fun new_text kv => replace (token (fst kv)) (str_of (snd kv)) new_text)
    data_row s.

(** The regular text replacement of one paragraph. *)
Definition replace_text (data_row : record) (paragraph : Docx.paragraph) : Docx.paragraph :=
  let original_text := text paragraph in
  let new_text := substitute data_row original_text in
  if String.eqb new_text original_text then paragraph else set_text new_text.

(** The body of the loop over paragraphs; the source writes it once for
    the paragraphs of the document and once for those of table cells. *)
Definition replace_in_paragraph (data_row : record) (paragraph : Docx.paragraph) : Docx.paragraph :=
  if contains "{" (text paragraph) then
    match try_image data_row paragraph with
    | Some p => p
    | None => replace_text data_row paragraph
    end
  else paragraph.

(** The specification's words: the names tried for an image-name value,
    in order, and what the paragraph becomes once the lookup is made. *)
Definition image_candidates (image_filename : string) : list string :=
  image_filename
    :: map (fun ext => OsPath.splitext_root image_filename +:+ ext) image_extensions.

Definition lookup_result (folder image_filename : string) (data_row : record)
    (paragraph : Docx.paragraph) : Docx.paragraph :=
  match List.find (fun name => path_exists (OsPath.join folder name))
          (image_candidates image_filename) with
  | Some name =>
      fst (replace_image_in_paragraph paragraph (OsPath.join folder name)
             (image_width self) "resp_pix")
  | None => replace_text data_row paragraph
  end.

(** The claim as the specification states it: the lookup is made, on the
    value as it stands in the row, whenever a folder is configured and
    the paragraph holds the image placeholder. *)
Definition looks_up_verbatim (data_row : record) (paragraph : Docx.paragraph) : Prop :=
  forall folder,
    image_folder = Some folder ->
    contains "{resp_pix}" (text paragraph) = true ->
    replace_in_paragraph data_row paragraph
      = lookup_result folder (get_str data_row "resp_pix") data_row paragraph.

Definition is_bus_info_needs_table (s : string) : bool :=
  contains "{bus_info_needs}" s
  || contains "What types of information would be helpful" s
  || contains "Information Needs" s.

(** No table of the tree is taken for the information-needs table. *)
Fixpoint no_needs_table (t : table) : bool :=
  negb (is_bus_info_needs_table (first_two_rows_text t))
  && match t with
     | Table _ rs => forallb (forallb no_needs_in_cell) rs
     end
with no_needs_in_cell (c : cell) : bool :=
  match c with
  | Cell _ ts => forallb no_needs_table ts
  end.

(** The text of the paragraph holds the token of no key of the row. *)
Definition token_free (data_row : record) (p : paragraph) : bool :=
  forallb (fun kv : string * value => negb (contains (token (fst kv)) (text p)))
    data_row.

(** The row added for item [i] of the ranked list. *)
Definition bus_info_needs_row (data_row : record) (g i : nat) (item : string)
    : list cell :=
  fill_row g
    [(0, set_cell_text (strip item));
     (1, set_cell_text (str_of_nat i));
     (2, set_cell_text
           (match PyDict.get data_row (Ranking.reason_key i) with
            | Some v =>
                if negb (in_list (strip (str_of v)) [""; "nan"; "NA"]) then str_of v
                else ""
            | None => ""
            end))].

Definition populate_bus_info_needs_table (t : table) (data_row : record) : table :=
  let ranked_data := Ranking.process_bus_info_needs_ranking data_row in
  let items_text := get_str ranked_data "bus_info_needs" in
  if negb (truthy items_text) then t
  else
    let items := split (ascii_of_nat 10) items_text in
    let header_rows := 2 in
    Table (grid t)
      (fold_left
         (fun rs (ix : nat * string) =>
            if truthy (strip (snd ix))
            then rs ++ [bus_info_needs_row data_row (grid t) (fst ix) (snd ix)]
            else rs)
         (enumerate1 items)
         (remove_data_rows header_rows (rows t))).

(** [_replace_in_tables_optimized], one table and one cell at a time. *)
Fixpoint replace_in_table (data_row : record) (t : table) : table :=
  if is_bus_info_needs_table (first_two_rows_text t)
  then populate_bus_info_needs_table t data_row
  else
    match t with
    | Table g rs => Table g (map (map (replace_in_cell data_row)) rs)
    end
with replace_in_cell (data_row : record) (c : cell) : cell :=
  match c with
  | Cell ps ts =>
      Cell (map (replace_in_paragraph data_row) ps)
           (map (replace_in_table data_row) ts)
  end.

Definition _replace_in_tables_optimized (ts : list table) (data_row : record)
    : list table :=
  map (replace_in_table data_row) ts.

(** [replace_placeholders_optimized]: the document afterwards, and the
    caller's [data_row], which [data_row.update(ranked_data)] changes. *)
Definition replace_placeholders_optimized (doc : document) (data_row : record)
    : document * record :=
  let data_row :=
    if PyDict.mem data_row "bus_info_needs"
    then PyDict.update data_row (Ranking.process_bus_info_needs_ranking data_row)
    else data_row in
  ({| paragraphs := map (replace_in_paragraph data_row) (paragraphs doc);
      tables := _replace_in_tables_optimized (tables doc) data_row |},
   data_row).

End WithEnvironment.

End Render.

(* ===================================================================== *)
(** ** Population of the roster tables from the auxiliary records *)
(* ===================================================================== *)

Module Populate.
Import PyStr Docx.

(** The keys of [categorized_data]. *)
Inductive data_category : Type :=
| hh_member | labor | debt | land | struct | affected_struct
| tree | crop | income_loss | others.

(** The branches of the table dispatch of
    [populate_dynamic_tables_optimized], in source order. *)
Inductive table_category : Type :=
| HHMember | Savings | Labor | Debt | Land | Structure
| AffectedStructure | Trees | Crops | IncomeLoss | Others.

Definition data_category_eqb (a b : data_category) : bool :=
  match a, b with
  | hh_member, hh_member | labor, labor | debt, debt | land, land
  | struct, struct | affected_struct, affected_struct | tree, tree
  | crop, crop | income_loss, income_loss | others, others => true
  | _, _ => false
  end.

(** [any(test(key) for key in row_keys)]. *)
Definition any_key (test : string -> bool) (row : record) : bool :=
  existsb test (PyDict.keys row).

Definition starts_with_any (prefixes : list string) (key : string) : bool :=
  existsb (fun p => startswith p key) prefixes.

(** The [if]/[elif] chain that sorts one auxiliary record. *)
Definition categorize (row : record) : option data_category :=
  if any_key (fun key => contains "crop" (lower key)) row then Some crop
  else if any_key (fun key => contains "income_loss" (lower key)
                              || contains "incomeloss" (lower key)) row
  then Some income_loss
  else if any_key (fun key => contains "others" (lower key)) row then Some others
  else if any_key (startswith "hhcomp_hhmmbr_") row then Some hh_member
  else if any_key (starts_with_any ["hh_labor_"; "hh_wrk_"; "hh_calc_"; "hh_total_"]) row
  then Some labor
  else if any_key (starts_with_any ["debt_"; "loan_"; "pymt_"]) row then Some debt
  else if any_key (startswith "asset_land_") row then Some land
  else if any_key (startswith "asset_struct_") row then Some struct
  else if any_key (startswith "affctd_struct_") row then Some affected_struct
  else if any_key (startswith "tree_") row then Some tree
  else None.

(** [categorized_data[c]] after the loop over [additional_rows]. *)
Definition categorized (c : data_category) (additional_rows : list record)
    : list record :=
  List.filter
    (fun row => match categorize row with
                | Some c' => data_category_eqb c' c
                | None => false
                end)
    additional_rows.

(** The table dispatch: the first signature found in the text of the first
    two rows decides. *)
Definition classify (first_two_rows_text : string) : option table_category :=
  let s := first_two_rows_text in
  if contains "Name of HH Member" s then Some HHMember
  else if contains "Ownership of at least one savings account" s then Some Savings
  else if contains "Labor Force Status" s then Some Labor
  else if contains "With formal loan contract? (Y/N)" s then Some Debt
  else if contains "13.1 Affected Assets: Land" s
          || contains "10.0 Affected Assets: Land" s then Some Land
  else if contains "13.2 Affected Assets: Structure" s
          || contains "10.2 Affected Assets: Structure" s then Some Structure
  else if contains "13.3 Affected Structure" s
          || contains "10.3 Affected Structure" s then Some AffectedStructure
  else if contains "13.4 Trees" s || contains "10.4 Trees" s then Some Trees
  else if contains "13.5 Crops" s || contains "10.5 Crops" s
          || contains "crops_grp_converted" (lower s) then Some Crops
  else if contains "13.6 Income Loss" s || contains "10.6 Income Loss" s
          || contains "income_loss_grp_converted" (lower s) then Some IncomeLoss
  else if contains "13.7 Others" s || contains "10.7 Others" s
          || contains "others_grp_converted" (lower s) then Some Others
  else None.

(** The records each branch passes to its [populate_*_table]. *)
Definition source (c : table_category) : data_category :=
  match c with
  | HHMember | Savings => hh_member
  | Labor => labor
  | Debt => debt
  | Land => land
  | Structure => struct
  | AffectedStructure => affected_struct
  | Trees => tree
  | Crops => crop
  | IncomeLoss => income_loss
  | Others => others
  end.

(** The bound of the [while len(table.rows) > ...] loop of each
    [populate_*_table]. *)
Definition header_rows (c : table_category) : nat :=
  match c with
  | HHMember => 2
  | Savings => 1
  | Labor => 3
  | Debt => 1
  | Land => 2
  | Structure => 2
  | AffectedStructure => 2
  | Trees => 1
  | Crops => 1
  | IncomeLoss => 1
  | Others => 1
  end.

(** [str(row_data.get(key, ''))]. *)
Definition field (row_data : record) (key : string) : string :=
  get_str row_data key.

(** [row_data.get(key, '')]. *)
Definition raw (row_data : record) (key : string) : value :=
  PyDict.get_or row_data key (Str "").

(** A coded field followed by its free-text companion when that one is
    filled in: [f"{main}{infix}{other}"], else [str(main)]. *)
Definition specify (infix : string) (row_data : record) (main other : string) : string :=
  let m := raw row_data main in
  let o := raw row_data other in
  if bool_of o && negb (Render.is_blank (str_of o))
  then str_of m +:+ infix +:+ str_of o
  else str_of m.

(** An assignment [cells[i].text = ...]: the cell it sets, or the exception
    that computing the text raises. *)
Definition plain (i : nat) (s : string) : nat * outcome cell :=
  (i, Returned (set_cell_text s)).

(** The slots filled by the loop over [row_data.items()] of the crops,
    income-loss and others tables: each entry with a true value goes to
    the first slot of the [elif] chain whose test its lower-cased key
    passes; a later entry overwrites an earlier one. *)
Fixpoint first_slot (tests : list (string -> bool)) (key_lower : string) (i : nat)
    : option nat :=
  match tests with
  | [] => None
  | test :: tests' => if test key_lower then Some i else first_slot tests' key_lower (S i)
  end.

Definition flexible_slots (tests : list (string -> bool)) (row_data : record)
    : list string :=
  fold_left
    (fun slots (kv : string * value) =>
       if bool_of (snd kv) then
         match first_slot tests (lower (fst kv)) 0 with
         | Some i => <[i := str_of (snd kv)]> slots
         | None => slots
         end
       else slots)
    row_data (repeat "" (List.length tests)).

Definition crop_tests : list (string -> bool) :=
  [ (fun k => contains "crop" k && contains "type" k);
    (fun k => contains "crop" k && contains "age" k);
    (fun k => contains "crop" k && contains "area" k);
    (fun k => contains "crop" k && contains "price" k);
    (fun k => contains "crop" k && (contains "total" k || contains "cost" k)) ].

Definition quantity_tests (term : string) : list (string -> bool) :=
  [ (fun k => contains term k && contains "type" k);
    (fun k => contains term k && (contains "qty" k || contains "quantity" k));
    (fun k => contains term k && contains "unit" k && negb (contains "price" k));
    (fun k => contains term k && contains "price" k);
    (fun k => contains term k && (contains "total" k || contains "cost" k)) ].

(** The five cells that receive the slots, in order. *)
Definition slot_cells (slots : list string) : list (nat * outcome cell) :=
  [ plain 0 (nth 0 slots ""); plain 1 (nth 1 slots ""); plain 2 (nth 2 slots "");
    plain 3 (nth 3 slots ""); plain 4 (nth 4 slots "") ].

(** [Inches(1.5)] in English Metric Units. *)
Definition inches_1_5 : N := 1371600%N.

Definition pix_keys : list string :=
  ["Pix1"; "Pix2"; "Pix3"; "Pix4"; "Pix5"; "Pix6"; "Pix7"; "Pix8"; "Pix9"; "Pix10"].

Section WithEnvironment.

Variable path_exists : string -> bool.
Variable picture_loads : string -> bool.
Variable self : tab.

(** The text of the total of the [hh_calc_total_inc] values that pass the
    guard of the labor branch: [float] conversion, floating-point addition
    and [str] are not modelled. *)
Variable float_sum_text : list value -> string.

(** [value and str(value).strip() and str(value).lower() != 'nan']. *)
Definition pix_given (v : value) : bool :=
  bool_of v && truthy (strip (str_of v))
  && negb (String.eqb (lower (str_of v)) "nan").

(** The [for ext ... else] loop of [insert_images_in_cell]. *)
Fixpoint find_image (folder image_filename : string) (exts : list string) : string :=
  match exts with
  | [] => "[Image not found: " +:+ image_filename +:+ "]"
  | ext :: exts' =>
      let image_path := OsPath.join folder (Render.test_filename image_filename ext) in
      if path_exists image_path then image_path
      else find_image folder image_filename exts'
  end.

(** The runs added for the left or the right image of a line. *)
Definition image_runs (image : string) (width : N) : paragraph :=
  if startswith "[Image not found:" image then [Text image]
  else if picture_loads image then [Picture image width]
  else [Text ""; Text ("[Error loading: " +:+ OsPath.basename image +:+ "]")].

(** The paragraphs of the two-column layout: the first line goes into
    the paragraph the cell has, each later one after an empty one. *)
Fixpoint image_lines (first : bool) (valid_images : list string) (width : N)
    : list paragraph :=
  match valid_images with
  | [] => []
  | [left_image] =>
      (if first then [] else [[]])
        ++ [image_runs left_image width ++ [Text "    "]]
  | left_image :: right_image :: rest =>
      (if first then [] else [[]])
        ++ [image_runs left_image width ++ [Text "    "] ++ image_runs right_image width]
        ++ image_lines false rest width
  end.

(** The cell left by [insert_images_in_cell]. *)
Definition insert_images_in_cell (row_data : record) (width : N) : cell :=
  match Render.image_folder self with
  | None =>
      set_cell_text
        (join ", " (map str_of (List.filter pix_given (map (raw row_data) pix_keys))))
  | Some folder =>
      let valid_images :=
        map (fun v => find_image folder (strip (str_of v)) ("" :: Render.image_extensions))
            (List.filter pix_given (map (raw row_data) pix_keys)) in
      match valid_images with
      | [] => set_cell_text "No images"
      | _ => Cell (image_lines true valid_images width) []
      end
  end.

(** The cells assigned in the row added for record number [idx]. *)
Definition new_row (c : table_category) (idx : nat) (row_data : record)
    : list (nat * outcome cell) :=
  let f := field row_data in
  match c with
  | HHMember =>
      [ plain 0 (str_of_nat idx);
        plain 1 (strip (f "hhcomp_hhmmbr_fname" +:+ " " +:+ f "hhcomp_hhmmbr_mname"
                          +:+ " " +:+ f "hhcomp_hhmmbr_lname"));
        plain 2 (f "hhcomp_hhmmbr_hhreltn");
        plain 3 (f "hhcomp_hhmmbr_hhage");
        plain 4 (f "hhcomp_hhmmbr_hhsex");
        plain 5 (f "hhcomp_hhmmbr_status");
        plain 6 (specify " Pls. Specify: " row_data "hhcomp_hhmmbr_relg" "hhcomp_hhmmbr_relg_o");
        plain 7 (f "hhcomp_hhmmbr_brtplc");
        plain 8 (f "hhcomp_hhmmbr_educ");
        plain 9 (f "hhcomp_hhmmbr_ethn") ]
  | Savings =>
      [ plain 0 (str_of_nat idx);
        plain 1 (f "hhcomp_hhmmbr_ethn");
        plain 2 (specify " Pls. Specify " row_data "hhcomp_hhmmbr_savings" "hhcomp_hhmmbr_savings_o");
        plain 3 (f "hhcomp_hhmmbr_phone");
        plain 4 (specify " Pls. Specify " row_data "hhcomp_hhmmbr_org" "hhcomp_hhmmbr_org_o");
        plain 5 (f "hhcomp_hhmmbr_org_mem");
        plain 6 (f "hhcomp_hhmmbr_disability") ]
  | Labor =>
      [ plain 0 (str_of_nat idx);
        plain 1 (f "hh_labor_stat");
        plain 2 (specify " Pls. Specify " row_data "hh_labor_pri_src" "hh_labor_pri_src_o");
        plain 3 (f "hh_labor_pri_industry");
        plain 4 (f "hh_labor_pri_plc_work");
        plain 5 (f "hh_labor_pri_inc");
        plain 6 (f "hh_labor_occ_other");
        plain 7 (f "hh_labor_other_industry");
        plain 8 (f "hh_labor_occ_other_plc_wrk");
        plain 9 (f "hh_labor_occ_other_inc");
        plain 10 (f "hh_calc_total_inc");
        plain 11 (f "hh_wrk_hrs") ]
  | Debt =>
      [ plain 0 (specify " Pls. Specify " row_data "debt_src_name" "debt_src_name_o");
        plain 1 (f "debt_contract");
        plain 2 (f "debt_contract_y");
        plain 3 (f "debt_amt");
        plain 4 (specify " Pls. Specify " row_data "loan_used" "loan_used_o");
        plain 5 (f "pymt_terms" +:+ f "pymt_terms_int" +:+ f "pymt_terms_amt"
                   +:+ ", " +:+ f "pymt_terms_long");
        plain 6 (f "debt_balance");
        plain 7 (f "debt_fam_proc");
        plain 8 (f "debt_fam_payment") ]
  | Land =>
      [ plain 0 (str_of_nat idx);
        plain 1 (f "asset_land_area");
        plain 2 (f "asset_land_area_aff");
        plain 3 (f "asset_land_ext_impact");
        plain 4 (f "asset_land_type");
        plain 5 (specify ", Please Specify " row_data "asset_land_use" "asset_land_use_o");
        plain 6 (specify ", Please Specify " row_data
                   "asset_land_tenure_owner" "asset_land_tenure_owner_o");
        plain 7 (specify ", Please Specify " row_data
                   "asset_land_proof_owner" "asset_land_proof_owner_o");
        plain 8 (f "asset_land_yrs_used");
        plain 9 (f "asset_land_price_prch");
        plain 10 (specify ", Please Specify " row_data
                    "asset_land_pymnt_trms" "asset_land_pymnt_trms_o");
        plain 11 (f "asset_land_pymnt_amt") ]
  | Structure =>
      let asset_struct_type := raw row_data "asset_struct_type" in
      let oth := raw row_data "asset_struct_type_oth" in
      let oth_o := raw row_data "asset_struct_type_oth_o" in
      let type_parts :=
        [asset_struct_type]
          ++ (if bool_of oth && negb (Render.is_blank (str_of oth))
              then [Str ("Please Specify " +:+ str_of oth)] else [])
          ++ (if bool_of oth_o && negb (Render.is_blank (str_of oth_o))
              then [Str (str_of oth)] else []) in
      [ plain 0 (str_of_nat idx);
        plain 1 (f "asset_struct_area");
        plain 2 (f "asset_struct_area_aff");
        plain 3 (f "asset_struct_ext_impact");
        (4, text ← join_values ", " (List.filter bool_of type_parts);
            Returned (set_cell_text text));
        plain 5 (specify ", Please Specify " row_data "asset_struct_use" "asset_struct_use_o");
        plain 6 (specify ", Please Specify " row_data
                   "asset_struct_tenure_owner" "asset_struct_tenure_owner_o");
        plain 7 (specify ", Please Specify " row_data
                   "asset_struct_proof_owner" "asset_struct_proof_owner_o");
        plain 8 (f "asset_struct_yrs_used");
        plain 9 (f "asset_struct_price_prch");
        plain 10 (specify ", Please Specify " row_data
                    "asset_struct_pymnt_trms" "asset_struct_pymnt_trms_o");
        plain 11 (f "asset_struct_pymnt_amt");
        plain 12 (f "asset_struct_mrkt_val") ]
  | AffectedStructure =>
      [ plain 0 (specify ", Please Specify " row_data
                   "affctd_struct_type_zz" "affctd_struct_type_zz_o");
        plain 1 (f "affctd_struct_mtrl_type");
        plain 2 (f "affctd_struct_dimension");
        plain 3 (join ", "
                   (List.filter (fun part => truthy part && negb (Render.is_blank part))
                      [f "affctd_struct_unit"; f "affctd_struct_ht"]));
        plain 4 (f "affctd_struct_estvalue");
        plain 5 (f "affctd_struct_totalcost");
        (6, Returned (insert_images_in_cell row_data inches_1_5)) ]
  | Trees =>
      [ plain 0 (f "tree_type");
        plain 1 (strip_chars ", " (f "tree_age" +:+ ", " +:+ f "tree_height"));
        plain 2 (f "tree_qty");
        plain 3 (f "tree_price");
        plain 4 (f "tree_totalcost") ]
  | Crops => slot_cells (flexible_slots crop_tests row_data)
  | IncomeLoss => slot_cells (flexible_slots (quantity_tests "income") row_data)
  | Others => slot_cells (flexible_slots (quantity_tests "others") row_data)
  end.

(** The assignments of a row whose guard [len(cells) > i] passes, each text
    computed under its guard; the first one that raises ends the row. *)
Fixpoint evaluate (g : nat) (assignments : list (nat * outcome cell))
    : outcome (list (nat * cell)) :=
  match assignments with
  | [] => Returned []
  | (i, text) :: rest =>
      if (i <? g)%nat
      then c ← text; cells ← evaluate g rest; Returned ((i, c) :: cells)
      else evaluate g rest
  end.

(** One turn of the loop over the records: [table.add_row()] and the
    assignments to its cells. *)
Definition add_record (c : table_category) (g : nat) (ir : nat * record)
    : outcome (list cell) :=
  cells ← evaluate g (new_row c (fst ir) (snd ir));
  Returned (Render.fill_row g cells).

(** The loop over the records, on the rows the table has so far; an
    exception ends it. *)
Fixpoint add_records (c : table_category) (g : nat) (rs : list (list cell))
    (l : list (nat * record)) : outcome (list (list cell)) :=
  match l with
  | [] => Returned rs
  | ir :: l' => r ← add_record c g ir; add_records c g (rs ++ [r]) l'
  end.

(** [populate_hh_member_table], [populate_savings_table] and their nine
    siblings: the rows beyond the header rows are removed, then one row
    is added for each record; an exception leaves the function. *)
Definition populate_table (c : table_category) (t : table)
    (additional_rows : list record) : outcome table :=
  rs ← add_records c (grid t)
         (Render.remove_data_rows (header_rows c) (rows t))
         (enumerate1 additional_rows);
  Returned (Table (grid t) rs).

(** The rows that [populate_table] adds, one per record. *)
Definition added_rows (c : table_category) (t : table)
    (additional_rows : list record) : outcome (list (list cell)) :=
  each (add_record c (grid t)) (enumerate1 additional_rows).

(** The one text that the populate functions join from a value as it was
    read: the type of a structure record, in a table that has its fifth
    column, when the value is a true object other than a [str]. *)
Definition type_mismatch (c : table_category) (g : nat) (row_data : record) : bool :=
  match c with
  | Structure =>
      (4 <? g)%nat
      && match raw row_data "asset_struct_type" with
         | Str _ => false
         | Obj _ _ truth => truth
         end
  | _ => false
  end.

(** The message of the [TypeError] of [", ".join] on a first item of type
    [type_name]. *)
Definition join_error (type_name : string) : string :=
  "sequence item 0: expected str instance, " +:+ type_name +:+ " found".

(** The values added up for [{hh_calc_total_sum}];
    [row.get('hh_calc_total_inc', 0)] gives the number 0 for a record
    without the field. *)
Definition hh_calc_values (additional_rows : list record) : list value :=
  List.filter
    (fun v => bool_of v && truthy (strip (str_of v))
              && negb (String.eqb (lower (str_of v)) "nan"))
    (map (fun row => PyDict.get_or row "hh_calc_total_inc" (Obj "int" "0" false))
       (categorized labor additional_rows)).

(** One paragraph of [replace_sum_placeholder]. *)
Definition replace_sum_in_paragraph (placeholder_text sum_text : string)
    (p : paragraph) : paragraph :=
  if contains placeholder_text (text p)
  then set_text (replace placeholder_text sum_text (text p))
  else p.

Fixpoint replace_sum_in_table (placeholder_text sum_text : string) (t : table) : table :=
  match t with
  | Table g rs =>
      Table g (map (map (replace_sum_in_cell placeholder_text sum_text)) rs)
  end
with replace_sum_in_cell (placeholder_text sum_text : string) (c : cell) : cell :=
  match c with
  | Cell ps ts =>
      Cell (map (replace_sum_in_paragraph placeholder_text sum_text) ps)
           (map (replace_sum_in_table placeholder_text sum_text) ts)
  end.

Definition replace_sum_placeholder (doc : document) (placeholder_name sum_text : string)
    : document :=
  let placeholder_text := token placeholder_name in
  {| paragraphs := map (replace_sum_in_paragraph placeholder_text sum_text) (paragraphs doc);
     tables := map (replace_sum_in_table placeholder_text sum_text) (tables doc) |}.

(** One turn of the loop over [doc.tables]. *)
Definition populate_classified (additional_rows : list record) (t : table)
    : outcome table :=
  match classify (first_two_rows_text t) with
  | Some c => populate_table c t (categorized (source c) additional_rows)
  | None => Returned t
  end.

Definition populate_dynamic_tables_optimized (doc : document)
    (additional_rows : list record) : outcome document :=
  populated ← each (populate_classified additional_rows) (tables doc);
  Returned
    (replace_sum_placeholder
       {| paragraphs := paragraphs doc; tables := populated |}
       "hh_calc_total_sum"
       (float_sum_text (hh_calc_values additional_rows))).

End WithEnvironment.

End Populate.

(* ===================================================================== *)
(** ** The final sweep over leftover placeholders *)
(* ===================================================================== *)

Module Sweep.
Import PyStr Docx.

(** One paragraph of the sweep. *)
Definition clear_paragraph (p : paragraph) : paragraph :=
  if contains "{" (text p) then set_text (Pattern.sub (text p)) else p.

(** [_clear_tables_placeholders_recursive_optimized], one table and one
    cell at a time. *)
Fixpoint clear_table (t : table) : table :=
  match t with
  | Table g rs => Table g (map (map clear_cell) rs)
  end
with clear_cell (c : cell) : cell :=
  match c with
  | Cell ps ts => Cell (map clear_paragraph ps) (map clear_table ts)
  end.

Definition _clear_tables_placeholders_recursive_optimized (ts : list table)
    : list table :=
  map clear_table ts.

Definition clear_all_remaining_placeholders_optimized (doc : document) : document :=
  {| paragraphs := map clear_paragraph (paragraphs doc);
     tables := _clear_tables_placeholders_recursive_optimized (tables doc) |}.

End Sweep.

(* ===================================================================== *)
(** ** One render job, and the batch around it *)
(* ===================================================================== *)

Module Job.
Import PyStr Docx.

(** The tuple [args] of [process_single_document]. *)
Record args : Type := Args {
  idx : nat;
  original_row_idx : nat;
  row : Frame.series;
  column_mapping : PyDict.t nat;
  key_column : nat;
  temp_dir : string
}.

(** [invalid_chars]: the nine characters replaced in a file name; the
    fourth is the double quote. *)
Definition invalid_chars : string :=
  "<>:" +:+ String (ascii_of_nat 34) "/\|?*".

(** The loop [for char in invalid_chars: s = s.replace(char, '_')]. *)
Definition clean (s : string) : string :=
  map_chars (fun c => if mem_char c invalid_chars then "_"%char else c) s.

(** [row.iloc[c]]: a position past the end of the row raises
    [IndexError]. *)
Definition iloc (row : Frame.series) (c : nat) : outcome Frame.cell :=
  if (c <? List.length row)%nat then Returned (nth c row None)
  else Raised "single positional indexer is out-of-bounds".

(** [row[c]]: a label that the row does not have raises [KeyError], whose
    message is the label. *)
Definition getitem (row : Frame.series) (c : nat) : outcome Frame.cell :=
  if (c <? List.length row)%nat then Returned (nth c row None)
  else Raised (str_of_nat c).

(** [v if pd.notna(v) else ""]. *)
Definition value_or_blank (v : Frame.cell) : value :=
  match v with Some x => x | None => Str "" end.

(** The loop [for placeholder, column_name in column_mapping.items()] that
    fills [replacement_data]. *)
Fixpoint fill_replacement_data (row : Frame.series) (column_mapping : PyDict.t nat)
    (replacement_data : record) : outcome record :=
  match column_mapping with
  | [] => Returned replacement_data
  | (placeholder, column_name) :: rest =>
      v ← getitem row column_name;
      fill_replacement_data row rest
        (PyDict.set replacement_data placeholder (value_or_blank v))
  end.

(** The three-level choice of the file name. *)
Definition filename (replacement_data : record) (idx : nat) : string :=
  let resp_lname := PyDict.get_or replacement_data "resp_lname" (Str "") in
  let resp_brgy := PyDict.get_or replacement_data "pckg_brgy" (Str "") in
  if bool_of resp_brgy && truthy (strip (str_of resp_brgy))
     && bool_of resp_lname && truthy (strip (str_of resp_lname))
  then take 15 (clean (strip (str_of resp_brgy))) +:+ "_"
         +:+ take 15 (clean (strip (str_of resp_lname)))
         +:+ "_" +:+ pad3 (idx + 1) +:+ ".docx"
  else if bool_of resp_lname && truthy (strip (str_of resp_lname))
  then take 20 (clean (strip (str_of resp_lname))) +:+ "_" +:+ pad3 (idx + 1)
         +:+ ".docx"
  else "document_" +:+ pad3 (idx + 1) +:+ ".docx".

(** What the batch does to the outside world, in order. *)
Inductive event : Type :=
| Printed (line : string)
| ShowWarning (title message : string)
| ShowError (title message : string)
| ShowInfo (title message : string)
| Mkdir (path : string)
| Saved (path : string) (doc : document)
| ZipWrite (zip_path : string) (entries : list (string * string))
| Unlink (path : string)
| Rmdir (path : string).

(** The message boxes. *)
Definition is_message_box (ev : event) : bool :=
  match ev with
  | ShowWarning _ _ | ShowError _ _ | ShowInfo _ _ => true
  | _ => false
  end.

(** The events that leave something on disk or render a row. *)
Definition is_output (ev : event) : bool :=
  match ev with
  | Mkdir _ | Saved _ _ | ZipWrite _ _ => true
  | _ => false
  end.

Section WithEnvironment.

Variable path_exists : string -> bool.
Variable picture_loads : string -> bool.
Variable float_sum_text : list value -> string.

(** [Document(self.word_template_path)]. *)
Variable load_template : outcome document.

(** [new_doc.save(output_path)]. *)
Variable save : string -> document -> outcome unit.

Variable self : tab.

(** The body of the [try] of [process_single_document]: the path and the
    document saved under it. *)
Definition render (a : args) : outcome (string * document) :=
  new_doc ← load_template;
  key_cell ← iloc (row a) (key_column a);
  let key_value := value_or_blank key_cell in
  let additional_rows :=
    AuxIndex.get_additional_data_for_key_optimized self (str_of key_value) in
  replacement_data ← fill_replacement_data (row a) (column_mapping a) [];
  let '(new_doc, replacement_data) :=
    Render.replace_placeholders_optimized path_exists picture_loads self
      new_doc replacement_data in
  new_doc ←
    match additional_rows with
    | [] => Returned new_doc
    | _ :: _ =>
        Populate.populate_dynamic_tables_optimized path_exists picture_loads self
          float_sum_text new_doc additional_rows
    end;
  let new_doc := Sweep.clear_all_remaining_placeholders_optimized new_doc in
  let output_path := OsPath.join (temp_dir a) (filename replacement_data (idx a)) in
  _ ← save output_path new_doc;
  Returned (output_path, new_doc).

(** [process_single_document]: the pair [(result, error)]. *)
Definition process_single_document (a : args) : option string * option string :=
  match render a with
  | Returned (output_path, _) => (Some output_path, None)
  | Raised e => (None, Some e)
  end.

(** The file a job leaves in the temporary directory. *)
Definition job_events (a : args) : list event :=
  match render a with
  | Returned (output_path, new_doc) => [Saved output_path new_doc]
  | Raised _ => []
  end.

(** What [self.find_placeholders()] returns or raises when the worker
    has to call it. *)
Variable find_placeholders : outcome (list string).

(** The order in which the futures complete. *)
Variable as_completed : list args -> list args.

Definition process_args (data_rows : list Frame.series) (column_mapping : PyDict.t nat)
    (key_column : nat) (temp_dir : string) : list args :=
  map (fun ir : nat * Frame.series =>
         {| idx := fst ir - 1; original_row_idx := fst ir + 3; row := snd ir;
            column_mapping := column_mapping; key_column := key_column;
            temp_dir := temp_dir |})
      (enumerate1 data_rows).

(** One turn of the loop over the completed futures: the files collected
    so far and the lines printed so far. *)
Definition collect (acc : list string * list event) (a : args)
    : list string * list event :=
  match process_single_document a with
  | (Some result, _) => (fst acc ++ [result], snd acc)
  | (None, error) =>
      (fst acc,
       snd acc ++ [Printed ("Error processing document: "
                           +:+ match error with Some e => e | None => "None" end)])
  end.

Definition success_message (total_rows : nat) (zip_path : string) : string :=
  "🎉 Generated " +:+ str_of_nat total_rows +:+ " documents in ZIP file:"
    +:+ nl +:+ zip_path.

(** The batch once every check has passed. *)
Definition run_batch (destination_path : string) (data_rows : list Frame.series)
    (column_mapping : PyDict.t nat) (key_column : nat) : list event :=
  let temp_dir := OsPath.join destination_path "temp_documents" in
  let total_rows := List.length data_rows in
  let jobs := process_args data_rows column_mapping key_column temp_dir in
  let completed := as_completed jobs in
  let '(generated_files, printed) := fold_left collect completed ([], []) in
  let zip_path := OsPath.join destination_path "Generated_Documents.zip" in
  [Mkdir temp_dir]
    ++ flat_map job_events completed
    ++ printed
    ++ [ZipWrite zip_path
          (map (fun file_path => (file_path, OsPath.basename file_path)) generated_files)]
    ++ map Unlink generated_files
    ++ [Rmdir temp_dir;
        ShowInfo "Success" (success_message total_rows zip_path)].

(** [self._placeholders_cache or self.find_placeholders()]. *)
Definition placeholders : outcome (list string) :=
  match _placeholders_cache self with
  | Some (p :: ps) => Returned (p :: ps)
  | _ => find_placeholders
  end.

Definition error_box (e : string) : list event :=
  [Printed ("Error occurred: " +:+ e);
   ShowError "Error" ("An error occurred: " +:+ e)].

(** [conversion_worker], from the folder the user chose and what
    [pd.read_excel] gave for the main file. *)
Definition conversion_worker (destination_path : string) (excel : outcome Frame.t)
    : list event :=
  if negb (truthy destination_path) then []
  else
    match excel with
    | Raised e => error_box e
    | Returned df =>
        match placeholders with
        | Raised e => error_box e
        | Returned [] =>
            [ShowWarning "Warning" "No placeholders found in template"]
        | Returned found =>
            let '(_, column_mapping, printed) :=
              Mapper.find_column_mapping self df found in
            map Printed printed ++
            match column_mapping with
            | [] =>
                [ShowError "Error"
                   "No matching columns found between template and Excel headers in rows 1-3"]
            | _ :: _ =>
                match Frame.marker_column "KEY" df with
                | None =>
                    [ShowError "Error" "KEY column not found in row 4 of main Excel file"]
                | Some key_column =>
                    match Frame.data_rows df with
                    | [] => [ShowWarning "Warning" "No data found starting from row 5"]
                    | data_rows =>
                        run_batch destination_path data_rows column_mapping key_column
                    end
                end
            end
        end
    end.

(** What one completed job adds to [generated_files], and what it makes
    the loop print. *)
Definition result_file (a : args) : list string :=
  match process_single_document a with
  | (Some result, _) => [result]
  | (None, _) => []
  end.

Definition error_line (a : args) : list event :=
  match process_single_document a with
  | (Some _, _) => []
  | (None, error) =>
      [Printed ("Error processing document: "
               +:+ match error with Some e => e | None => "None" end)]
  end.

(** The specification's words: every exception of a job is caught in the
    job and returned as its error; the archive is written and holds the
    files of exactly the jobs that succeeded, whatever the others did;
    a failed job leaves a printed line. *)
Definition partial_failure_policy (destination_path : string)
    (data_rows : list Frame.series) (column_mapping : PyDict.t nat)
    (key_column : nat) : Prop :=
  let jobs :=
    process_args data_rows column_mapping key_column
      (OsPath.join destination_path "temp_documents") in
  let trace := run_batch destination_path data_rows column_mapping key_column in
  (forall a,
     match render a with
     | Returned (output_path, _) =>
         process_single_document a = (Some output_path, None)
     | Raised e => process_single_document a = (None, Some e)
     end)
  /\ (exists entries,
        In (ZipWrite (OsPath.join destination_path "Generated_Documents.zip") entries)
           trace
        /\ forall file_path,
             In file_path (map fst entries)
             <-> exists a, In a jobs
                           /\ process_single_document a = (Some file_path, None))
  /\ (forall a e,
        In a jobs -> render a = Raised e ->
        In (Printed ("Error processing document: " +:+ e)) trace).

(** The specification's words: the batch stops at a warning or error box,
    with nothing before it but printed lines. *)
Definition aborted (trace : list event) : Prop :=
  exists printed title message,
    trace = map Printed printed ++ [ShowWarning title message]
    \/ trace = map Printed printed ++ [ShowError title message].

(** The specification's words: the four configuration errors of a batch
    over the main data frame [df]. *)
Definition empty_placeholder_set : Prop := placeholders = Returned [].

Definition empty_column_mapping (df : Frame.t) : Prop :=
  exists found,
    placeholders = Returned found
    /\ snd (fst (Mapper.find_column_mapping self df found)) = [].

Definition missing_key_column (df : Frame.t) : Prop :=
  Frame.marker_column "KEY" df = None.

Definition no_data_rows (df : Frame.t) : Prop := Frame.data_rows df = [].

Definition configuration_error (df : Frame.t) : Prop :=
  empty_placeholder_set \/ empty_column_mapping df
  \/ missing_key_column df \/ no_data_rows df.

End WithEnvironment.

End Job.

(* ===================================================================== *)
(** ** Sample data *)
(* ===================================================================== *)

Module Sample.
Import Docx.

(** A converter tab with nothing loaded and a one-inch picture width. *)
Definition fresh_tab : tab :=
  {| additional_excel_paths := []; image_folder_path := None;
     image_width := 914400%N; _placeholders_cache := None;
     _additional_data_cache := ∅; _column_mapping_cache := None |}.

Definition text_cell (s : string) : cell := Cell [[Text s]] [].

(** A household roster: two header rows and one stale data row. *)
Definition roster_header : list (list cell) :=
  [ [text_cell "No."; text_cell "Name of HH Member"; text_cell "Relationship"];
    [text_cell "(1)"; text_cell "(2)"; text_cell "(3)"] ].

Definition roster_stale : list (list cell) :=
  [ [text_cell "1"; text_cell "{hhcomp_hhmmbr_fname}"; text_cell "old"] ].

Definition roster : table := Table 3 (roster_header ++ roster_stale).

Definition members : list record :=
  [ [("PARENT_KEY", Str "k1"); ("hhcomp_hhmmbr_fname", Str "Ana");
     ("hhcomp_hhmmbr_hhreltn", Str "Head")];
    [("PARENT_KEY", Str "k1"); ("hhcomp_hhmmbr_fname", Str "Ben");
     ("hhcomp_hhmmbr_hhreltn", Str "Son")] ].

(** A main data frame: labels in rows 0-3, the KEY marker in row 3, two
    data rows. *)
Definition people : Frame.t :=
  [ [Some (Str "Name"); Some (Str "age")];
    [None; Some (Str " NAME ")];
    [Some (Str "x"); None];
    [Some (Str "KEY"); Some (Str "years")];
    [Some (Str "Alice"); Some (Str "30")];
    [Some (Str "Bob"); Some (Str "40")] ].

(** The data frame of an earlier batch: the label [name] is in column 5. *)
Definition wide_people : Frame.t :=
  [ [Some (Str "id"); None; None; None; None; Some (Str "name")];
    [];
    [];
    [Some (Str "KEY")];
    [Some (Str "7"); None; None; None; None; Some (Str "Zed")] ].

(** A tab that still holds the mapping of an earlier, wider data frame. *)
Definition stale_tab : tab :=
  {| additional_excel_paths := []; image_folder_path := None;
     image_width := 914400%N; _placeholders_cache := None;
     _additional_data_cache := ∅;
     _column_mapping_cache := Some [("name", 5)] |}.

(** A ranked-needs table with two header rows and one data row. *)
Definition needs_table : table :=
  Table 3
    [ [text_cell "Information Needs"; text_cell "Rank"; text_cell "Why"];
      [text_cell "{bus_info_needs}"; text_cell "{bus_info_needs_rank}"; text_cell ""];
      [text_cell "Prices"; text_cell "1"; text_cell "kept from the template"] ].

(** A tab with an image folder, and a disk that holds one file named
    [nan] in it. *)
Definition photo_tab : tab :=
  {| additional_excel_paths := []; image_folder_path := Some "/img";
     image_width := 914400%N; _placeholders_cache := None;
     _additional_data_cache := ∅; _column_mapping_cache := None |}.

Definition only_nan (path : string) : bool := String.eqb path "/img/nan".

Definition only_jpg (path : string) : bool := String.eqb path "/img/ana.jpg".

Definition photo_line : paragraph := [Text "Photo: "; Text "{resp_pix} (front)"].

(** A template with the two placeholders of the sample frame. *)
Definition letter : document :=
  {| paragraphs := [[Text "{name} is {age}"]]; tables := [] |}.

(** A disk on which the second document cannot be written. *)
Definition second_fails (path : string) (doc : document) : outcome unit :=
  if PyStr.contains "002" path then Raised "Permission denied" else Returned tt.

(** The sample frame without its KEY marker, and cut after its header. *)
Definition people_without_key : Frame.t :=
  [ [Some (Str "Name"); Some (Str "age")];
    [None; Some (Str " NAME ")];
    [Some (Str "x"); None];
    [Some (Str "ID"); Some (Str "years")];
    [Some (Str "Alice"); Some (Str "30")] ].

Definition people_without_rows : Frame.t := firstn 4 people.

(** Two linked files that share the key [k1]; the second has its
    PARENT_KEY cell in another column. *)
Definition members_file : Frame.t :=
  [ []; []; [];
    [Some (Str "PARENT_KEY"); Some (Str "hhcomp_hhmmbr_fname")];
    [Some (Str " k1 "); Some (Str "Ana")];
    [Some (Str "k2"); Some (Str "Cy")];
    [Some (Str "k1"); Some (Str "Ben")] ].

Definition trees_file : Frame.t :=
  [ []; []; [];
    [Some (Str "tree_type"); Some (Str "parent_key")];
    [Some (Str "Mango"); Some (Str "k1")];
    [Some (Str "Narra"); None] ].

Definition linked_tab : tab :=
  {| additional_excel_paths := [Some members_file; None; Some trees_file];
     image_folder_path := None; image_width := 914400%N;
     _placeholders_cache := None; _additional_data_cache := ∅;
     _column_mapping_cache := None |}.

(** A structure table of thirteen columns with its two header rows, and a
    template that holds it. *)
Definition structure_table : table :=
  Table 13
    [ [text_cell "13.2 Affected Assets: Structure"];
      [text_cell "No."; text_cell "Area"; text_cell "Affected"; text_cell "Impact";
       text_cell "Type"] ].

Definition structure_letter : document :=
  {| paragraphs := [[Text "{name}"]]; tables := [structure_table] |}.

(** A linked file whose structure type is the code 2, a number, for the
    key [Alice]; and the same file with the code written as text. *)
Definition structures_file : Frame.t :=
  [ []; []; [];
    [Some (Str "PARENT_KEY"); Some (Str "asset_struct_type")];
    [Some (Str "Alice"); Some (Obj "int" "2" true)] ].

Definition structures_file_as_text : Frame.t :=
  [ []; []; [];
    [Some (Str "PARENT_KEY"); Some (Str "asset_struct_type")];
    [Some (Str "Alice"); Some (Str "2")] ].

Definition structures_tab (file : Frame.t) : tab :=
  AuxIndex._preload_additional_data
    {| additional_excel_paths := [Some file]; image_folder_path := None;
       image_width := 914400%N; _placeholders_cache := None;
       _additional_data_cache := ∅; _column_mapping_cache := None |}.

(** The job of the row [Alice, 30] of the sample frame. *)
Definition alice : Job.args :=
  {| Job.idx := 0; Job.original_row_idx := 4;
     Job.row := [Some (Str "Alice"); Some (Str "30")];
     Job.column_mapping := [("name", 0); ("age", 1)]; Job.key_column := 0;
     Job.temp_dir := "/out/temp_documents" |}.

End Sample.

(* ===================================================================== *)
(** ** Further definitions *)
(* ===================================================================== *)

From Stdlib Require DecimalFacts DecimalNat.

Module Chars.
Import PyStr.

(** [all(p(c) for c in s)]. *)
Fixpoint all_chars (p : ascii -> bool) (s : string) : bool :=
match s with
| "" => true
| String c s' => p c && all_chars p s'
end.

(** [c.isdigit()] on ASCII. *)
Definition is_digit (c : ascii) : bool :=
let n := nat_of_ascii c in (48 <=? n)%nat && (n <=? 57)%nat.

(** A character that [clean] leaves alone. *)
Definition is_valid (c : ascii) : bool := negb (mem_char c Job.invalid_chars).

(** The decimal number written by a text of digits, leading zeros allowed. *)
Definition read_number (s : string) : option nat :=
match NilEmpty.uint_of_string s with
| Some d => Some (Nat.of_uint d)
| None => None
end.

(** [s.rsplit(c, 1)[-1]]: what follows the last [c]. *)
Definition after_last (c : ascii) (s : string) : string :=
match OsPath.rfind c s with
| Some i => drop (S i) s
| None => s
end.

End Chars.

Module Trace.
Import Job.

(** The lines printed for failed jobs. *)
Definition is_printed (ev : event) : bool :=
match ev with Printed _ => true | _ => false end.

(** The files written, removed and archived by a trace. *)
Definition saved_paths (trace : list event) : list string :=
flat_map (fun ev => match ev with Saved path _ => [path] | _ => [] end) trace.

Definition unlinked_paths (trace : list event) : list string :=
flat_map (fun ev => match ev with Unlink path => [path] | _ => [] end) trace.

Definition archives (trace : list event) : list (list (string * string)) :=
flat_map (fun ev => match ev with ZipWrite _ entries => [entries] | _ => [] end) trace.

(** The documents written by a trace. *)
Definition saved_documents (trace : list event) : list Docx.document :=
flat_map (fun ev => match ev with Saved _ doc => [doc] | _ => [] end) trace.

End Trace.

(* ===================================================================== *)
(** ** The placeholders of a template *)
(* ===================================================================== *)

Module Discovery.
Import PyStr Docx.

(** [re.findall(r'\{([^}]+)\}', s)]: the names of the matches, from left
    to right, the search resuming after each match.  [skip] counts the
    characters of the current match that are still to be passed. *)
Fixpoint findall_from (skip : nat) (s : string) : list string :=
  match s with
  | "" => []
  | String c s' =>
      match skip with
      | S k => findall_from k s'
      | O =>
          match Pattern.match_length s with
          | Some n => take (n - 2) s' :: findall_from (n - 1) s'
          | None => findall_from 0 s'
          end
      end
  end.

Definition findall (s : string) : list string := findall_from 0 s.

(** [placeholders.update(matches)]. *)
Definition update (placeholders : gset string) (matches : list string)
    : gset string :=
  placeholders ∪ list_to_set matches.

(** [_search_tables_for_placeholders], one table and one cell at a time. *)
Fixpoint search_table (t : table) (placeholders : gset string) : gset string :=
  match t with
  | Table _ rs =>
      fold_left
        (fun acc row => fold_left (fun acc c => search_cell c acc) row acc)
        rs placeholders
  end
with search_cell (c : cell) (placeholders : gset string) : gset string :=
  match c with
  | Cell ps ts =>
      fold_left (fun acc t => search_table t acc) ts
        (update placeholders (findall (cell_text (Cell ps ts))))
  end.

Definition _search_tables_for_placeholders (tables : list table)
    (placeholders : gset string) : gset string :=
  fold_left (fun acc t => search_table t acc) tables placeholders.

(** The body of [find_placeholders] on a call without a document, from
    what [Document(self.word_template_path)] returns or raises; [list(...)]
    of a set gives its elements in an order that is not specified. *)
Definition find_placeholders_body (self : tab) (load_template : outcome document)
    : outcome (list string) :=
  match _placeholders_cache self with
  | Some (p :: ps) => Returned (p :: ps)
  | _ =>
      doc ← load_template;
      let placeholders :=
        fold_left (fun acc p => update acc (findall (text p))) (paragraphs doc) ∅ in
      Returned (elements (_search_tables_for_placeholders (tables doc) placeholders))
  end.

(** What the decorator [lru_cache(maxsize=1)] holds for the tab: the list
    that an earlier call [find_placeholders()] returned.  The application
    makes one [DocumentConverterTab], so the one entry of the decorator is
    the entry of that tab. *)
Definition memo : Type := option (list string).

(** [self.find_placeholders()]: the result and the memo afterwards.  The
    decorator answers from its memo when it holds a list, and keeps the
    list that the body returns; an exception of the body is not kept. *)
Definition find_placeholders (m : memo) (self : tab)
    (load_template : outcome document) : outcome (list string) * memo :=
  match m with
  | Some found => (Returned found, Some found)
  | None =>
      match find_placeholders_body self load_template with
      | Returned found => (Returned found, Some found)
      | Raised e => (Raised e, None)
      end
  end.

(** [self.find_placeholders(template_doc)]: the decorator hashes its
    arguments before anything else, and a python-docx [Document] has no
    hash (its class defines [__eq__] only), so the call raises [TypeError];
    the body does not run and the memo is left as it is. *)
Definition find_placeholders_in (template_doc : document) : outcome (list string) :=
  Raised "unhashable type: 'Document'".

Definition set_placeholders_cache (self : tab) (found : list string) : tab :=
  {| additional_excel_paths := additional_excel_paths self;
     image_folder_path := image_folder_path self;
     image_width := image_width self;
     _placeholders_cache := Some found;
     _additional_data_cache := _additional_data_cache self;
     _column_mapping_cache := _column_mapping_cache self |}.

(** [_preload_placeholders], from what [Document(self.word_template_path)]
    returns or raises: the new state and the line printed. *)
Definition _preload_placeholders (self : tab) (template : outcome document)
    : tab * list string :=
  match (template_doc ← template; find_placeholders_in template_doc) with
  | Returned found => (set_placeholders_cache self found, [])
  | Raised e => (self, ["Error pre-loading placeholders: " +:+ e])
  end.

(** The state after the user has chosen one template after the other. *)
Definition upload_word_templates (self : tab) (templates : list (outcome document))
    : tab :=
  fold_left (fun self template => fst (_preload_placeholders self template))
    templates self.

(** Every cell of the tree, nested tables included. *)
Fixpoint table_all_cells (t : table) : list cell :=
  match t with
  | Table _ rs => flat_map (flat_map cell_all_cells) rs
  end
with cell_all_cells (c : cell) : list cell :=
  match c with
  | Cell ps ts => Cell ps ts :: flat_map table_all_cells ts
  end.

End Discovery.

(** The keys of the index of additional records. *)
Module Keys.

(** Every key of the index is a stripped text. *)
Definition stripped_keys (cache : gmap string (list record)) : Prop :=
  forall key, is_Some (cache !! key) -> PyStr.strip key = key.

End Keys.

(** The label of an uploaded file. *)
Module Status.
Import PyStr.

(** [display_name] of [update_file_status]:
    [filename if len(filename) <= 30 else filename[:27] + "..."]. *)
Definition display_name (filename : string) : string :=
  if (String.length filename <=? 30)%nat then filename
  else take 27 filename +:+ "...".

End Status.

(** What one turn of the loop of [find_column_mapping] adds to the mapping
    and to the lines printed. *)
Module Turn.

Definition binding (df : Frame.t) (placeholder : string) : list (string * nat) :=
  match Mapper.scan df placeholder with
  | Some col_name => [(placeholder, col_name)]
  | None => []
  end.

Definition complaint (df : Frame.t) (placeholder : string) : list string :=
  match Mapper.scan df placeholder with
  | Some _ => []
  | None => [Mapper.warning placeholder]
  end.

End Turn.

(** A letter whose table holds a table in one of its cells. *)
Module Letters.
Import Docx.

Definition inner : table :=
  Table 1 [[Cell [[Text "born in {town}"]] []]].

Definition nested_letter : document :=
  {| paragraphs := [[Text "Dear {name},"]];
     tables := [Table 2 [[Cell [[Text "{age}"]] []; Cell [[Text "see"]] [inner]]]] |}.

End Letters.

(* ===================================================================== *)
(** * Properties *)
(* ===================================================================== *)

(** ** Text *)

Module PyStrFacts.
Import PyStr.

Lemma append_cons (c : ascii) (s t : string) :
  String c s +:+ t = String c (s +:+ t).
Proof. reflexivity. Qed.

Lemma append_empty (s : string) : s +:+ "" = s.
Proof.
  induction s as [|c s IH]; [reflexivity |].
  now rewrite append_cons, IH.
Qed.

Lemma truthy_false (s : string) : truthy s = false <-> s = "".
Proof. destruct s; unfold truthy; simpl; split; intros H; congruence. Qed.

Lemma join_empty (sep : string) (l : list string) :
  Forall (fun x => x <> "") l -> join sep l = "" -> l = [].
Proof.
  intros Hl Hj. destruct l as [|x l]; [reflexivity | exfalso].
  inversion Hl as [|? ? Hx _]; subst.
  destruct l as [|y l]; simpl in Hj; [congruence |].
  destruct x; [congruence | discriminate].
Qed.

Lemma prefix_char (c : ascii) (s : string) :
  String.prefix (String c "") s = true -> exists s', s = String c s'.
Proof.
  destruct s as [|d s]; simpl; [discriminate |].
  destruct (Ascii.ascii_dec c d) as [->|Hne]; [eauto | discriminate].
Qed.

Lemma mem_char_cons (c d : ascii) (s : string) :
  mem_char c (String d s) = Ascii.eqb d c || mem_char c s.
Proof. simpl. now rewrite Ascii.eqb_sym. Qed.

End PyStrFacts.

(** ** The placeholder pattern *)

Module PatternFacts.
Import PyStr Pattern PyStrFacts.

Lemma sub_from_here (c : ascii) (s : string) :
  sub_from 0 (String c s) =
    match match_length (String c s) with
    | Some n => sub_from (n - 1) s
    | None => String c (sub_from 0 s)
    end.
Proof. reflexivity. Qed.

Lemma has_match_here (c : ascii) (s : string) :
  has_match (String c s) =
    match match_length (String c s) with
    | Some _ => true
    | None => has_match s
    end.
Proof. reflexivity. Qed.

Lemma match_length_cons (c : ascii) (s : string) :
  match_length (String c s) =
    if Ascii.eqb c "{" then
      match body_length s with
      | Some (S n) => Some (S n + 2)
      | _ => None
      end
    else None.
Proof. reflexivity. Qed.

Lemma sub_from_drop (k : nat) (s : string) :
  sub_from k s = sub_from 0 (drop k s).
Proof.
  revert k. induction s as [|c s IH]; intros [|k]; try reflexivity.
  simpl sub_from at 1. now rewrite IH.
Qed.

Lemma length_drop (k : nat) (s : string) :
  String.length (drop k s) <= String.length s.
Proof.
  revert k. induction s as [|c s IH]; intros [|k]; simpl; try lia.
  specialize (IH k). lia.
Qed.

(** No closing brace, no end of a name. *)
Lemma body_length_none (s : string) :
  body_length s = None <-> mem_char "}" s = false.
Proof.
  induction s as [|c s IH]; [simpl; tauto |].
  rewrite mem_char_cons. simpl body_length.
  destruct (Ascii.eqb c "}"); simpl; [split; discriminate |].
  destruct (body_length s); [split; [discriminate | intros H; apply IH in H; discriminate] |].
  split; intros _; [now apply IH | reflexivity].
Qed.

Lemma match_length_open (s : string) (n : nat) :
  match_length s = Some n -> exists s', s = String "{" s'.
Proof.
  destruct s as [|c s]; simpl; [discriminate |].
  destruct (Ascii.eqb_spec c "{") as [->|]; [eauto | discriminate].
Qed.

Lemma match_length_close (s : string) (n : nat) :
  match_length s = Some n -> mem_char "}" s = true.
Proof.
  intros H. destruct (mem_char "}" s) eqn:E; [reflexivity | exfalso].
  destruct (match_length_open _ _ H) as [s' ->].
  rewrite mem_char_cons in E. apply orb_false_elim in E as [_ E].
  apply body_length_none in E. simpl in H. now rewrite E in H.
Qed.

(** The sweep adds no closing brace. *)
Lemma sub_from_no_close (s : string) :
  mem_char "}" s = false -> forall k, mem_char "}" (sub_from k s) = false.
Proof.
  induction s as [|c s IH]; intros H k; [destruct k; reflexivity |].
  pose proof H as H'. rewrite mem_char_cons in H'.
  apply orb_false_elim in H' as [Hc Hs].
  destruct k as [|k]; [| now apply IH].
  rewrite sub_from_here.
  destruct (match_length (String c s)) as [n|] eqn:E; [now apply IH |].
  rewrite mem_char_cons, Hc. now apply IH.
Qed.

(** The text left by the sweep holds no match of the pattern. *)
Lemma sub_no_match (s : string) : has_match (sub s) = false.
Proof.
  unfold sub.
  remember (String.length s) as n eqn:Hn.
  assert (Hle : String.length s <= n) by lia. clear Hn.
  revert s Hle. induction n as [|n IH]; intros s Hle.
  - destruct s; [reflexivity | simpl in Hle; lia].
  - destruct s as [|c s]; [reflexivity |].
    simpl in Hle. rewrite sub_from_here.
    destruct (match_length (String c s)) as [m|] eqn:E.
    + rewrite sub_from_drop. apply IH.
      pose proof (length_drop (m - 1) s). lia.
    + assert (Hrest : has_match (sub_from 0 s) = false) by (apply IH; lia).
      rewrite has_match_here, Hrest, match_length_cons.
      rewrite match_length_cons in E.
      destruct (Ascii.eqb c "{") eqn:Ec; [| reflexivity].
      destruct (body_length s) as [[|b]|] eqn:Eb; try discriminate.
      * destruct s as [|d s]; [discriminate |]. simpl in Eb.
        destruct (Ascii.eqb_spec d "}") as [->|]; [| destruct (body_length s); discriminate].
        rewrite sub_from_here. reflexivity.
      * apply body_length_none in Eb.
        pose proof (sub_from_no_close _ Eb 0) as Hc.
        apply body_length_none in Hc. now rewrite Hc.
Qed.

(** A text without a match is left as it is. *)
Lemma sub_fixed (s : string) : has_match s = false -> sub s = s.
Proof.
  unfold sub. induction s as [|c s IH]; [reflexivity |].
  rewrite has_match_here, sub_from_here.
  destruct (match_length (String c s)); [discriminate |].
  intros H. now rewrite IH.
Qed.

Lemma no_close_tail (c : ascii) (name : string) :
  no_close (String c name) -> c <> "}"%char /\ no_close name.
Proof.
  intros H. split.
  - intros ->. now apply (H 0).
  - intros i. apply (H (S i)).
Qed.

Lemma body_length_name (name post : string) :
  no_close name ->
  body_length (name +:+ "}" +:+ post) = Some (String.length name).
Proof.
  induction name as [|c name IH]; intros H; [reflexivity |].
  apply no_close_tail in H as [Hc H].
  rewrite append_cons. simpl.
  destruct (Ascii.eqb_spec c "}"); [contradiction |].
  now rewrite IH.
Qed.

(** A token in the specification's sense is a match of the pattern. *)
Lemma has_token_has_match (s : string) : has_token s -> has_match s = true.
Proof.
  intros (pre & name & post & -> & Hname & Hclose).
  induction pre as [|c pre IH].
  - change ("" +:+ "{" +:+ name +:+ "}" +:+ post)
      with (String "{" (name +:+ "}" +:+ post)).
    rewrite has_match_here, match_length_cons. simpl Ascii.eqb.
    rewrite body_length_name by assumption.
    destruct name; [contradiction | reflexivity].
  - rewrite append_cons, has_match_here, IH.
    now destruct (match_length _).
Qed.

(** A match of the pattern is a token in the specification's sense. *)
Lemma body_length_split (s : string) (n : nat) :
  body_length s = Some n ->
  exists name post, s = name +:+ "}" +:+ post /\ String.length name = n /\ no_close name.
Proof.
  revert n. induction s as [|c s IH]; intros n; simpl; [discriminate |].
  destruct (Ascii.eqb_spec c "}") as [->|Hc].
  - intros [= <-]. exists "", s. repeat split. intros i. now destruct i.
  - destruct (body_length s) as [m|]; [| discriminate].
    intros [= <-]. destruct (IH m eq_refl) as (name & post & -> & Hlen & Hno).
    exists (String c name), post. repeat split; [simpl; lia |].
    intros [|i]; simpl; [congruence | apply Hno].
Qed.

Lemma has_match_has_token (s : string) : has_match s = true -> has_token s.
Proof.
  induction s as [|c s IH]; [discriminate |].
  rewrite has_match_here, match_length_cons.
  destruct (Ascii.eqb_spec c "{") as [->|Hc].
  - destruct (body_length s) as [[|n]|] eqn:E.
    + intros H. destruct (IH H) as (pre & name & post & -> & Hn & Hc).
      exists (String "{" pre), name, post. now repeat split.
    + intros _. destruct (body_length_split _ _ E) as (name & post & -> & Hlen & Hno).
      exists "", name, post. repeat split; [| assumption].
      intros ->. discriminate.
    + intros H. destruct (IH H) as (pre & name & post & -> & Hn & Hc).
      exists (String "{" pre), name, post. now repeat split.
  - intros H. destruct (IH H) as (pre & name & post & -> & Hn & Hc').
    exists (String c pre), name, post. now repeat split.
Qed.

Lemma has_match_open (s : string) :
  has_match s = true -> contains "{" s = true.
Proof.
  induction s as [|c s IH]; [discriminate |].
  rewrite has_match_here, match_length_cons.
  destruct (Ascii.eqb_spec c "{") as [->|Hne].
  - intros _. simpl. now destruct s.
  - intros H. simpl. rewrite (IH H). apply orb_true_r.
Qed.

End PatternFacts.

(** ** The final sweep *)

Module SweepFacts.
Import PyStr Docx Sweep PyStrFacts PatternFacts.

Lemma text_set_text (s : string) : text (set_text s) = s.
Proof. unfold set_text, text. simpl. apply append_empty. Qed.

Lemma clear_paragraph_no_token (p : paragraph) :
  ~ Pattern.has_token (text (clear_paragraph p)).
Proof.
  intros H. apply has_token_has_match in H. unfold clear_paragraph in H.
  destruct (contains "{" (text p)) eqn:E.
  - rewrite text_set_text, sub_no_match in H. discriminate.
  - apply has_match_open in H. congruence.
Qed.

(** Mapping before or after collecting the paragraphs is the same. *)
Lemma flat_map_through {A B C : Type} (f : A -> list C) (g : B -> A)
    (f' : B -> list C) (h : C -> C) (l : list B) :
  Forall (fun x => f (g x) = map h (f' x)) l ->
  flat_map f (map g l) = map h (flat_map f' l).
Proof.
  induction 1 as [|x l Hx _ IH]; simpl; [reflexivity |].
  now rewrite Hx, IH, map_app.
Qed.

Lemma clear_table_paragraphs (t : table) :
  table_all_paragraphs (clear_table t)
    = map clear_paragraph (table_all_paragraphs t).
Proof.
  induction t as [g rs IH | ps ts IH]
    using table_tree_ind
    with (Q := fun c => cell_all_paragraphs (clear_cell c)
                        = map clear_paragraph (cell_all_paragraphs c)).
  - simpl. apply flat_map_through.
    eapply List.Forall_impl; [| exact IH]. intros r Hr.
    now apply flat_map_through.
  - simpl. rewrite map_app. f_equal. now apply flat_map_through.
Qed.

Lemma clear_all_paragraphs (doc : document) :
  all_paragraphs (clear_all_remaining_placeholders_optimized doc)
    = map clear_paragraph (all_paragraphs doc).
Proof.
  unfold all_paragraphs, clear_all_remaining_placeholders_optimized,
    _clear_tables_placeholders_recursive_optimized. simpl.
  rewrite map_app. f_equal. apply flat_map_through.
  apply List.Forall_forall. intros t _. apply clear_table_paragraphs.
Qed.

Lemma swept_document (doc : document) :
  Forall (fun p => ~ Pattern.has_token (text p))
    (all_paragraphs (clear_all_remaining_placeholders_optimized doc)).
Proof.
  rewrite clear_all_paragraphs. apply List.Forall_forall. intros p Hp.
  apply in_map_iff in Hp as (q & <- & _). apply clear_paragraph_no_token.
Qed.

(** Sweeping twice is sweeping once. *)
Lemma clear_paragraph_twice (p : paragraph) :
  clear_paragraph (clear_paragraph p) = clear_paragraph p.
Proof.
  destruct (contains "{" (text p)) eqn:E.
  - assert (Hp : clear_paragraph p = set_text (Pattern.sub (text p)))
      by (unfold clear_paragraph; now rewrite E).
    rewrite Hp. unfold clear_paragraph. rewrite text_set_text.
    destruct (contains "{" (Pattern.sub (text p))); [| reflexivity].
    now rewrite (sub_fixed _ (sub_no_match (text p))).
  - assert (Hp : clear_paragraph p = p)
      by (unfold clear_paragraph; now rewrite E).
    now rewrite !Hp.
Qed.

Lemma map_twice {A : Type} (f : A -> A) (l : list A) :
  Forall (fun x => f (f x) = f x) l -> map f (map f l) = map f l.
Proof.
  induction 1 as [|x l Hx _ IH]; simpl; [reflexivity | now rewrite Hx, IH].
Qed.

Lemma clear_table_twice (t : table) : clear_table (clear_table t) = clear_table t.
Proof.
  induction t as [g rs IH | ps ts IH]
    using table_tree_ind
    with (Q := fun c => clear_cell (clear_cell c) = clear_cell c).
  - simpl. f_equal. apply map_twice.
    eapply List.Forall_impl; [| exact IH]. intros r Hr. now apply map_twice.
  - simpl. f_equal.
    + apply map_twice, List.Forall_forall. intros p _. apply clear_paragraph_twice.
    + now apply map_twice.
Qed.

End SweepFacts.

(** ** What a job returns *)

Module RenderedFacts.
Import PyStr Docx Job.

(** A job that returns has saved, under its file name in its folder, a
    document that the final sweep returned. *)
Lemma render_returned path_exists picture_loads float_sum_text load_template save
    self (a : args) (output_path : string) (new_doc : document) :
  render path_exists picture_loads float_sum_text load_template save self a
  = Returned (output_path, new_doc) ->
  exists doc replacement_data,
    new_doc = Sweep.clear_all_remaining_placeholders_optimized doc
    /\ output_path = OsPath.join (temp_dir a) (filename replacement_data (idx a)).
Proof.
  unfold render. destruct load_template as [template|e]; [| discriminate].
  cbn [mbind outcome_bind].
  destruct (iloc (row a) (key_column a)) as [key_cell|e]; [| discriminate].
  cbn [mbind outcome_bind].
  destruct (fill_replacement_data (row a) (column_mapping a) []) as [data|e];
    [| discriminate].
  cbn [mbind outcome_bind].
  destruct (Render.replace_placeholders_optimized _ _ _ _ _) as [doc1 data1].
  match goal with
  | |- context [mbind _ ?m] =>
      match type of m with
      | outcome document => destruct m as [doc2|e]; [| discriminate]
      end
  end.
  cbn [mbind outcome_bind].
  destruct (save _ _) as [[]|e]; [| discriminate].
  cbn [mbind outcome_bind]. intros [= <- <-]. eauto.
Qed.

End RenderedFacts.

(** C2.  The final sweep leaves no token [{name}] (a non-empty name free of
    closing braces) in any paragraph of the document, the paragraphs of
    tables nested to any depth included; and the document that a render job
    saves is the one the sweep returned, so no paragraph of a saved document
    holds such a token. *)
Theorem C2_final_sweep_leaves_no_placeholder :
  (forall doc : Docx.document,
     Forall (fun p => ~ Pattern.has_token (Docx.text p))
       (Docx.all_paragraphs (Sweep.clear_all_remaining_placeholders_optimized doc)))
  /\
  (forall path_exists picture_loads float_sum_text load_template save self
          (a : Job.args) (output_path : string) (saved : Docx.document),
     Job.render path_exists picture_loads float_sum_text load_template save self a
       = Returned (output_path, saved) ->
     Forall (fun p => ~ Pattern.has_token (Docx.text p)) (Docx.all_paragraphs saved)).
Proof.
  split; [exact SweepFacts.swept_document |].
  intros path_exists picture_loads float_sum_text load_template save self a
    output_path saved H.
  apply RenderedFacts.render_returned in H as (doc & data & -> & _).
  apply SweepFacts.swept_document.
Qed.


(** X2.  The sweep changes nothing in a document it has already swept. *)
Theorem sweep_is_idempotent :
  forall doc : Docx.document,
    Sweep.clear_all_remaining_placeholders_optimized
      (Sweep.clear_all_remaining_placeholders_optimized doc)
    = Sweep.clear_all_remaining_placeholders_optimized doc.
Proof.
  intros doc. unfold Sweep.clear_all_remaining_placeholders_optimized,
    Sweep._clear_tables_placeholders_recursive_optimized. simpl. f_equal.
  - apply SweepFacts.map_twice, List.Forall_forall. intros p _.
    apply SweepFacts.clear_paragraph_twice.
  - apply SweepFacts.map_twice, List.Forall_forall. intros t _.
    apply SweepFacts.clear_table_twice.
Qed.

(** The sweep at work on a template with a nested table: the row
    [Alice, 30] is rendered and saved. *)
Lemma C2_final_sweep_witness :
  Forall (fun p => ~ Pattern.has_token (Docx.text p))
    (Docx.all_paragraphs
       {| Docx.paragraphs := [[Docx.Text "Dear Alice, "]];
          Docx.tables :=
            [Docx.Table 1
               [[Docx.Cell [[Docx.Text "30"]]
                   [Docx.Table 1 [[Docx.Cell [[Docx.Text "}"]] []]]]]]] |}).
Proof.
  apply (proj2 C2_final_sweep_leaves_no_placeholder
           (fun _ => false) (fun _ => false) (fun _ => "0")
           (Returned
              {| Docx.paragraphs := [[Docx.Text "Dear {name}, {unknown}"]];
                 Docx.tables :=
                   [Docx.Table 1
                      [[Docx.Cell [[Docx.Text "{a"; Docx.Text "ge}{x}"]]
                          [Docx.Table 1 [[Docx.Cell [[Docx.Text "{{deep}}"]] []]]]]]] |})
           (fun _ _ => Returned tt)
           {| additional_excel_paths := []; image_folder_path := None;
              image_width := 914400%N; _placeholders_cache := None;
              _additional_data_cache := ∅; _column_mapping_cache := None |}
           {| Job.idx := 0; Job.original_row_idx := 4;
              Job.row := [Some (Str "Alice"); Some (Str "30")];
              Job.column_mapping := [("name", 0); ("age", 1)]; Job.key_column := 0;
              Job.temp_dir := "/out/temp_documents" |}
           "/out/temp_documents/document_001.docx").
  vm_compute. reflexivity.
Defined.

(** ** Roster tables *)

Module PopulateFacts.
Import PyStr Docx Render Populate.

(** The loop keeps the first [header_rows] rows. *)
Lemma remove_rows_loop_firstn (turns header_rows : nat) (rs : list (list cell)) :
  List.length rs <= turns + header_rows ->
  remove_rows_loop turns header_rows rs = firstn header_rows rs.
Proof.
  revert rs. induction turns as [|turns IH]; intros rs Hlen; simpl.
  - symmetry. apply firstn_all2. lia.
  - destruct (Nat.ltb_spec header_rows (List.length rs)) as [Hlt|Hge].
    + rewrite IH.
      * rewrite removelast_firstn_len, firstn_firstn. f_equal. lia.
      * rewrite removelast_firstn_len, length_firstn. lia.
    + symmetry. apply firstn_all2. lia.
Qed.

Lemma remove_data_rows_firstn (header_rows : nat) (rs : list (list cell)) :
  remove_data_rows header_rows rs = firstn header_rows rs.
Proof. apply remove_rows_loop_firstn. lia. Qed.

Lemma remove_data_rows_header (header data : list (list cell)) :
  remove_data_rows (List.length header) (header ++ data) = header.
Proof.
  rewrite remove_data_rows_firstn, firstn_app, Nat.sub_diag, firstn_all.
  simpl. apply app_nil_r.
Qed.

(** A loop that appends one row per element. *)
Lemma fold_append {A B : Type} (f : A -> B) (l : list A) (init : list B) :
  fold_left (fun rs x => rs ++ [f x]) l init = init ++ map f l.
Proof.
  revert init. induction l as [|x l IH]; intros init; simpl.
  - now rewrite app_nil_r.
  - now rewrite IH, <- app_assoc.
Qed.

Lemma length_enumerate1 {A : Type} (l : list A) :
  List.length (enumerate1 l) = List.length l.
Proof. unfold enumerate1. rewrite length_combine, length_seq. lia. Qed.

(** A loop over calls that return gives one result per element. *)
Lemma each_length {A B : Type} (f : A -> outcome B) (l : list A) (ys : list B) :
  each f l = Returned ys -> List.length ys = List.length l.
Proof.
  revert ys. induction l as [|x l IH]; intros ys; simpl.
  - now intros [= <-].
  - destruct (f x) as [y|e]; [| discriminate]. cbn [mbind outcome_bind].
    destruct (each f l) as [ys'|e]; [| discriminate]. cbn [mbind outcome_bind].
    intros [= <-]. simpl. now rewrite (IH ys').
Qed.

Lemma each_returned {A B : Type} (f : A -> outcome B) (l : list A) :
  (forall x, In x l -> exists y, f x = Returned y) ->
  exists ys, each f l = Returned ys.
Proof.
  induction l as [|x l IH]; intros H; simpl; [eauto |].
  destruct (H x (or_introl eq_refl)) as [y ->].
  destruct IH as [ys ->]; [intros z Hz; apply H; now right |].
  cbn [mbind outcome_bind]. eauto.
Qed.

Lemma each_raised {A B : Type} (f : A -> outcome B) (l : list A) (e : string) :
  each f l = Raised e -> exists x, In x l /\ f x = Raised e.
Proof.
  induction l as [|x l IH]; simpl; [discriminate |].
  destruct (f x) as [y|e'] eqn:E; cbn [mbind outcome_bind].
  - destruct (each f l) as [ys|e'']; cbn [mbind outcome_bind]; [discriminate |].
    intros [= ->]. destruct (IH eq_refl) as (z & Hz & Hf). eauto.
  - intros [= ->]. eauto.
Qed.

Lemma each_returned_all {A B : Type} (f : A -> outcome B) (l : list A) (ys : list B) :
  each f l = Returned ys -> forall x, In x l -> exists y, f x = Returned y.
Proof.
  revert ys. induction l as [|x l IH]; intros ys; simpl; [intros _ z [] |].
  destruct (f x) as [y|e] eqn:E; [| discriminate]. cbn [mbind outcome_bind].
  destruct (each f l) as [ys'|e]; [| discriminate]. cbn [mbind outcome_bind].
  intros _ z [<-|Hz]; [eauto | now apply (IH ys')].
Qed.

(** A join of [str] items returns. *)
Lemma str_items_returned (l : list value) (i : nat) :
  Forall (fun v => exists s, v = Str s) l -> exists items, str_items i l = Returned items.
Proof.
  intros H. revert i. induction H as [|v l [s ->] _ IH]; intros i; simpl; [eauto |].
  destruct (IH (S i)) as [items ->]. cbn [mbind outcome_bind]. eauto.
Qed.

Section WithEnvironment.
Variable path_exists : string -> bool.
Variable picture_loads : string -> bool.
Variable self : tab.

Let new_row := new_row path_exists picture_loads self.
Let add_record := add_record path_exists picture_loads self.
Let add_records := add_records path_exists picture_loads self.
Let added_rows := added_rows path_exists picture_loads self.
Let populate_table := populate_table path_exists picture_loads self.

(** The loop appends what the calls on the records return. *)
Lemma add_records_each c g rs l :
  add_records c g rs l
  = (added ← each (add_record c g) l; Returned (rs ++ added)).
Proof.
  unfold add_records, add_record. revert rs.
  induction l as [|ir l IH]; intros rs; simpl.
  - now rewrite app_nil_r.
  - destruct (Populate.add_record _ _ _ c g ir) as [r|e]; cbn [mbind outcome_bind];
      [| reflexivity].
    rewrite IH. destruct (each _ l) as [added|e]; cbn [mbind outcome_bind];
      [| reflexivity].
    now rewrite <- app_assoc.
Qed.

Lemma populate_table_added c t additional_rows :
  populate_table c t additional_rows
  = (added ← added_rows c t additional_rows;
     Returned (Table (grid t) (firstn (header_rows c) (rows t) ++ added))).
Proof.
  unfold populate_table, Populate.populate_table.
  fold (add_records c (grid t)). rewrite add_records_each.
  unfold added_rows, Populate.added_rows, add_record.
  destruct (each _ _) as [added|e]; cbn [mbind outcome_bind]; [| reflexivity].
  now rewrite remove_data_rows_firstn.
Qed.

Lemma length_added_rows c t additional_rows added :
  added_rows c t additional_rows = Returned added ->
  List.length added = List.length additional_rows.
Proof.
  intros H. apply each_length in H. now rewrite H, length_enumerate1.
Qed.

(** Assignments whose texts are computed without an exception. *)
Lemma evaluate_returned (g : nat) (l : list (nat * outcome cell)) :
  Forall (fun a => fst a < g -> exists c, snd a = Returned c) l ->
  exists cells, evaluate g l = Returned cells.
Proof.
  induction 1 as [|[i text] l Ha _ [cells IH]]; simpl; [eauto |].
  destruct (Nat.ltb_spec i g) as [Hi|_]; [| eauto].
  destruct (Ha Hi) as [c Hc]. simpl in Hc. rewrite Hc, IH.
  cbn [mbind outcome_bind]. eauto.
Qed.

Lemma evaluate_plain (g i : nat) (text : string) (rest : list (nat * outcome cell)) :
  i < g ->
  evaluate g (plain i text :: rest)
  = (cells ← evaluate g rest; Returned ((i, set_cell_text text) :: cells)).
Proof.
  intros Hi. unfold plain. cbn [evaluate].
  destruct (Nat.ltb_spec i g); [reflexivity | lia].
Qed.

Lemma evaluate_raised (g i : nat) (e : string) (text : outcome cell)
    (rest : list (nat * outcome cell)) :
  i < g -> text = Raised e -> evaluate g ((i, text) :: rest) = Raised e.
Proof.
  intros Hi ->. cbn [evaluate]. destruct (Nat.ltb_spec i g); [reflexivity | lia].
Qed.

(** The type cell of a structure row. *)
Lemma type_parts_returned (t oth oth_o : value) :
  match t with Str _ => True | Obj _ _ truth => truth = false end ->
  exists text,
    join_values ", "
      (List.filter bool_of
         ([t]
            ++ (if bool_of oth && negb (is_blank (str_of oth))
                then [Str ("Please Specify " +:+ str_of oth)] else [])
            ++ (if bool_of oth_o && negb (is_blank (str_of oth_o))
                then [Str (str_of oth)] else [])))
    = Returned text.
Proof.
  intros Ht. unfold join_values.
  match goal with
  | |- context [str_items 0 ?l] =>
      destruct (str_items_returned l 0) as [items ->]
  end.
  - apply List.Forall_forall. intros v Hv. apply List.filter_In in Hv as [Hv Hb].
    simpl in Hv. destruct Hv as [<-|Hv].
    + destruct t as [s|n i b]; [eauto |]. simpl in Hb. congruence.
    + apply in_app_or in Hv as [Hv|Hv].
      * destruct (bool_of oth && _); [| destruct Hv].
        destruct Hv as [<-|[]]. eauto.
      * destruct (bool_of oth_o && _); [| destruct Hv].
        destruct Hv as [<-|[]]. eauto.
  - cbn [mbind outcome_bind]. eauto.
Qed.

Lemma type_parts_raised (type_name image : string) (oth oth_o : value) :
  join_values ", "
    (List.filter bool_of
       ([Obj type_name image true]
          ++ (if bool_of oth && negb (is_blank (str_of oth))
              then [Str ("Please Specify " +:+ str_of oth)] else [])
          ++ (if bool_of oth_o && negb (is_blank (str_of oth_o))
              then [Str (str_of oth)] else [])))
  = Raised (join_error type_name).
Proof. reflexivity. Qed.

(** A structure record whose type is a true object other than a [str]
    raises at the fifth cell of its row. *)
Lemma structure_row_raised (g idx : nat) (row_data : record)
    (type_name image : string) :
  4 < g ->
  raw row_data "asset_struct_type" = Obj type_name image true ->
  add_record Structure g (idx, row_data) = Raised (join_error type_name).
Proof.
  intros Hg Er. unfold add_record, Populate.add_record.
  cbn [fst snd Populate.new_row]. rewrite Er.
  rewrite !evaluate_plain by lia.
  erewrite evaluate_raised;
    [reflexivity | lia | rewrite type_parts_raised; reflexivity].
Qed.

(** A record makes its row, unless it is a structure record with a type
    that the join does not take. *)
Lemma add_record_returned c g (ir : nat * record) :
  type_mismatch c g (snd ir) = false ->
  exists r, add_record c g ir = Returned r.
Proof.
  intros H. unfold add_record, Populate.add_record.
  fold (new_row c (fst ir) (snd ir)).
  destruct (evaluate_returned g (new_row c (fst ir) (snd ir))) as [cells ->];
    [| cbn [mbind outcome_bind]; eauto].
  unfold new_row.
  destruct c; cbn [Populate.new_row slot_cells plain];
    repeat (apply List.Forall_cons;
            [cbn [fst snd]; first [intros _; eexists; reflexivity | idtac] |]);
    try apply List.Forall_nil.
  intros H4. simpl in H.
  destruct (Nat.ltb_spec 4 g) as [_|]; [| lia]. simpl in H.
  destruct (type_parts_returned (raw (snd ir) "asset_struct_type")
              (raw (snd ir) "asset_struct_type_oth")
              (raw (snd ir) "asset_struct_type_oth_o")) as [text Ht].
  { destruct (raw (snd ir) "asset_struct_type"); [exact I | exact H]. }
  rewrite Ht. cbn [mbind outcome_bind]. eauto.
Qed.

Lemma add_record_raised c g (ir : nat * record) (e : string) :
  add_record c g ir = Raised e ->
  type_mismatch c g (snd ir) = true
  /\ e = join_error (type_name_of (raw (snd ir) "asset_struct_type")).
Proof.
  destruct ir as [idx row_data]. cbn [snd].
  intros H. destruct (type_mismatch c g row_data) eqn:E.
  - split; [reflexivity |].
    destruct c; try discriminate E. simpl in E.
    apply andb_true_iff in E as [Hg Ht]. apply Nat.ltb_lt in Hg.
    destruct (raw row_data "asset_struct_type") as [s|type_name image truth] eqn:Er;
      [discriminate |]. subst truth.
    rewrite (structure_row_raised g idx row_data type_name image Hg Er) in H.
    cbn [type_name_of]. now injection H as <-.
  - destruct (add_record_returned c g (idx, row_data) E) as [r Hr]. congruence.
Qed.

(** What a population returns or raises. *)
Lemma populate_table_outcome c t additional_rows :
  match populate_table c t additional_rows with
  | Returned populated =>
      forallb (fun row_data => negb (type_mismatch c (grid t) row_data))
        additional_rows = true
      /\ exists added,
           added_rows c t additional_rows = Returned added
           /\ populated = Table (grid t) (firstn (header_rows c) (rows t) ++ added)
           /\ List.length added = List.length additional_rows
  | Raised e =>
      exists row_data,
        In row_data additional_rows
        /\ type_mismatch c (grid t) row_data = true
        /\ e = join_error (type_name_of (raw row_data "asset_struct_type"))
  end.
Proof.
  rewrite populate_table_added.
  destruct (added_rows c t additional_rows) as [added|e] eqn:E;
    cbn [mbind outcome_bind].
  - split.
    + apply forallb_forall. intros row_data Hin.
      destruct (type_mismatch c (grid t) row_data) eqn:Em; [| reflexivity].
      exfalso. unfold added_rows, Populate.added_rows in E.
      assert (Hex : exists i, In (i, row_data) (enumerate1 additional_rows)).
      { unfold enumerate1. clear - Hin. generalize 1 as k.
        induction additional_rows as [|x l IH]; intros k; [destruct Hin |].
        simpl. destruct Hin as [->|Hin]; [exists k; now left |].
        destruct (IH Hin (S k)) as [i Hi]. exists i. now right. }
      destruct Hex as [i Hi].
      destruct (each_returned_all _ _ _ E (i, row_data) Hi) as [r Hr].
      fold (add_record c (grid t) (i, row_data)) in Hr.
      destruct c; try discriminate Em. simpl in Em.
      apply andb_true_iff in Em as [Hg Ht]. apply Nat.ltb_lt in Hg.
      destruct (raw row_data "asset_struct_type") as [s|type_name image truth] eqn:Er;
        [discriminate |]. subst truth.
      rewrite (structure_row_raised (grid t) i row_data type_name image Hg Er) in Hr.
      discriminate.
    + exists added. split; [reflexivity |]. split; [reflexivity |].
      now apply (length_added_rows c t).
  - unfold added_rows, Populate.added_rows in E.
    apply each_raised in E as ([i row_data] & Hin & Hr).
    fold (add_record c (grid t) (i, row_data)) in Hr.
    apply add_record_raised in Hr as [Hm He]. exists row_data. split; [| now split].
    unfold enumerate1 in Hin. apply in_combine_r in Hin. exact Hin.
Qed.

End WithEnvironment.

End PopulateFacts.

(** C3.  A population that returns has kept the first rows of the table up
    to the category's header-row count, removed every row beyond them and
    appended one row per record: on a table with [k] rows beyond its header
    rows and [m] records it ends with exactly [m] rows below its header.  It
    returns for ten of the eleven categories whatever the records hold, and
    for the structure table when no record has a true value other than a
    string as its type.  For the structure table the claim fails on the
    codes of a survey: the type is joined as it was read, where every other
    field goes through [str], so a record whose type is the number 2 raises
    the [TypeError] of [join] in a table that has its fifth column, and the
    job of the row returns the error instead of a document; the same file
    with the code written as text is rendered. *)
Theorem C3_structure_population_raises :
  (forall path_exists picture_loads self
          (c : Populate.table_category) (t : Docx.table)
          (additional_rows : list record),
     match
       Populate.populate_table path_exists picture_loads self c t additional_rows
     with
     | Returned populated =>
         exists added,
           Populate.added_rows path_exists picture_loads self c t additional_rows
             = Returned added
           /\ Docx.rows populated
                = firstn (Populate.header_rows c) (Docx.rows t) ++ added
           /\ List.length added = List.length additional_rows
           /\ (forall header data,
                 Docx.rows t = header ++ data ->
                 List.length header = Populate.header_rows c ->
                 Docx.rows populated = header ++ added
                 /\ List.length (Docx.rows populated) - Populate.header_rows c
                      = List.length additional_rows)
     | Raised e =>
         c = Populate.Structure
         /\ exists row_data,
              In row_data additional_rows
              /\ Populate.type_mismatch c (Docx.grid t) row_data = true
              /\ e = Populate.join_error
                       (type_name_of (Populate.raw row_data "asset_struct_type"))
     end)
  /\ (forall path_exists picture_loads self
            (c : Populate.table_category) (t : Docx.table)
            (additional_rows : list record),
        forallb (fun row_data =>
                   negb (Populate.type_mismatch c (Docx.grid t) row_data))
          additional_rows = true ->
        exists populated,
          Populate.populate_table path_exists picture_loads self c t additional_rows
            = Returned populated)
  /\ Populate.populate_table (fun _ => false) (fun _ => false) Sample.fresh_tab
       Populate.Structure Sample.structure_table
       [[("PARENT_KEY", Str "Alice"); ("asset_struct_type", Obj "int" "2" true)]]
     = Raised "sequence item 0: expected str instance, int found"
  /\ (forall float_sum_text,
        Job.process_single_document (fun _ => false) (fun _ => false)
          float_sum_text (Returned Sample.structure_letter)
          (fun _ _ => Returned tt)
          (Sample.structures_tab Sample.structures_file) Sample.alice
        = (None, Some "sequence item 0: expected str instance, int found"))
  /\ (forall float_sum_text,
        Job.process_single_document (fun _ => false) (fun _ => false)
          float_sum_text (Returned Sample.structure_letter)
          (fun _ _ => Returned tt)
          (Sample.structures_tab Sample.structures_file_as_text) Sample.alice
        = (Some "/out/temp_documents/document_001.docx", None)).
Proof.
  assert (Hout := PopulateFacts.populate_table_outcome).
  split; [| split; [| split; [| split]]].
  - intros path_exists picture_loads self c t additional_rows.
    specialize (Hout path_exists picture_loads self c t additional_rows).
    destruct (Populate.populate_table path_exists picture_loads self c t
                additional_rows) as [populated|e].
    + destruct Hout as (_ & added & Hadded & -> & Hlen).
      exists added. split; [exact Hadded |]. split; [reflexivity |].
      split; [exact Hlen |]. intros header data Hrows Hhead.
      cbn [Docx.rows].
      assert (Hfirst : firstn (Populate.header_rows c) (Docx.rows t) = header).
      { rewrite Hrows, <- Hhead, firstn_app, Nat.sub_diag, firstn_all. simpl.
        apply app_nil_r. }
      rewrite Hfirst. split; [reflexivity |].
      rewrite length_app, Hlen, Hhead. lia.
    + destruct Hout as (row_data & Hin & Hm & He).
      split; [destruct c; try discriminate Hm; reflexivity |].
      exists row_data. now repeat split.
  - intros path_exists picture_loads self c t additional_rows Hall.
    specialize (Hout path_exists picture_loads self c t additional_rows).
    destruct (Populate.populate_table path_exists picture_loads self c t
                additional_rows) as [populated|e]; [now exists populated |].
    destruct Hout as (row_data & Hin & Hm & _).
    rewrite forallb_forall in Hall. specialize (Hall row_data Hin).
    rewrite Hm in Hall. discriminate.
  - vm_compute. reflexivity.
  - intros float_sum_text. vm_compute. reflexivity.
  - intros float_sum_text. vm_compute. reflexivity.
Qed.

(** ** Dictionaries and the column mapper *)

Module PyDictFacts.

Lemma get_set_eq {V} (d : PyDict.t V) (k : string) (v : V) :
  PyDict.get (PyDict.set d k v) k = Some v.
Proof.
  induction d as [|[k' v'] d IH]; simpl.
  - now rewrite String.eqb_refl.
  - destruct (String.eqb_spec k k') as [->|Hne]; simpl.
    + now rewrite String.eqb_refl.
    + destruct (String.eqb_spec k k'); [contradiction | exact IH].
Qed.

Lemma get_set_ne {V} (d : PyDict.t V) (k k' : string) (v : V) :
  k <> k' -> PyDict.get (PyDict.set d k v) k' = PyDict.get d k'.
Proof.
  intros Hne. induction d as [|[k0 v0] d IH]; simpl.
  - destruct (String.eqb_spec k' k); [congruence | reflexivity].
  - destruct (String.eqb_spec k k0) as [->|Hk]; simpl.
    + destruct (String.eqb_spec k' k0); [congruence | reflexivity].
    + destruct (String.eqb_spec k' k0); [reflexivity | exact IH].
Qed.

End PyDictFacts.

Module MapperFacts.
Import PyStr Mapper.

Lemma first_index_from_some (p : Frame.cell -> bool) (row : Frame.series) (i j : nat) :
  Frame.first_index_from p i row = Some j ->
  exists k, j = i + k /\ k < List.length row /\ p (nth k row None) = true
            /\ forall k', k' < k -> p (nth k' row None) = false.
Proof.
  revert i. induction row as [|x row IH]; intros i; simpl; [discriminate |].
  destruct (p x) eqn:Hx.
  - intros [= <-]. exists 0. repeat split; [lia | lia | assumption | intros; lia].
  - intros H. destruct (IH _ H) as (k & -> & Hk & Hp & Hmin).
    exists (S k). repeat split; [lia | lia | assumption |].
    intros [|k'] Hlt; [assumption | apply Hmin; lia].
Qed.

Lemma first_index_from_none (p : Frame.cell -> bool) (row : Frame.series) (i : nat) :
  Frame.first_index_from p i row = None ->
  forall k, k < List.length row -> p (nth k row None) = false.
Proof.
  revert i. induction row as [|x row IH]; intros i; simpl; [intros; lia |].
  destruct (p x) eqn:Hx; [discriminate |].
  intros H [|k] Hk; [assumption | apply (IH _ H); lia].
Qed.

Lemma length_iloc_row (df : Frame.t) (r : nat) :
  List.length (Frame.iloc_row df r) = Frame.width df.
Proof. unfold Frame.iloc_row. now rewrite length_map, length_seq. Qed.

Lemma nth_iloc_row (df : Frame.t) (r c : nat) :
  c < Frame.width df -> nth c (Frame.iloc_row df r) None = Frame.iloc df r c.
Proof.
  intros Hc. unfold Frame.iloc_row, Frame.iloc.
  rewrite (nth_indep _ None (Frame.at_col (nth r df []) 0))
    by (now rewrite length_map, length_seq).
  rewrite (map_nth (Frame.at_col (nth r df []))), seq_nth by assumption.
  reflexivity.
Qed.

(** What a hit and a miss of the inner loop mean. *)
Lemma scan_row_some (df : Frame.t) (p : string) (r c : nat) :
  scan_row df p r = Some c ->
  c < Frame.width df
  /\ cell_matches p (Frame.iloc df r c) = true
  /\ forall c', c' < c -> cell_matches p (Frame.iloc df r c') = false.
Proof.
  intros H. apply first_index_from_some in H as (k & -> & Hk & Hp & Hmin).
  rewrite length_iloc_row in Hk. simpl. repeat split.
  - assumption.
  - now rewrite <- nth_iloc_row.
  - intros c' Hc'. rewrite <- nth_iloc_row by lia. now apply Hmin.
Qed.

Lemma scan_row_none (df : Frame.t) (p : string) (r c : nat) :
  scan_row df p r = None -> c < Frame.width df ->
  cell_matches p (Frame.iloc df r c) = false.
Proof.
  intros H Hc. rewrite <- nth_iloc_row by assumption.
  apply (first_index_from_none _ _ _ H). now rewrite length_iloc_row.
Qed.

(** What a hit and a miss of the outer loop mean. *)
Lemma scan_rows_some (df : Frame.t) (p : string) (start n c : nat) :
  scan_rows df p (seq start n) = Some c ->
  exists r, start <= r < start + n /\ scan_row df p r = Some c
            /\ forall r', start <= r' < r -> scan_row df p r' = None.
Proof.
  revert start. induction n as [|n IH]; intros start; simpl; [discriminate |].
  destruct (scan_row df p start) as [c0|] eqn:E.
  - intros [= <-]. exists start. repeat split; [lia | lia | assumption | intros; lia].
  - intros H. destruct (IH _ H) as (r & Hr & Hs & Hmin).
    exists r. repeat split; [lia | lia | assumption |].
    intros r' Hr'. destruct (Nat.eq_dec r' start) as [->|]; [assumption |].
    apply Hmin. lia.
Qed.

Lemma scan_rows_none (df : Frame.t) (p : string) (start n : nat) :
  scan_rows df p (seq start n) = None ->
  forall r, start <= r < start + n -> scan_row df p r = None.
Proof.
  revert start. induction n as [|n IH]; intros start; simpl; [intros; lia |].
  destruct (scan_row df p start) as [c0|] eqn:E; [discriminate |].
  intros H r Hr. destruct (Nat.eq_dec r start) as [->|]; [assumption |].
  apply (IH _ H). lia.
Qed.

Lemma scan_first_match (df : Frame.t) (p : string) (c : nat) :
  scan df p = Some c -> exists r, first_match df p r c.
Proof.
  intros H. apply scan_rows_some in H as (r & Hr & Hs & Hmin).
  unfold search_rows in Hr.
  apply scan_row_some in Hs as (Hc & Hm & Hcmin).
  exists r. split; [repeat split; (lia || assumption) |].
  intros r' c' (Hr4 & Hrl & Hcw & Hm').
  destruct (Nat.lt_trichotomy r r') as [Hlt|[<-|Hgt]]; [now left | right | exfalso].
  - split; [reflexivity |]. destruct (Nat.le_gt_cases c c') as [|Hlt]; [assumption |].
    rewrite (Hcmin _ Hlt) in Hm'. discriminate.
  - rewrite (scan_row_none df p r' c') in Hm'; [discriminate | | assumption].
    apply Hmin. lia.
Qed.

Lemma scan_no_match (df : Frame.t) (p : string) :
  scan df p = None -> forall r c, ~ matches_at df p r c.
Proof.
  intros H r c (Hr4 & Hrl & Hcw & Hm).
  rewrite (scan_row_none df p r c) in Hm; [discriminate | | assumption].
  apply (scan_rows_none _ _ _ _ H). unfold search_rows. lia.
Qed.

(** The loop over the placeholders. *)
Lemma fold_keeps (df : Frame.t) (p : string) (c : nat) (l : list string)
    (acc : PyDict.t nat * list string) :
  scan df p = Some c -> PyDict.get (fst acc) p = Some c ->
  PyDict.get (fst (fold_left (map_placeholder df) l acc)) p = Some c.
Proof.
  intros Hs. revert acc. induction l as [|q l IH]; intros acc Hg; [assumption |].
  simpl. apply IH. unfold map_placeholder.
  destruct (scan df q) as [cq|] eqn:Eq; simpl; [| assumption].
  destruct (String.eqb_spec q p) as [->|Hne].
  - rewrite PyDictFacts.get_set_eq. congruence.
  - now rewrite PyDictFacts.get_set_ne.
Qed.

Lemma fold_binds (df : Frame.t) (p : string) (c : nat) (l : list string)
    (acc : PyDict.t nat * list string) :
  scan df p = Some c -> In p l ->
  PyDict.get (fst (fold_left (map_placeholder df) l acc)) p = Some c.
Proof.
  intros Hs. revert acc. induction l as [|q l IH]; intros acc Hin; [contradiction |].
  simpl. destruct (String.eqb_spec q p) as [->|Hne].
  - apply fold_keeps; [assumption |]. unfold map_placeholder. rewrite Hs. simpl.
    apply PyDictFacts.get_set_eq.
  - destruct Hin as [Heq|Hin]; [contradiction | now apply IH].
Qed.

Lemma fold_omits (df : Frame.t) (p : string) (l : list string)
    (acc : PyDict.t nat * list string) :
  scan df p = None ->
  PyDict.get (fst (fold_left (map_placeholder df) l acc)) p = PyDict.get (fst acc) p.
Proof.
  intros Hs. revert acc. induction l as [|q l IH]; intros acc; [reflexivity |].
  simpl. rewrite IH. unfold map_placeholder.
  destruct (scan df q) as [cq|] eqn:Eq; simpl; [| reflexivity].
  apply PyDictFacts.get_set_ne. intros ->. congruence.
Qed.

Lemma fold_keeps_printed (df : Frame.t) (w : string) (l : list string)
    (acc : PyDict.t nat * list string) :
  In w (snd acc) -> In w (snd (fold_left (map_placeholder df) l acc)).
Proof.
  revert acc. induction l as [|q l IH]; intros acc Hin; [assumption |].
  simpl. apply IH. unfold map_placeholder.
  destruct (scan df q); simpl; [assumption | apply in_or_app; now left].
Qed.

Lemma fold_warns (df : Frame.t) (p : string) (l : list string)
    (acc : PyDict.t nat * list string) :
  scan df p = None -> In p l ->
  In (warning p) (snd (fold_left (map_placeholder df) l acc)).
Proof.
  intros Hs. revert acc. induction l as [|q l IH]; intros acc Hin; [contradiction |].
  simpl. destruct (String.eqb_spec q p) as [->|Hne].
  - apply fold_keeps_printed. unfold map_placeholder. rewrite Hs. simpl.
    apply in_or_app. right. now left.
  - destruct Hin as [Heq|Hin]; [contradiction | now apply IH].
Qed.

(** The mapping and the warnings of a call that finds no cached mapping. *)
Lemma find_column_mapping_fresh (self : tab) (df : Frame.t) (l : list string) :
  cached self = None ->
  snd (fst (find_column_mapping self df l)) = fst (fold_left (map_placeholder df) l ([], []))
  /\ snd (find_column_mapping self df l) = snd (fold_left (map_placeholder df) l ([], [])).
Proof.
  intros Hc. unfold find_column_mapping. rewrite Hc.
  now destruct (fold_left (map_placeholder df) l ([], [])).
Qed.

(** A cached mapping is returned as it is. *)
Lemma find_column_mapping_cached (self : tab) (df : Frame.t) (l : list string)
    (m : PyDict.t nat) :
  cached self = Some m -> find_column_mapping self df l = (self, m, []).
Proof. intros Hc. unfold find_column_mapping. now rewrite Hc. Qed.

(** The call leaves its mapping in the cache. *)
Lemma find_column_mapping_caches (self : tab) (df : Frame.t) (l : list string) :
  cached self = None ->
  _column_mapping_cache (fst (fst (find_column_mapping self df l)))
    = Some (snd (fst (find_column_mapping self df l))).
Proof.
  intros Hc. unfold find_column_mapping. rewrite Hc.
  now destruct (fold_left (map_placeholder df) l ([], [])).
Qed.

(** A tab with an empty cache binds every placeholder as the
    specification says. *)
Lemma fresh_mapping_binds_first_match (self : tab) (df : Frame.t)
    (placeholders : list string) (placeholder : string) :
  cached self = None ->
  In placeholder placeholders ->
  binds_first_match self df placeholders placeholder.
Proof.
  intros Hc Hin. unfold binds_first_match.
  destruct (find_column_mapping_fresh self df placeholders Hc) as [-> ->].
  destruct (scan df placeholder) as [c|] eqn:E.
  - left. destruct (scan_first_match _ _ _ E) as [r Hr].
    exists r, c. split; [assumption |]. now apply fold_binds.
  - right. split; [now apply scan_no_match |].
    split; [| now apply fold_warns].
    now rewrite fold_omits.
Qed.

(** A tab that still holds the mapping of an earlier batch returns it
    without a scan, so ["name"] stays bound to column 5 although the frame
    has two columns and its first match is in column 0. *)
Lemma stale_mapping_is_not_first_match :
  ~ binds_first_match Sample.stale_tab Sample.people ["name"] "name".
Proof.
  unfold binds_first_match.
  change (find_column_mapping Sample.stale_tab Sample.people ["name"])
    with (Sample.stale_tab, [("name", 5)] : PyDict.t nat, @nil string).
  cbn [fst snd]. intros [(r & c & Hfm & Hget) | (_ & Hget & _)].
  - vm_compute in Hget. injection Hget as <-.
    destruct Hfm as [(_ & _ & Hw & _) _]. vm_compute in Hw. lia.
  - vm_compute in Hget. discriminate.
Qed.

End MapperFacts.

(** C4.  On a converter that holds no mapping the mapper does what the
    claim says: every placeholder of the set is bound to the column of the
    first cell of rows 0-3, rows top to bottom and cells left to right,
    whose trimmed text equals the placeholder name up to case, and a
    placeholder that matches no cell of those rows is left out with a
    printed warning.  But the call leaves its mapping in the cache of the
    tab, nothing empties that cache, and a tab that holds a mapping returns
    it for any data frame without a scan.  After a batch on a frame with
    the label [name] in column 5, the mapping of the two-column sample frame
    still binds [name] to column 5 and not to its first match in column 0;
    the batch on that frame then fails on every row with the [KeyError] of
    column 5, writes an archive without an entry and reports two
    documents. *)
Theorem C4_stale_mapping_fails_every_row :
  (forall (self : tab) (df : Frame.t) (placeholders : list string)
          (placeholder : string),
     Mapper.cached self = None ->
     In placeholder placeholders ->
     Mapper.binds_first_match self df placeholders placeholder)
  /\ (forall (self : tab) (df : Frame.t) (placeholders : list string),
        Mapper.cached self = None ->
        _column_mapping_cache
          (fst (fst (Mapper.find_column_mapping self df placeholders)))
        = Some (snd (fst (Mapper.find_column_mapping self df placeholders))))
  /\ (forall (self : tab) (df : Frame.t) (placeholders : list string)
            (m : PyDict.t nat),
        Mapper.cached self = Some m ->
        Mapper.find_column_mapping self df placeholders = (self, m, []))
  /\ Mapper.find_column_mapping Sample.fresh_tab Sample.wide_people ["name"]
     = (Sample.stale_tab, [("name", 5)], [])
  /\ Mapper.find_column_mapping Sample.stale_tab Sample.people ["name"]
     = (Sample.stale_tab, [("name", 5)], [])
  /\ Mapper.first_match Sample.people "name" 0 0
  /\ ~ Mapper.binds_first_match Sample.stale_tab Sample.people ["name"] "name"
  /\ (forall float_sum_text,
        Job.conversion_worker (fun _ => false) (fun _ => false) float_sum_text
          (Returned Sample.letter) (fun _ _ => Returned tt) Sample.stale_tab
          (Returned ["name"]) (fun jobs => jobs) "/out" (Returned Sample.people)
        = [Job.Mkdir "/out/temp_documents";
           Job.Printed "Error processing document: 5";
           Job.Printed "Error processing document: 5";
           Job.ZipWrite "/out/Generated_Documents.zip" [];
           Job.Rmdir "/out/temp_documents";
           Job.ShowInfo "Success"
             (Job.success_message 2 "/out/Generated_Documents.zip")]).
Proof.
  split; [| split; [| split; [| split; [| split; [| split; [| split]]]]]].
  - intros self df placeholders p Hc Hin.
    now apply MapperFacts.fresh_mapping_binds_first_match.
  - intros self df placeholders Hc. now apply MapperFacts.find_column_mapping_caches.
  - intros self df placeholders m Hc. now apply MapperFacts.find_column_mapping_cached.
  - vm_compute. reflexivity.
  - vm_compute. reflexivity.
  - split.
    + unfold Mapper.matches_at. vm_compute. repeat split; lia.
    + intros r' c' _. destruct r' as [|r']; [right; split; [reflexivity | lia] |].
      left. lia.
  - apply MapperFacts.stale_mapping_is_not_first_match.
  - intros float_sum_text. vm_compute. reflexivity.
Qed.

(** ** The auxiliary index *)

Module AuxIndexFacts.
Import PyStr AuxIndex.

Lemma entries_add_row (df : Frame.t) (col : nat) (cache : gmap string (list record))
    (row : Frame.series) (key : string) :
  entries (add_row df col cache row) key
    = entries cache key ++ row_records df col key row.
Proof.
  unfold add_row, row_records, entries.
  destruct (Frame.at_col row col) as [v|]; [| now rewrite app_nil_r].
  destruct (String.eqb_spec (strip (str_of v)) key) as [<-|Hne].
  - rewrite lookup_alter_eq.
    destruct (cache !! strip (str_of v)) as [l|] eqn:E; simpl.
    + now rewrite E.
    + now rewrite lookup_insert_eq.
  - rewrite lookup_alter_ne by assumption.
    destruct (cache !! strip (str_of v)) as [l|] eqn:E.
    + now rewrite app_nil_r.
    + rewrite lookup_insert_ne by assumption. now rewrite app_nil_r.
Qed.

Lemma entries_add_rows (df : Frame.t) (col : nat) (rows : list Frame.series)
    (cache : gmap string (list record)) (key : string) :
  entries (fold_left (add_row df col) rows cache) key
    = entries cache key ++ flat_map (row_records df col key) rows.
Proof.
  revert cache. induction rows as [|row rows IH]; intros cache; simpl.
  - now rewrite app_nil_r.
  - now rewrite IH, entries_add_row, <- app_assoc.
Qed.

Lemma flat_map_row_records (df : Frame.t) (col : nat) (key : string)
    (rows : list Frame.series) :
  flat_map (row_records df col key) rows
    = map (fun row => make_row_data (Frame.iloc_row df 3) row (Frame.width df))
        (List.filter (fun row => match Frame.at_col row col with
                                 | Some v => String.eqb (strip (str_of v)) key
                                 | None => false
                                 end) rows).
Proof.
  induction rows as [|row rows IH]; simpl; [reflexivity |].
  unfold row_records at 1.
  destruct (Frame.at_col row col) as [v|]; [| exact IH].
  destruct (String.eqb (strip (str_of v)) key); simpl; now rewrite IH.
Qed.

Lemma entries_add_file (cache : gmap string (list record)) (file : option Frame.t)
    (key : string) :
  entries (add_file cache file) key = entries cache key ++ file_records file key.
Proof.
  unfold add_file, file_records.
  destruct file as [df|]; [| now rewrite app_nil_r].
  destruct (Frame.marker_column "PARENT_KEY" df) as [col|]; [| now rewrite app_nil_r].
  now rewrite entries_add_rows, flat_map_row_records.
Qed.

Lemma entries_add_files (files : list (option Frame.t))
    (cache : gmap string (list record)) (key : string) :
  entries (fold_left add_file files cache) key
    = entries cache key ++ List.concat (map (fun file => file_records file key) files).
Proof.
  revert cache. induction files as [|file files IH]; intros cache; simpl.
  - now rewrite app_nil_r.
  - now rewrite IH, entries_add_file, <- app_assoc.
Qed.

(** The lookup after the preload, file by file. *)
Lemma lookup_after_preload (self : tab) (key_value : string) :
  get_additional_data_for_key_optimized (_preload_additional_data self) key_value
  = List.concat
      (map (fun file => file_records file (strip key_value))
         (additional_excel_paths self)).
Proof.
  unfold get_additional_data_for_key_optimized, _preload_additional_data. simpl.
  change (match ?m !! ?k with Some l => l | None => [] end) with (entries m k).
  rewrite entries_add_files. unfold entries. now rewrite lookup_empty.
Qed.

End AuxIndexFacts.

(** C9.  The index is one map over all linked files: after the preload, the
    lookup of a key returns the records of every file whose trimmed
    PARENT_KEY value equals the trimmed key, the files in selection order and
    the rows of each file in file order, in one list. *)
Theorem C9_index_merges_files :
  forall (self : tab) (key_value : string),
    AuxIndex.get_additional_data_for_key_optimized
      (AuxIndex._preload_additional_data self) key_value
    = List.concat
        (map (fun file => AuxIndex.file_records file (PyStr.strip key_value))
           (additional_excel_paths self)).
Proof. exact AuxIndexFacts.lookup_after_preload. Qed.

(** X1.  A key that no linked file holds is looked up as the empty list;
    the lookup never raises. *)
Theorem unmatched_key_gives_no_record :
  forall (self : tab) (key_value : string),
    (forall file, In file (additional_excel_paths self) ->
                  AuxIndex.file_records file (PyStr.strip key_value) = []) ->
    AuxIndex.get_additional_data_for_key_optimized
      (AuxIndex._preload_additional_data self) key_value = [].
Proof.
  intros self key_value H. rewrite AuxIndexFacts.lookup_after_preload.
  induction (additional_excel_paths self) as [|file files IH]; [reflexivity |].
  simpl. rewrite (H file) by now left. apply IH. intros f Hf. apply H. now right.
Qed.

(** The key [k9] on the two sample files. *)
Lemma unmatched_key_witness :
  AuxIndex.get_additional_data_for_key_optimized
    (AuxIndex._preload_additional_data Sample.linked_tab) " k9" = [].
Proof.
  apply (unmatched_key_gives_no_record Sample.linked_tab " k9").
  intros file [<-|[<-|[<-|[]]]]; reflexivity.
Defined.

(** ** The ranked-needs table *)

Module RankingFacts.
Import PyStr Ranking.

Lemma reason_key_other (i : nat) : reason_key i <> "bus_info_needs".
Proof. unfold reason_key. intros H. discriminate H. Qed.

Lemma get_after_reasons (f : nat -> value) (l : list nat) (r : record) :
  PyDict.get (fold_left (fun r i => PyDict.set r (reason_key i) (f i)) l r)
    "bus_info_needs"
  = PyDict.get r "bus_info_needs".
Proof.
  revert r. induction l as [|i l IH]; intros r; simpl; [reflexivity |].
  rewrite IH. apply PyDictFacts.get_set_ne, reason_key_other.
Qed.

(** The text stored under ['bus_info_needs'] is the joined item list. *)
Lemma ranked_items_text (data_row : record) :
  PyDict.get (process_bus_info_needs_ranking data_row) "bus_info_needs"
    = Some (Str (join nl (processed_items data_row))).
Proof.
  unfold process_bus_info_needs_ranking, processed_items.
  destruct (no_needs _); cbv zeta; rewrite get_after_reasons; reflexivity.
Qed.

(** A missing, empty, ['NA'] or ['nan'] field gives no item. *)
Lemma no_needs_no_items (data_row : record) :
  no_needs (strip (get_str data_row "bus_info_needs")) = true ->
  processed_items data_row = [].
Proof. intros H. unfold processed_items. now rewrite H. Qed.

Lemma missing_field_no_items (data_row : record) :
  PyDict.get data_row "bus_info_needs" = None -> processed_items data_row = [].
Proof.
  intros H. apply no_needs_no_items. unfold get_str, PyDict.get_or. now rewrite H.
Qed.

Lemma listed_field_no_items (data_row : record) :
  in_list (lower (strip (get_str data_row "bus_info_needs")))
    ["nan"; "na"; ""] = true ->
  processed_items data_row = [].
Proof.
  intros H. apply no_needs_no_items. unfold no_needs. rewrite H. apply orb_true_r.
Qed.

End RankingFacts.

(** C10.  When the ranked-item list computed from a row is empty,
    populating the ranked-needs table returns the table as it was: no row is
    removed and none is added.  A missing, empty, ['NA'] or ['nan']
    multiselect field is such a row. *)
Theorem C10_empty_ranking_leaves_table :
  forall (t : Docx.table) (data_row : record),
    Ranking.processed_items data_row = [] ->
    Render.populate_bus_info_needs_table t data_row = t.
Proof.
  intros t data_row H.
  unfold Render.populate_bus_info_needs_table, get_str, PyDict.get_or.
  rewrite RankingFacts.ranked_items_text, H. reflexivity.
Qed.

(** A row whose field is [" NA "], on a table that holds a data row. *)
Lemma C10_empty_ranking_witness :
  Render.populate_bus_info_needs_table Sample.needs_table
    [("bus_info_needs", Str " NA "); ("bus_info_needs_o", Str "X")]
  = Sample.needs_table.
Proof.
  apply (C10_empty_ranking_leaves_table Sample.needs_table
           [("bus_info_needs", Str " NA "); ("bus_info_needs_o", Str "X")]).
  vm_compute. reflexivity.
Defined.

(** ** Pictures *)

Module RenderFacts.
Import PyStr Docx Render.

Lemma contains_first_char (c : ascii) (rest s : string) :
  contains (String c rest) s = true -> contains (String c "") s = true.
Proof.
  induction s as [|d s IH]; [discriminate |].
  change (contains (String c rest) (String d s))
    with (String.prefix (String c rest) (String d s) || contains (String c rest) s).
  change (contains (String c "") (String d s))
    with (String.prefix (String c "") (String d s) || contains (String c "") s).
  intros H. apply orb_true_iff in H as [H|H].
  - simpl in H. simpl. destruct (Ascii.ascii_dec c d); [| discriminate].
    now destruct s.
  - rewrite (IH H). apply orb_true_r.
Qed.

Lemma find_map {A B : Type} (p : B -> bool) (f : A -> B) (l : list A) :
  List.find p (map f l) = option_map f (List.find (fun x => p (f x)) l).
Proof.
  induction l as [|x l IH]; simpl; [reflexivity |].
  destruct (p (f x)); [reflexivity | exact IH].
Qed.

Lemma candidates_are_tests (image_filename : string) :
  image_candidates image_filename
    = map (test_filename image_filename) ("" :: image_extensions).
Proof. reflexivity. Qed.

Section WithEnvironment.
Variable path_exists : string -> bool.
Variable picture_loads : string -> bool.
Variable self : tab.

Lemma replace_image_taken (paragraph : Docx.paragraph) (image_path : string)
    (width : N) :
  contains "{resp_pix}" (text paragraph) = true ->
  snd (replace_image_in_paragraph picture_loads paragraph image_path width "resp_pix")
    = true.
Proof.
  intros H. unfold replace_image_in_paragraph.
  change (token "resp_pix") with "{resp_pix}". now rewrite H.
Qed.

(** The loop is a search for the first name that exists. *)
Lemma try_extensions_find (folder image_filename : string)
    (paragraph : Docx.paragraph) (exts : list string) :
  contains "{resp_pix}" (text paragraph) = true ->
  try_extensions path_exists picture_loads self folder image_filename paragraph exts
    = option_map
        (fun name =>
           fst (replace_image_in_paragraph picture_loads paragraph
                  (OsPath.join folder name) (image_width self) "resp_pix"))
        (List.find (fun name => path_exists (OsPath.join folder name))
           (map (test_filename image_filename) exts)).
Proof.
  intros H. induction exts as [|ext exts IH]; simpl; [reflexivity |].
  destruct (path_exists _); [| exact IH].
  pose proof (replace_image_taken paragraph
                (OsPath.join folder (test_filename image_filename ext))
                (image_width self) H) as Ht.
  destruct (replace_image_in_paragraph _ _ _ _ _) as [p b] eqn:E. simpl in Ht.
  rewrite Ht. simpl option_map. now rewrite E.
Qed.

Lemma replace_in_paragraph_lookup (data_row : record) (paragraph : Docx.paragraph)
    (folder : string) (v : value) :
  image_folder self = Some folder ->
  contains "{resp_pix}" (text paragraph) = true ->
  PyDict.get data_row "resp_pix" = Some v ->
  truthy (strip (str_of v)) = true ->
  String.eqb (lower (strip (str_of v))) "nan" = false ->
  replace_in_paragraph path_exists picture_loads self data_row paragraph
    = lookup_result path_exists picture_loads self folder (strip (str_of v)) data_row paragraph.
Proof.
  intros Hf Hc Hv Ht Hn. unfold replace_in_paragraph, lookup_result.
  rewrite (contains_first_char _ _ _ Hc).
  unfold try_image, PyDict.mem, get_str, PyDict.get_or.
  rewrite Hf, Hv, Hc, Ht, Hn. simpl andb. cbv iota.
  rewrite try_extensions_find by assumption.
  rewrite <- candidates_are_tests.
  now destruct (List.find _ _).
Qed.

Lemma replace_in_paragraph_no_lookup (data_row : record) (paragraph : Docx.paragraph) :
  match PyDict.get data_row "resp_pix" with
  | Some v => truthy (strip (str_of v)) = false \/ String.eqb (lower (strip (str_of v))) "nan" = true
  | None => True
  end ->
  contains "{" (text paragraph) = true ->
  replace_in_paragraph path_exists picture_loads self data_row paragraph
    = replace_text data_row paragraph.
Proof.
  intros Hv Hc.
  unfold replace_in_paragraph, try_image, PyDict.mem, get_str, PyDict.get_or.
  rewrite Hc. destruct (image_folder self); [| reflexivity].
  destruct (PyDict.get data_row "resp_pix") as [v|]; [| reflexivity].
  destruct (contains "{resp_pix}" (text paragraph)); [| reflexivity].
  destruct Hv as [-> | ->]; [reflexivity |].
  now rewrite andb_false_r.
Qed.
End WithEnvironment.

End RenderFacts.

(** C8 (amended).  When an image folder is configured, the paragraph holds
    the image placeholder and the row has an image-name value that, once
    trimmed, is not empty and is not ['nan'] in any case, the lookup tries
    the trimmed value first and then, the extension stripped, each of .png,
    .jpg, .jpeg, .gif, .bmp, .tiff, .webp in this order; the picture of the
    first name that exists on disk replaces the placeholder, and when none
    exists the paragraph gets the plain text substitution.  With a missing,
    blank or ['nan'] value no lookup is made and the paragraph gets the
    plain text substitution. *)
Theorem C8_image_lookup_order :
  forall path_exists picture_loads (self : tab) (data_row : record)
         (paragraph : Docx.paragraph),
    (forall folder v,
       Render.image_folder self = Some folder ->
       PyStr.contains "{resp_pix}" (Docx.text paragraph) = true ->
       PyDict.get data_row "resp_pix" = Some v ->
       PyStr.truthy (PyStr.strip (str_of v)) = true ->
       String.eqb (PyStr.lower (PyStr.strip (str_of v))) "nan" = false ->
       Render.replace_in_paragraph path_exists picture_loads self data_row paragraph
         = Render.lookup_result path_exists picture_loads self folder (PyStr.strip (str_of v))
             data_row paragraph)
    /\ (match PyDict.get data_row "resp_pix" with
        | Some v =>
            PyStr.truthy (PyStr.strip (str_of v)) = false
            \/ String.eqb (PyStr.lower (PyStr.strip (str_of v))) "nan" = true
        | None => True
        end ->
        PyStr.contains "{" (Docx.text paragraph) = true ->
        Render.replace_in_paragraph path_exists picture_loads self data_row paragraph
          = Render.replace_text data_row paragraph).
Proof.
  intros path_exists picture_loads self data_row paragraph. split.
  - intros folder v. apply RenderFacts.replace_in_paragraph_lookup.
  - apply RenderFacts.replace_in_paragraph_no_lookup.
Qed.

(** The value [" ana.png "] with only [ana.jpg] on disk: the second
    candidate is the one inserted. *)
Lemma C8_image_lookup_witness :
  Render.replace_in_paragraph Sample.only_jpg (fun _ => true) Sample.photo_tab
    [("resp_pix", Str " ana.png ")] Sample.photo_line
  = Render.lookup_result Sample.only_jpg (fun _ => true) Sample.photo_tab
      "/img" "ana.png" [("resp_pix", Str " ana.png ")] Sample.photo_line.
Proof.
  apply (proj1 (C8_image_lookup_order Sample.only_jpg (fun _ => true) Sample.photo_tab
                  [("resp_pix", Str " ana.png ")] Sample.photo_line)
           "/img" (Str " ana.png ")); reflexivity.
Defined.

(** C8 as stated fails: with the value ["nan"] and a file of that name in
    the folder, the stated lookup would insert the picture, while the code
    makes no lookup and substitutes the text. *)
Lemma C8_nan_value_counterexample :
  ~ Render.looks_up_verbatim Sample.only_nan (fun _ => true) Sample.photo_tab
      [("resp_pix", Str "nan")] Sample.photo_line.
Proof.
  intros H. specialize (H "/img" eq_refl eq_refl). vm_compute in H. discriminate H.
Qed.

(** ** The batch *)

Module JobFacts.
Import PyStr Job.

Section WithEnvironment.
Variable path_exists : string -> bool.
Variable picture_loads : string -> bool.
Variable float_sum_text : list value -> string.
Variable load_template : outcome Docx.document.
Variable save : string -> Docx.document -> outcome unit.
Variable self : tab.
Variable find_placeholders : outcome (list string).
Variable as_completed : list args -> list args.

Let render := render path_exists picture_loads float_sum_text load_template save self.
Let process_single_document :=
  process_single_document path_exists picture_loads float_sum_text load_template
    save self.
Let result_file :=
  result_file path_exists picture_loads float_sum_text load_template save self.
Let error_line :=
  error_line path_exists picture_loads float_sum_text load_template save self.
Let collect :=
  collect path_exists picture_loads float_sum_text load_template save self.

(** Every exception of the body is turned into the error of the pair. *)
Lemma job_catches (a : args) :
  match render a with
  | Returned (output_path, _) => process_single_document a = (Some output_path, None)
  | Raised e => process_single_document a = (None, Some e)
  end.
Proof.
  unfold process_single_document, Job.process_single_document.
  fold render. now destruct (render a) as [[p d]|e].
Qed.

Lemma collect_all (l : list args) (acc : list string * list event) :
  fold_left collect l acc
    = (fst acc ++ flat_map result_file l, snd acc ++ flat_map error_line l).
Proof.
  revert acc. induction l as [|a l IH]; intros [files printed]; simpl.
  - now rewrite !app_nil_r.
  - rewrite IH. unfold collect, Job.collect, result_file, Job.result_file,
      error_line, Job.error_line.
    destruct (Job.process_single_document _ _ _ _ _ _ a) as [[p|] err]; simpl;
      now rewrite <- ?app_assoc.
Qed.

Lemma in_result_files (l : list args) (file_path : string) :
  In file_path (flat_map result_file l)
  <-> exists a, In a l /\ process_single_document a = (Some file_path, None).
Proof.
  rewrite in_flat_map. split.
  - intros (a & Ha & Hin). exists a. split; [assumption |].
    unfold result_file, Job.result_file in Hin. fold process_single_document in Hin.
    pose proof (job_catches a) as Hc.
    destruct (render a) as [[p d]|e]; rewrite Hc in Hin |- *; simpl in Hin.
    + destruct Hin as [->|[]]. reflexivity.
    + contradiction.
  - intros (a & Ha & Hp). exists a. split; [assumption |].
    unfold result_file, Job.result_file. fold process_single_document.
    rewrite Hp. now left.
Qed.

Lemma in_error_lines (l : list args) (a : args) (e : string) :
  In a l -> render a = Raised e ->
  In (Printed ("Error processing document: " +:+ e)) (flat_map error_line l).
Proof.
  intros Ha He. apply in_flat_map. exists a. split; [assumption |].
  unfold error_line, Job.error_line. fold process_single_document.
  pose proof (job_catches a) as Hc. rewrite He in Hc. rewrite Hc. now left.
Qed.

Lemma policy_holds (destination_path : string) (data_rows : list Frame.series)
    (column_mapping : PyDict.t nat) (key_column : nat) :
  (forall l, Permutation (as_completed l) l) ->
  partial_failure_policy path_exists picture_loads float_sum_text load_template
    save self as_completed destination_path data_rows column_mapping key_column.
Proof.
  intros Hperm. unfold partial_failure_policy, run_batch. cbv zeta.
  set (jobs := process_args data_rows column_mapping key_column _).
  fold collect. rewrite collect_all. cbn [fst snd app].
  split; [exact job_catches |]. split.
  - eexists. split.
    + apply in_cons, in_or_app. right. apply in_or_app. right.
      left. reflexivity.
    + intros file_path. rewrite map_map. cbn [fst]. rewrite map_id.
      rewrite in_result_files. split; intros (a & Ha & Hp); exists a; (split; [| exact Hp]).
      * eapply Permutation_in; [apply Hperm | exact Ha].
      * eapply Permutation_in; [symmetry; apply Hperm | exact Ha].
  - intros a e Ha He.
    apply in_cons, in_or_app. right. apply in_or_app. left.
    fold error_line. apply in_error_lines with (a := a); [| exact He].
    eapply Permutation_in; [symmetry; apply Hperm | exact Ha].
Qed.

Lemma worker_aborts (destination_path : string) (df : Frame.t) :
  truthy destination_path = true ->
  configuration_error self find_placeholders df ->
  aborted
    (conversion_worker path_exists picture_loads float_sum_text load_template save
       self find_placeholders as_completed destination_path (Returned df)).
Proof.
  intros Hd Hcfg. unfold conversion_worker. rewrite Hd. simpl negb. cbv iota.
  unfold configuration_error, empty_placeholder_set, empty_column_mapping,
    missing_key_column, no_data_rows in Hcfg.
  destruct (placeholders self find_placeholders) as [[|p ps]|e] eqn:Ep.
  - exists [], "Warning", "No placeholders found in template". now left.
  - destruct (Mapper.find_column_mapping self df (p :: ps)) as [[self' m] printed] eqn:Em.
    destruct m as [|kv m].
    + exists printed. do 2 eexists. right. reflexivity.
    + destruct (Frame.marker_column "KEY" df) as [key_column|] eqn:Ek.
      * destruct (Frame.data_rows df) as [|r rs] eqn:Er.
        -- exists printed. do 2 eexists. left. reflexivity.
        -- exfalso. destruct Hcfg as [H|[(found & H & Hm)|[H|H]]]; try discriminate.
           injection H as <-. rewrite Em in Hm. discriminate.
      * exists printed. do 2 eexists. right. reflexivity.
  - exists ["Error occurred: " +:+ e]. do 2 eexists. right. reflexivity.
Qed.

Lemma aborted_no_output (trace : list event) :
  aborted trace ->
  existsb is_message_box trace = true /\ existsb is_output trace = false.
Proof.
  intros (printed & title & message & [-> | ->]); rewrite !existsb_app; simpl;
    rewrite !orb_true_r, !orb_false_r; (split; [reflexivity |]);
    induction printed as [|x l IH]; simpl; congruence.
Qed.
End WithEnvironment.

End JobFacts.

(** C6.  Once a destination folder is chosen and the main file is read,
    each configuration error - an empty placeholder set, an empty column
    mapping, no KEY cell in row 3, no row from row 4 on - ends the worker at
    a warning or error box with nothing before it but printed lines: no
    directory is made, no document is rendered or saved, no archive is
    written. *)
Theorem C6_configuration_error_aborts :
  forall path_exists picture_loads float_sum_text load_template save
         (self : tab) find_placeholders as_completed
         (destination_path : string) (df : Frame.t),
    PyStr.truthy destination_path = true ->
    Job.configuration_error self find_placeholders df ->
    let trace :=
      Job.conversion_worker path_exists picture_loads float_sum_text load_template
        save self find_placeholders as_completed destination_path (Returned df) in
    Job.aborted trace
    /\ existsb Job.is_message_box trace = true
    /\ existsb Job.is_output trace = false.
Proof.
  intros path_exists picture_loads float_sum_text load_template save self
    find_placeholders as_completed destination_path df Hd Hcfg trace.
  assert (Ha : Job.aborted trace) by now apply JobFacts.worker_aborts.
  split; [exact Ha | now apply JobFacts.aborted_no_output].
Qed.

(** The four configuration errors on the sample data: no placeholder, no
    placeholder that labels a column, no KEY cell, no data row. *)
Lemma C6_configuration_error_witness :
  let worker find_placeholders df :=
    Job.conversion_worker (fun _ => false) (fun _ => false) (fun _ => "0")
      (Returned Sample.letter) (fun _ _ => Returned tt) Sample.fresh_tab
      find_placeholders (fun l => l) "/out" (Returned df) in
  let stops trace :=
    Job.aborted trace
    /\ existsb Job.is_message_box trace = true
    /\ existsb Job.is_output trace = false in
  stops (worker (Returned []) Sample.people)
  /\ stops (worker (Returned ["phone"]) Sample.people)
  /\ stops (worker (Returned ["name"; "age"]) Sample.people_without_key)
  /\ stops (worker (Returned ["name"; "age"]) Sample.people_without_rows).
Proof.
  cbv zeta. split; [| split; [| split]].
  - apply (C6_configuration_error_aborts (fun _ => false) (fun _ => false)
                (fun _ => "0") (Returned Sample.letter) (fun _ _ => Returned tt)
                Sample.fresh_tab (Returned []) (fun l => l) "/out" Sample.people);
    [reflexivity | left; reflexivity].
  - apply (C6_configuration_error_aborts (fun _ => false) (fun _ => false)
                (fun _ => "0") (Returned Sample.letter) (fun _ _ => Returned tt)
                Sample.fresh_tab (Returned ["phone"]) (fun l => l) "/out" Sample.people);
       [reflexivity | right; left; exists ["phone"]; split; reflexivity].
  - apply (C6_configuration_error_aborts (fun _ => false) (fun _ => false)
                (fun _ => "0") (Returned Sample.letter) (fun _ _ => Returned tt)
                Sample.fresh_tab (Returned ["name"; "age"]) (fun l => l) "/out"
                Sample.people_without_key);
       [reflexivity | right; right; left; reflexivity].
  - apply (C6_configuration_error_aborts (fun _ => false) (fun _ => false)
                (fun _ => "0") (Returned Sample.letter) (fun _ _ => Returned tt)
                Sample.fresh_tab (Returned ["name"; "age"]) (fun l => l) "/out"
                Sample.people_without_rows);
       [reflexivity | right; right; right; reflexivity].
Defined.

(** C7.  Whatever the order in which the jobs complete, every exception
    raised while a row is rendered is caught in its job and returned as the
    error of the pair; the archive is written and holds the files of exactly
    the jobs that returned a path, so a failed job is left out and takes no
    sibling with it; each failure leaves a printed line. *)
Theorem C7_job_failures_stay_local :
  forall path_exists picture_loads float_sum_text load_template save
         (self : tab) as_completed
         (destination_path : string) (data_rows : list Frame.series)
         (column_mapping : PyDict.t nat) (key_column : nat),
    (forall l, Permutation (as_completed l) l) ->
    Job.partial_failure_policy path_exists picture_loads float_sum_text load_template
      save self as_completed destination_path data_rows column_mapping key_column.
Proof.
  intros. now apply JobFacts.policy_holds.
Qed.

(** Two rows completing in reverse order, the second of which cannot be
    saved. *)
Lemma C7_job_failures_witness :
  Job.partial_failure_policy (fun _ => false) (fun _ => false) (fun _ => "0")
    (Returned Sample.letter) Sample.second_fails Sample.fresh_tab (@rev Job.args)
    "/out" (Frame.data_rows Sample.people) [("name", 0); ("age", 1)] 0.
Proof.
  apply (C7_job_failures_stay_local (fun _ => false) (fun _ => false) (fun _ => "0")
           (Returned Sample.letter) Sample.second_fails Sample.fresh_tab (@rev Job.args)
           "/out" (Frame.data_rows Sample.people) [("name", 0); ("age", 1)] 0).
  intros l. symmetry. apply Permutation_rev.
Defined.

(** C5 (as the code behaves).  The success box always gives the number of
    data rows, whatever the number of documents collected; on a batch of two
    rows of which the second cannot be saved, the archive holds the one
    document that was generated while the box says that two were. *)
Theorem C5_success_message_counts_every_row :
  (forall path_exists picture_loads float_sum_text load_template save
          (self : tab) as_completed
          (destination_path : string) (data_rows : list Frame.series)
          (column_mapping : PyDict.t nat) (key_column : nat),
     In (Job.ShowInfo "Success"
           (Job.success_message (List.length data_rows)
              (OsPath.join destination_path "Generated_Documents.zip")))
        (Job.run_batch path_exists picture_loads float_sum_text load_template save
           self as_completed destination_path data_rows column_mapping key_column))
  /\
  (let trace :=
     Job.conversion_worker (fun _ => false) (fun _ => false) (fun _ => "0")
       (Returned Sample.letter) Sample.second_fails Sample.fresh_tab
       (Returned ["name"; "age"]) (fun l => l) "/out" (Returned Sample.people) in
   In (Job.ZipWrite "/out/Generated_Documents.zip"
         [("/out/temp_documents/document_001.docx", "document_001.docx")]) trace
   /\ In (Job.Printed "Error processing document: Permission denied") trace
   /\ In (Job.ShowInfo "Success"
            (Job.success_message 2 "/out/Generated_Documents.zip")) trace
   /\ ~ In (Job.ShowInfo "Success"
              (Job.success_message 1 "/out/Generated_Documents.zip")) trace).
Proof.
  split.
  - intros. unfold Job.run_batch. cbv zeta.
    destruct (fold_left _ _ _) as [generated_files printed].
    apply in_cons. do 4 (apply in_or_app; right). right. now left.
  - cbv zeta. repeat split.
    + vm_compute. do 3 right. left. reflexivity.
    + vm_compute. do 2 right. left. reflexivity.
    + vm_compute. do 6 right. left. reflexivity.
    + intros H. vm_compute in H.
      repeat (destruct H as [H|H]; [discriminate H |]). exact H.
Qed.

(** ** The engine at work on the sample data *)

Module Examples.

(** Both rows of the sample frame are rendered, saved, archived and
  removed again. *)
Lemma two_rows_two_documents :
Job.conversion_worker (fun _ => false) (fun _ => false) (fun _ => "0")
  (Returned Sample.letter) (fun _ _ => Returned tt) Sample.fresh_tab
  (Returned ["name"; "age"]) (fun l => l) "/out" (Returned Sample.people)
= [ Job.Mkdir "/out/temp_documents";
    Job.Saved "/out/temp_documents/document_001.docx"
      {| Docx.paragraphs := [[Docx.Text "Alice is 30"]]; Docx.tables := [] |};
    Job.Saved "/out/temp_documents/document_002.docx"
      {| Docx.paragraphs := [[Docx.Text "Bob is 40"]]; Docx.tables := [] |};
    Job.ZipWrite "/out/Generated_Documents.zip"
      [ ("/out/temp_documents/document_001.docx", "document_001.docx");
        ("/out/temp_documents/document_002.docx", "document_002.docx") ];
    Job.Unlink "/out/temp_documents/document_001.docx";
    Job.Unlink "/out/temp_documents/document_002.docx";
    Job.Rmdir "/out/temp_documents";
    Job.ShowInfo "Success"
      (Job.success_message 2 "/out/Generated_Documents.zip") ].
Proof. vm_compute. reflexivity. Qed.

(** The records of two files under one key, and the empty list for a key
  that no file holds. *)
Lemma merged_lookup :
AuxIndex.get_additional_data_for_key_optimized
  (AuxIndex._preload_additional_data Sample.linked_tab) "k1 "
= [ [("PARENT_KEY", Str " k1 "); ("hhcomp_hhmmbr_fname", Str "Ana")];
    [("PARENT_KEY", Str "k1"); ("hhcomp_hhmmbr_fname", Str "Ben")];
    [("tree_type", Str "Mango"); ("parent_key", Str "k1")] ]
/\ AuxIndex.get_additional_data_for_key_optimized
     (AuxIndex._preload_additional_data Sample.linked_tab) "k9" = [].
Proof.
split; vm_compute; reflexivity.
Qed.

(** The ranked-needs table of a row with three needs. *)
Lemma ranked_rows :
Docx.rows
  (Render.populate_bus_info_needs_table Sample.needs_table
     [("bus_info_needs", Str "Prices, NA, Weather");
      ("bus_info_needs_rank_reason2", Str "rain")])
= firstn 2 (Docx.rows Sample.needs_table)
    ++ [ [Sample.text_cell "Prices"; Sample.text_cell "1"; Sample.text_cell ""];
         [Sample.text_cell "Weather"; Sample.text_cell "2"; Sample.text_cell "rain"] ].
Proof. vm_compute. reflexivity. Qed.

End Examples.

(** C1 (as the code behaves).  On the multiselect value
    ["A, B, Others, specify"] with companion ["X"] the comma split yields the
    two tokens ["Others"] and ["specify"], each of which is turned into
    ["Others, specify: X"]: four items and the ranks 1 to 4 come out, not the
    three items and ranks 1 to 3 of the specification. *)
Theorem C1_ranking_others_specify_duplicated :
  let data_row : record :=
    [("bus_info_needs", Str "A, B, Others, specify"); ("bus_info_needs_o", Str "X")] in
  Ranking.processed_items data_row
    = ["A"; "B"; "Others, specify: X"; "Others, specify: X"]
  /\ PyDict.get (Ranking.process_bus_info_needs_ranking data_row) "bus_info_needs"
    = Some (Str (PyStr.join PyStr.nl
                   ["A"; "B"; "Others, specify: X"; "Others, specify: X"]))
  /\ PyDict.get (Ranking.process_bus_info_needs_ranking data_row) "bus_info_needs_rank"
    = Some (Str (PyStr.join PyStr.nl ["1"; "2"; "3"; "4"]))
  /\ Ranking.processed_items data_row <> ["A"; "B"; "Others, specify: X"].
Proof.
  cbv zeta. repeat split; try reflexivity. discriminate.
Qed.


(* ===================================================================== *)
(** * Further properties *)
(* ===================================================================== *)

(** ** File names *)

Module NamingFacts.
Import PyStr Chars PyStrFacts.

Lemma all_chars_app (p : ascii -> bool) (a b : string) :
  all_chars p (a +:+ b) = all_chars p a && all_chars p b.
Proof.
  induction a as [|c a IH]; [reflexivity |].
  rewrite append_cons. simpl. now rewrite IH, andb_assoc.
Qed.

Lemma all_chars_take (p : ascii -> bool) (n : nat) (s : string) :
  all_chars p s = true -> all_chars p (take n s) = true.
Proof.
  revert n. induction s as [|c s IH]; intros [|n]; simpl; try reflexivity.
  intros H. apply andb_true_iff in H as [Hc Hs]. now rewrite Hc, IH.
Qed.

Lemma all_chars_weaken (p q : ascii -> bool) (s : string) :
  (forall c, p c = true -> q c = true) ->
  all_chars p s = true -> all_chars q s = true.
Proof.
  intros Hpq. induction s as [|c s IH]; simpl; [reflexivity |].
  intros H. apply andb_true_iff in H as [Hc Hs]. now rewrite (Hpq _ Hc), IH.
Qed.

Lemma all_chars_mem (p : ascii -> bool) (c : ascii) (s : string) :
  all_chars p s = true -> p c = false -> mem_char c s = false.
Proof.
  intros Hs Hc. induction s as [|d s IH]; [reflexivity |].
  simpl in Hs. apply andb_true_iff in Hs as [Hd Hs].
  rewrite mem_char_cons, (IH Hs), orb_false_r.
  destruct (Ascii.eqb_spec d c) as [->|]; [congruence | reflexivity].
Qed.

(** Every character that [clean] returns is a valid one. *)
Lemma clean_valid (s : string) : all_chars is_valid (Job.clean s) = true.
Proof.
  induction s as [|c s IH]; [reflexivity |].
  unfold Job.clean in *. cbn [map_chars all_chars]. rewrite IH, andb_true_r.
  unfold is_valid. destruct (mem_char c Job.invalid_chars) eqn:E; [reflexivity |].
  now rewrite E.
Qed.

(** Decimal numerals. *)
Lemma uint_digits (d : Decimal.uint) :
  all_chars is_digit (NilEmpty.string_of_uint d) = true.
Proof. induction d; simpl; try assumption; reflexivity. Qed.

Lemma str_of_nat_empty (n : nat) :
  str_of_nat n = NilEmpty.string_of_uint (Nat.to_uint n).
Proof.
  unfold str_of_nat, NilZero.string_of_uint.
  destruct (Nat.to_uint n) eqn:E; try reflexivity.
  exfalso. apply (DecimalFacts.unorm_nonnil (Nat.to_uint n)).
  rewrite <- DecimalNat.Unsigned.to_of, DecimalNat.Unsigned.of_to. exact E.
Qed.

Lemma str_of_nat_digits (n : nat) : all_chars is_digit (str_of_nat n) = true.
Proof. rewrite str_of_nat_empty. apply uint_digits. Qed.

Lemma read_str_of_nat (n : nat) : read_number (str_of_nat n) = Some n.
Proof.
  unfold read_number. rewrite str_of_nat_empty, NilEmpty.usu.
  now rewrite DecimalNat.Unsigned.of_to.
Qed.

Lemma read_leading_zero (s : string) :
  read_number (String "0" s) = read_number s.
Proof.
  unfold read_number. simpl. destruct (NilEmpty.uint_of_string s); reflexivity.
Qed.

Lemma pad3_digits (n : nat) : all_chars is_digit (pad3 n) = true.
Proof.
  unfold pad3. pose proof (str_of_nat_digits n) as H.
  destruct (String.length (str_of_nat n)) as [|[|[|k]]]; try assumption;
    rewrite all_chars_app, H; reflexivity.
Qed.

(** The number is read back from its padded form. *)
Lemma read_pad3 (n : nat) : read_number (pad3 n) = Some n.
Proof.
  unfold pad3. pose proof (read_str_of_nat n) as H.
  destruct (String.length (str_of_nat n)) as [|[|[|k]]]; try assumption.
  - change ("00" +:+ str_of_nat n) with (String "0" (String "0" (str_of_nat n))).
    now rewrite !read_leading_zero.
  - change ("0" +:+ str_of_nat n) with (String "0" (str_of_nat n)).
    now rewrite read_leading_zero.
Qed.

Lemma pad3_inj (m n : nat) : pad3 m = pad3 n -> m = n.
Proof.
  intros H. pose proof (read_pad3 m) as Hm. rewrite H, read_pad3 in Hm. congruence.
Qed.

End NamingFacts.

Module PathFacts.
Import PyStr Chars PyStrFacts NamingFacts.

Lemma append_assoc3 (a b c : string) : (a +:+ b) +:+ c = a +:+ (b +:+ c).
Proof.
  induction a as [|x a IH]; [reflexivity |].
  now rewrite !append_cons, IH.
Qed.

Lemma length_append (a b : string) :
  String.length (a +:+ b) = String.length a + String.length b.
Proof.
  induction a as [|x a IH]; [reflexivity |].
  rewrite append_cons. simpl. now rewrite IH.
Qed.

(** Equal texts with equal tails have equal heads. *)
Lemma append_cancel_r (a b t : string) : a +:+ t = b +:+ t -> a = b.
Proof.
  intros H.
  assert (Hlen : String.length a = String.length b).
  { apply (f_equal String.length) in H. rewrite !length_append in H. lia. }
  revert b H Hlen. induction a as [|x a IH]; intros [|y b] H Hlen;
    try discriminate Hlen; [reflexivity |].
  rewrite !append_cons in H. injection H as -> H.
  f_equal. apply IH; [assumption | simpl in Hlen; lia].
Qed.

Lemma rfind_absent (c : ascii) (s : string) :
  mem_char c s = false -> OsPath.rfind c s = None.
Proof.
  induction s as [|d s IH]; [reflexivity |].
  rewrite mem_char_cons. intros H. apply orb_false_elim in H as [Hd Hs].
  simpl. now rewrite (IH Hs), Hd.
Qed.

Lemma rfind_last (c : ascii) (a t : string) :
  mem_char c t = false ->
  OsPath.rfind c (a +:+ String c t) = Some (String.length a).
Proof.
  intros Ht. induction a as [|x a IH].
  - change ("" +:+ String c t) with (String c t). simpl.
    now rewrite (rfind_absent _ _ Ht), Ascii.eqb_refl.
  - rewrite append_cons. simpl. now rewrite IH.
Qed.

Lemma drop_append (a t : string) : drop (String.length a) (a +:+ t) = t.
Proof.
  induction a as [|x a IH]; [now destruct t |].
  rewrite append_cons. exact IH.
Qed.

(** What follows the last occurrence of a character. *)
Lemma after_last_append (c : ascii) (a t : string) :
  mem_char c t = false -> after_last c (a +:+ String c t) = t.
Proof.
  intros Ht. unfold after_last. rewrite (rfind_last _ _ _ Ht).
  replace (a +:+ String c t) with ((a +:+ String c "") +:+ t)
    by (rewrite append_assoc3; reflexivity).
  replace (S (String.length a)) with (String.length (a +:+ String c ""))
    by (rewrite length_append; simpl; lia).
  apply drop_append.
Qed.

Lemma ends_with_sep_split (a : string) :
  OsPath.ends_with_sep a = true -> exists a', a = a' +:+ "/".
Proof.
  induction a as [|x a IH]; [discriminate |].
  destruct a as [|y a].
  - simpl. destruct (Ascii.eqb_spec x "/") as [->|]; [| discriminate].
    intros _. now exists "".
  - intros H. destruct (IH H) as [a' ->]. now exists (String x a').
Qed.

(** A name without a separator is the base name of the path it is joined
    into. *)
Lemma basename_join (a b : string) :
  mem_char "/" b = false -> OsPath.basename (OsPath.join a b) = b.
Proof.
  intros Hb. unfold OsPath.join, startswith.
  destruct (String.prefix "/" b) eqn:Ep.
  - apply prefix_char in Ep as [b' ->]. rewrite mem_char_cons in Hb. discriminate.
  - change OsPath.basename with (after_last "/").
    destruct a as [|x a].
    + change (after_last "/" b = b). unfold after_last.
      now rewrite (rfind_absent _ _ Hb).
    + cbn [is_empty orb]. destruct (OsPath.ends_with_sep (String x a)) eqn:Es.
      * apply ends_with_sep_split in Es as [a' ->].
        rewrite append_assoc3. now apply after_last_append.
      * now apply after_last_append.
Qed.

End PathFacts.

Module FilenameFacts.
Import PyStr Chars PyStrFacts NamingFacts PathFacts.

Lemma digit_valid (c : ascii) : is_digit c = true -> is_valid c = true.
Proof.
  destruct c as [[] [] [] [] [] [] [] []]; intros H; try discriminate H; reflexivity.
Qed.

Lemma digit_not_underscore (c : ascii) : is_digit c = true -> Ascii.eqb c "_" = false.
Proof.
  destruct c as [[] [] [] [] [] [] [] []]; intros H; try discriminate H; reflexivity.
Qed.

(** Every name has the form [prefix_NNN.docx] with a cleaned prefix. *)
Lemma filename_shape (replacement_data : record) (idx : nat) :
  exists prefix,
    Job.filename replacement_data idx
      = prefix +:+ String "_" (pad3 (idx + 1) +:+ ".docx")
    /\ all_chars is_valid prefix = true.
Proof.
  unfold Job.filename.
  set (lname := PyDict.get_or replacement_data "resp_lname" (Str "")).
  set (brgy := PyDict.get_or replacement_data "pckg_brgy" (Str "")).
  destruct (bool_of brgy && truthy (strip (str_of brgy))
            && bool_of lname && truthy (strip (str_of lname))).
  - exists (take 15 (Job.clean (strip (str_of brgy))) +:+ "_"
              +:+ take 15 (Job.clean (strip (str_of lname)))).
    split; [now rewrite !append_assoc3 |].
    rewrite !all_chars_app, !all_chars_take by apply clean_valid. reflexivity.
  - destruct (bool_of lname && truthy (strip (str_of lname))).
    + exists (take 20 (Job.clean (strip (str_of lname)))). split; [reflexivity |].
      apply all_chars_take, clean_valid.
    + exists "document". split; reflexivity.
Qed.

Lemma tail_no_underscore (n : nat) : mem_char "_" (pad3 n +:+ ".docx") = false.
Proof.
  apply all_chars_mem with (p := fun c => negb (Ascii.eqb c "_")); [| reflexivity].
  rewrite all_chars_app. apply andb_true_iff. split; [| reflexivity].
  apply all_chars_weaken with (p := is_digit); [| apply pad3_digits].
  intros c Hc. now rewrite (digit_not_underscore _ Hc).
Qed.

Lemma filename_valid (replacement_data : record) (idx : nat) :
  all_chars is_valid (Job.filename replacement_data idx) = true.
Proof.
  destruct (filename_shape replacement_data idx) as (prefix & -> & Hp).
  rewrite all_chars_app, Hp. cbn [all_chars andb].
  change (is_valid "_") with true. cbn [andb].
  rewrite all_chars_app. apply andb_true_iff. split; [| reflexivity].
  apply all_chars_weaken with (p := is_digit); [exact digit_valid | apply pad3_digits].
Qed.

Lemma filename_index (replacement_data : record) (idx : nat) :
  after_last "_" (Job.filename replacement_data idx) = pad3 (idx + 1) +:+ ".docx".
Proof.
  destruct (filename_shape replacement_data idx) as (prefix & -> & _).
  apply after_last_append, tail_no_underscore.
Qed.

Lemma take_append (a t : string) : take (String.length a) (a +:+ t) = a.
Proof.
  induction a as [|x a IH]; [now destruct t |].
  rewrite append_cons. simpl. now rewrite IH.
Qed.

Lemma filename_inj (d d' : record) (i j : nat) :
  Job.filename d i = Job.filename d' j -> i = j.
Proof.
  intros H. apply (f_equal (after_last "_")) in H.
  rewrite !filename_index in H. apply append_cancel_r, pad3_inj in H. lia.
Qed.

End FilenameFacts.

(** X3.  The file name of a document holds none of the nine characters
    that [clean] replaces (angle brackets, colon, double quote, slash,
    backslash, bar, question mark, star), whatever the values of the row:
    the document is written directly into the temporary folder, and the
    name it gets in the archive is that file name. *)
Theorem filename_is_clean :
  forall (replacement_data : record) (idx : nat) (temp_dir : string),
    Chars.all_chars Chars.is_valid (Job.filename replacement_data idx) = true
    /\ OsPath.basename (OsPath.join temp_dir (Job.filename replacement_data idx))
       = Job.filename replacement_data idx.
Proof.
  intros replacement_data idx temp_dir.
  pose proof (FilenameFacts.filename_valid replacement_data idx) as Hv.
  split; [exact Hv |]. apply PathFacts.basename_join.
  now apply NamingFacts.all_chars_mem with (p := Chars.is_valid).
Qed.

(** X4.  Every file name ends, after its last underscore, in the row's
    position plus one, zero-padded to three digits, and [.docx]; so two rows
    at different positions of a batch never get the same file name, whatever
    their values. *)
Theorem filenames_differ :
  forall (d d' : record) (i j : nat),
    Chars.after_last "_" (Job.filename d i) = PyStr.pad3 (i + 1) +:+ ".docx"
    /\ Chars.read_number (PyStr.pad3 (i + 1)) = Some (i + 1)
    /\ (i <> j -> Job.filename d i <> Job.filename d' j).
Proof.
  intros d d' i j. split; [apply FilenameFacts.filename_index |].
  split; [apply NamingFacts.read_pad3 |].
  intros Hij H. now apply FilenameFacts.filename_inj in H.
Qed.

(** Two rows with the same names, at positions 0 and 1. *)
Lemma filenames_differ_witness :
  Job.filename [("resp_lname", Str "Cruz"); ("pckg_brgy", Str "San Jose")] 0
    <> Job.filename [("resp_lname", Str "Cruz"); ("pckg_brgy", Str "San Jose")] 1.
Proof.
  apply (proj2 (proj2 (filenames_differ
                         [("resp_lname", Str "Cruz"); ("pckg_brgy", Str "San Jose")]
                         [("resp_lname", Str "Cruz"); ("pckg_brgy", Str "San Jose")] 0 1))).
  lia.
Defined.

(** ** The batch, event by event *)

Module BatchFacts.
Import PyStr Job Trace.

Section WithEnvironment.
Variable path_exists : string -> bool.
Variable picture_loads : string -> bool.
Variable float_sum_text : list value -> string.
Variable load_template : outcome Docx.document.
Variable save : string -> Docx.document -> outcome unit.
Variable self : tab.

Let render := render path_exists picture_loads float_sum_text load_template save self.
Let result_file :=
  result_file path_exists picture_loads float_sum_text load_template save self.
Let error_line :=
  error_line path_exists picture_loads float_sum_text load_template save self.
Let job_events :=
  job_events path_exists picture_loads float_sum_text load_template save self.
(** What one job saves is what it hands to the collecting loop. *)
Lemma job_saves_result (a : args) :
  saved_paths (job_events a) = result_file a.
Proof.
  unfold job_events, Job.job_events, result_file, Job.result_file,
    Job.process_single_document.
  now destruct (Job.render _ _ _ _ _ _ a) as [[p d]|e].
Qed.

Lemma job_never_unlinks (a : args) :
  unlinked_paths (job_events a) = [] /\ archives (job_events a) = []
  /\ List.filter is_printed (job_events a) = [].
Proof.
  unfold job_events, Job.job_events.
  now destruct (Job.render _ _ _ _ _ _ a) as [[p d]|e].
Qed.

Lemma error_line_only_prints (a : args) :
  saved_paths (error_line a) = [] /\ unlinked_paths (error_line a) = []
  /\ archives (error_line a) = []
  /\ List.filter is_printed (error_line a) = error_line a.
Proof.
  unfold error_line, Job.error_line.
  now destruct (Job.process_single_document _ _ _ _ _ _ a) as [[p|] err].
Qed.

Lemma flat_map_flat_map {A B C : Type} (f : A -> list B) (g : B -> list C)
    (l : list A) :
  flat_map g (flat_map f l) = flat_map (fun a => flat_map g (f a)) l.
Proof.
  induction l as [|a l IH]; simpl; [reflexivity |].
  now rewrite flat_map_app, IH.
Qed.

Lemma flat_map_nil {A B : Type} (f : A -> list B) (l : list A) :
  (forall a, f a = []) -> flat_map f l = [].
Proof.
  intros H. induction l as [|a l IH]; simpl; [reflexivity | now rewrite H, IH].
Qed.

Lemma filter_flat_map {A B : Type} (p : B -> bool) (f : A -> list B) (l : list A) :
  List.filter p (flat_map f l) = flat_map (fun a => List.filter p (f a)) l.
Proof.
  induction l as [|a l IH]; simpl; [reflexivity |].
  now rewrite List.filter_app, IH.
Qed.

Lemma saved_of_unlinks (l : list string) :
  saved_paths (map Unlink l) = [] /\ unlinked_paths (map Unlink l) = l
  /\ archives (map Unlink l) = [] /\ List.filter is_printed (map Unlink l) = [].
Proof.
  induction l as [|p l (IH1 & IH2 & IH3 & IH4)]; [now repeat split |].
  repeat split; simpl.
  - exact IH1.
  - change (p :: unlinked_paths (map Unlink l) = p :: l). now rewrite IH2.
  - exact IH3.
  - exact IH4.
Qed.

Lemma saved_paths_app (l l' : list event) :
  saved_paths (l ++ l') = saved_paths l ++ saved_paths l'.
Proof. apply flat_map_app. Qed.

Lemma unlinked_paths_app (l l' : list event) :
  unlinked_paths (l ++ l') = unlinked_paths l ++ unlinked_paths l'.
Proof. apply flat_map_app. Qed.

Lemma archives_app (l l' : list event) :
  archives (l ++ l') = archives l ++ archives l'.
Proof. apply flat_map_app. Qed.

Lemma saved_paths_jobs (l : list args) :
  saved_paths (flat_map job_events l) = flat_map result_file l.
Proof.
  unfold saved_paths. rewrite flat_map_flat_map.
  apply flat_map_ext. exact job_saves_result.
Qed.

Lemma jobs_never_unlink (l : list args) :
  unlinked_paths (flat_map job_events l) = []
  /\ archives (flat_map job_events l) = []
  /\ List.filter is_printed (flat_map job_events l) = [].
Proof.
  unfold unlinked_paths, archives.
  rewrite !flat_map_flat_map, filter_flat_map.
  repeat split; apply flat_map_nil; intros a; apply job_never_unlinks.
Qed.

Lemma error_lines_only_print (l : list args) :
  saved_paths (flat_map error_line l) = []
  /\ unlinked_paths (flat_map error_line l) = []
  /\ archives (flat_map error_line l) = []
  /\ List.filter is_printed (flat_map error_line l) = flat_map error_line l.
Proof.
  unfold saved_paths, unlinked_paths, archives.
  rewrite !flat_map_flat_map, filter_flat_map.
  repeat split; try (apply flat_map_nil; intros a; apply error_line_only_prints).
  apply flat_map_ext. intros a. apply error_line_only_prints.
Qed.

(** A document is always saved under its file name in the job's folder. *)
Lemma render_path (a : args) (output_path : string) (new_doc : Docx.document) :
  render a = Returned (output_path, new_doc) ->
  exists replacement_data,
    output_path = OsPath.join (temp_dir a) (filename replacement_data (idx a)).
Proof.
  intros H. apply RenderedFacts.render_returned in H as (doc & rd & _ & ->).
  now exists rd.
Qed.

Lemma result_file_shape (a : args) :
  result_file a = []
  \/ exists replacement_data,
       result_file a
       = [OsPath.join (temp_dir a) (filename replacement_data (idx a))].
Proof.
  unfold result_file, Job.result_file, Job.process_single_document.
  destruct (Job.render _ _ _ _ _ _ a) as [[p d]|e] eqn:E; [| now left].
  right. apply render_path in E as [rd ->]. now exists rd.
Qed.

Lemma result_or_error (a : args) :
  List.length (result_file a) + List.length (error_line a) = 1.
Proof.
  unfold result_file, error_line, Job.result_file, Job.error_line.
  now destruct (Job.process_single_document _ _ _ _ _ _ a) as [[p|] err].
Qed.

Lemma basename_filename (t : string) (replacement_data : record) (i : nat) :
  OsPath.basename (OsPath.join t (filename replacement_data i))
  = filename replacement_data i.
Proof.
  apply PathFacts.basename_join.
  apply NamingFacts.all_chars_mem with (p := Chars.is_valid);
    [apply FilenameFacts.filename_valid | reflexivity].
Qed.

(** The names under which the files of a list of jobs are archived carry
    the positions of jobs of the list. *)
Lemma archived_name_index (l : list args) (name : string) :
  In name (map OsPath.basename (flat_map result_file l)) ->
  exists a replacement_data,
    In a l /\ name = filename replacement_data (idx a).
Proof.
  induction l as [|a l IH]; simpl; [intros [] |].
  rewrite map_app, in_app_iff. intros [H|H].
  - destruct (result_file_shape a) as [E|[rd E]]; rewrite E in H; [destruct H |].
    destruct H as [<-|[]]. exists a, rd. split; [now left |].
    apply basename_filename.
  - destruct (IH H) as (a' & rd & Ha & ->). exists a', rd. split; [now right | reflexivity].
Qed.

Lemma archived_names_nodup (l : list args) :
  List.NoDup (map idx l) -> List.NoDup (map OsPath.basename (flat_map result_file l)).
Proof.
  induction l as [|a l IH]; simpl; [constructor |].
  intros H. apply List.NoDup_cons_iff in H as [Ha Hl]. rewrite map_app.
  destruct (result_file_shape a) as [E|[rd E]]; rewrite E; simpl; [now apply IH |].
  constructor; [| now apply IH].
  rewrite basename_filename. intros Hin.
  apply archived_name_index in Hin as (a' & rd' & Ha' & Hn).
  apply FilenameFacts.filename_inj in Hn. apply Ha. rewrite Hn.
  now apply in_map.
Qed.

Lemma archived_in_folder (t : string) (l : list args) :
  Forall (fun a => temp_dir a = t) l ->
  Forall (fun file_path =>
            file_path = OsPath.join t (OsPath.basename file_path)
            /\ Chars.all_chars Chars.is_valid (OsPath.basename file_path) = true)
    (flat_map result_file l).
Proof.
  induction 1 as [|a l Ha Hl IH]; simpl; [constructor |].
  apply Forall_app. split; [| exact IH].
  destruct (result_file_shape a) as [E|[rd E]]; rewrite E; constructor; [| constructor].
  rewrite Ha, basename_filename. split; [reflexivity |].
  apply FilenameFacts.filename_valid.
Qed.

Lemma length_flat_map_pair {A B C : Type} (f : A -> list B) (g : A -> list C)
    (l : list A) :
  (forall a, List.length (f a) + List.length (g a) = 1) ->
  List.length (flat_map f l) + List.length (flat_map g l) = List.length l.
Proof.
  intros H. induction l as [|a l IH]; simpl; [reflexivity |].
  rewrite !length_app. specialize (H a). lia.
Qed.

Section Completion.
Variable as_completed : list args -> list args.

Let run_batch :=
  run_batch path_exists picture_loads float_sum_text load_template save self
    as_completed.

(** The trace of a batch, written out. *)
Lemma run_batch_trace (destination_path : string) (data_rows : list Frame.series)
    (column_mapping : PyDict.t nat) (key_column : nat) :
  let temp_dir := OsPath.join destination_path "temp_documents" in
  let completed :=
    as_completed (process_args data_rows column_mapping key_column temp_dir) in
  let generated_files := flat_map result_file completed in
  run_batch destination_path data_rows column_mapping key_column
  = [Mkdir temp_dir]
      ++ flat_map job_events completed
      ++ flat_map error_line completed
      ++ [ZipWrite (OsPath.join destination_path "Generated_Documents.zip")
            (map (fun file_path => (file_path, OsPath.basename file_path))
               generated_files)]
      ++ map Unlink generated_files
      ++ [Rmdir temp_dir;
          ShowInfo "Success"
            (success_message (List.length data_rows)
               (OsPath.join destination_path "Generated_Documents.zip"))].
Proof.
  cbv zeta. unfold run_batch, Job.run_batch. cbv zeta.
  rewrite (JobFacts.collect_all path_exists picture_loads float_sum_text
             load_template save self). reflexivity.
Qed.

(** The files saved, archived and removed by a batch are the same, in the
    same order. *)
Lemma batch_files (destination_path : string) (data_rows : list Frame.series)
    (column_mapping : PyDict.t nat) (key_column : nat) :
  let temp_dir := OsPath.join destination_path "temp_documents" in
  let completed :=
    as_completed (process_args data_rows column_mapping key_column temp_dir) in
  let trace := run_batch destination_path data_rows column_mapping key_column in
  saved_paths trace = flat_map result_file completed
  /\ unlinked_paths trace = flat_map result_file completed
  /\ archives trace
     = [map (fun file_path => (file_path, OsPath.basename file_path))
          (flat_map result_file completed)]
  /\ List.filter is_printed trace = flat_map error_line completed.
Proof.
  cbv zeta. rewrite run_batch_trace. cbv zeta.
  set (completed := as_completed _).
  destruct (saved_of_unlinks (flat_map result_file completed)) as (U1 & U2 & U3 & U4).
  destruct (jobs_never_unlink completed) as (J2 & J3 & J4).
  destruct (error_lines_only_print completed) as (E1 & E2 & E3 & E4).
  rewrite !saved_paths_app, !unlinked_paths_app, !archives_app, !List.filter_app.
  rewrite U1, U2, U3, U4, J2, J3, J4, E1, E2, E3, E4, saved_paths_jobs.
  simpl. rewrite !app_nil_r. repeat split.
Qed.

End Completion.

End WithEnvironment.

Lemma enumerate_from {A : Type} (k : nat) (l : list A) :
  map (fun ir : nat * A => fst ir - 1) (combine (seq (S k) (List.length l)) l)
  = seq k (List.length l).
Proof.
  revert k. induction l as [|x l IH]; intros k; simpl; [reflexivity |].
  now rewrite Nat.sub_0_r, IH.
Qed.

(** The jobs of a batch are numbered from 0 and share the folder. *)
Lemma process_args_idx (data_rows : list Frame.series)
    (column_mapping : PyDict.t nat) (key_column : nat) (temp_dir : string) :
  map idx (process_args data_rows column_mapping key_column temp_dir)
  = seq 0 (List.length data_rows).
Proof.
  unfold process_args, enumerate1. rewrite map_map. cbn [idx].
  apply enumerate_from.
Qed.

Lemma process_args_temp_dir (data_rows : list Frame.series)
    (column_mapping : PyDict.t nat) (key_column : nat) (t : string) :
  Forall (fun a => temp_dir a = t)
    (process_args data_rows column_mapping key_column t).
Proof.
  unfold process_args. apply List.Forall_forall. intros a Ha.
  apply in_map_iff in Ha as (ir & <- & _). reflexivity.
Qed.

Lemma length_process_args (data_rows : list Frame.series)
    (column_mapping : PyDict.t nat) (key_column : nat) (t : string) :
  List.length (process_args data_rows column_mapping key_column t)
  = List.length data_rows.
Proof.
  unfold process_args. rewrite length_map. apply PopulateFacts.length_enumerate1.
Qed.

End BatchFacts.

(** X5.  Whatever the order in which the jobs of a batch complete, the one
    archive written by the batch lists the files that were saved, each under
    its own file name inside the temporary folder, a name free of the
    characters [clean] replaces, and no two entries of the archive have the
    same name: no document overwrites another one in the archive. *)
Theorem archive_entries_are_distinct :
  forall (path_exists picture_loads : string -> bool)
         (float_sum_text : list value -> string)
         (load_template : outcome Docx.document)
         (save : string -> Docx.document -> outcome unit) (self : tab)
         (as_completed : list Job.args -> list Job.args)
         (destination_path : string) (data_rows : list Frame.series)
         (column_mapping : PyDict.t nat) (key_column : nat),
    (forall l, Permutation (as_completed l) l) ->
    let temp_dir := OsPath.join destination_path "temp_documents" in
    let trace :=
      Job.run_batch path_exists picture_loads float_sum_text load_template save
        self as_completed destination_path data_rows column_mapping key_column in
    exists entries,
      Trace.archives trace = [entries]
      /\ map fst entries = Trace.saved_paths trace
      /\ List.NoDup (map snd entries)
      /\ Forall (fun entry =>
                   fst entry = OsPath.join temp_dir (snd entry)
                   /\ Chars.all_chars Chars.is_valid (snd entry) = true)
           entries.
Proof.
  intros path_exists picture_loads float_sum_text load_template save self
    as_completed destination_path data_rows column_mapping key_column Hperm
    temp_dir trace.
  destruct (BatchFacts.batch_files path_exists picture_loads float_sum_text
              load_template save self as_completed destination_path data_rows
              column_mapping key_column) as (Hs & _ & Ha & _).
  fold temp_dir in Hs, Ha. fold trace in Hs, Ha.
  set (jobs := Job.process_args data_rows column_mapping key_column temp_dir) in *.
  eexists. split; [exact Ha |]. rewrite Hs, !map_map. cbn [fst snd].
  split; [apply map_id |]. split.
  - apply BatchFacts.archived_names_nodup.
    eapply Permutation.Permutation_NoDup;
      [symmetry; apply Permutation_map, Hperm |].
    unfold jobs. rewrite BatchFacts.process_args_idx. apply List.seq_NoDup.
  - apply List.Forall_map. cbn [fst snd].
    apply BatchFacts.archived_in_folder.
    apply List.Forall_forall. intros a Ha'.
    apply (Permutation_in _ (Hperm jobs)) in Ha'.
    pose proof (BatchFacts.process_args_temp_dir data_rows column_mapping
                  key_column temp_dir) as Hall.
    rewrite List.Forall_forall in Hall. now apply Hall.
Qed.

(** Two rows completing in reverse order, both saved. *)
Lemma archive_entries_witness :
  let trace :=
    Job.run_batch (fun _ => false) (fun _ => false) (fun _ => "0")
      (Returned Sample.letter) (fun _ _ => Returned tt) Sample.fresh_tab
      (@rev Job.args) "/out" (Frame.data_rows Sample.people)
      [("name", 0); ("age", 1)] 0 in
  exists entries,
    Trace.archives trace = [entries]
    /\ map fst entries = Trace.saved_paths trace
    /\ List.NoDup (map snd entries)
    /\ Forall (fun entry =>
                 fst entry = OsPath.join (OsPath.join "/out" "temp_documents") (snd entry)
                 /\ Chars.all_chars Chars.is_valid (snd entry) = true)
         entries.
Proof.
  apply (archive_entries_are_distinct (fun _ => false) (fun _ => false)
           (fun _ => "0") (Returned Sample.letter) (fun _ _ => Returned tt)
           Sample.fresh_tab (@rev Job.args) "/out" (Frame.data_rows Sample.people)
           [("name", 0); ("age", 1)] 0).
  intros l. symmetry. apply Permutation_rev.
Defined.

(** X6.  Whatever the order in which the jobs of a batch complete, every
    data row is accounted for exactly once: the number of documents saved
    plus the number of lines printed for failed rows is the number of data
    rows. *)
Theorem batch_accounts_for_every_row :
  forall (path_exists picture_loads : string -> bool)
         (float_sum_text : list value -> string)
         (load_template : outcome Docx.document)
         (save : string -> Docx.document -> outcome unit) (self : tab)
         (as_completed : list Job.args -> list Job.args)
         (destination_path : string) (data_rows : list Frame.series)
         (column_mapping : PyDict.t nat) (key_column : nat),
    (forall l, Permutation (as_completed l) l) ->
    let trace :=
      Job.run_batch path_exists picture_loads float_sum_text load_template save
        self as_completed destination_path data_rows column_mapping key_column in
    List.length (Trace.saved_paths trace)
      + List.length (List.filter Trace.is_printed trace)
    = List.length data_rows.
Proof.
  intros path_exists picture_loads float_sum_text load_template save self
    as_completed destination_path data_rows column_mapping key_column Hperm trace.
  destruct (BatchFacts.batch_files path_exists picture_loads float_sum_text
              load_template save self as_completed destination_path data_rows
              column_mapping key_column) as (Hs & _ & _ & Hp).
  fold trace in Hs, Hp. rewrite Hs, Hp.
  rewrite BatchFacts.length_flat_map_pair by apply BatchFacts.result_or_error.
  rewrite (Permutation_length (Hperm _)).
  apply BatchFacts.length_process_args.
Qed.

(** Two rows completing in reverse order, the second of which cannot be
    saved: one document and one printed line. *)
Lemma batch_accounts_witness :
  let trace :=
    Job.run_batch (fun _ => false) (fun _ => false) (fun _ => "0")
      (Returned Sample.letter) Sample.second_fails Sample.fresh_tab
      (@rev Job.args) "/out" (Frame.data_rows Sample.people)
      [("name", 0); ("age", 1)] 0 in
  List.length (Trace.saved_paths trace)
    + List.length (List.filter Trace.is_printed trace)
  = 2.
Proof.
  apply (batch_accounts_for_every_row (fun _ => false) (fun _ => false)
           (fun _ => "0") (Returned Sample.letter) Sample.second_fails
           Sample.fresh_tab (@rev Job.args) "/out" (Frame.data_rows Sample.people)
           [("name", 0); ("age", 1)] 0).
  intros l. symmetry. apply Permutation_rev.
Defined.

(** ** Rows added to a table *)

Module RowFacts.
Import PyStr Docx Render Populate.

(** Assignments to the cells [k], [k+1], ... of a row, each under the
    guard that the row has that cell. *)
Lemma assign_from (l : list (nat * cell)) (k : nat) (cells : list cell) :
  map fst l = seq k (List.length l) ->
  fold_left (fun cells a => <[fst a := snd a]> cells) l cells
  = firstn k cells
      ++ firstn (List.length cells - k) (map snd l)
      ++ skipn (k + List.length l) cells.
Proof.
  revert k cells. induction l as [|[i v] l IH]; intros k cells Hl.
  - simpl. rewrite firstn_nil, Nat.add_0_r. simpl. symmetry. apply firstn_skipn.
  - simpl in Hl. injection Hl as -> Hl. cbn [fold_left fst snd].
    rewrite (IH (S k)) by exact Hl. rewrite length_insert.
    destruct (Nat.lt_ge_cases k (List.length cells)) as [Hlt|Hge].
    + assert (Hsplit : exists pre x post,
                cells = pre ++ x :: post /\ List.length pre = k).
      { exists (firstn k cells).
        destruct (skipn k cells) as [|x post] eqn:Epost.
        - apply (f_equal (@List.length _)) in Epost.
          rewrite length_skipn in Epost. simpl in Epost. lia.
        - exists x, post. split; [| rewrite length_firstn; lia].
          now rewrite <- Epost, firstn_skipn. }
      destruct Hsplit as (pre & x & post & -> & <-).
      replace (<[List.length pre:=v]> (pre ++ x :: post)) with (pre ++ v :: post).
      2:{ symmetry. rewrite insert_app_r_alt by lia. now rewrite Nat.sub_diag. }
      assert (E1 : firstn (List.length pre) (pre ++ x :: post) = pre).
      { rewrite firstn_app, firstn_all, Nat.sub_diag. simpl. apply app_nil_r. }
      assert (E2 : firstn (S (List.length pre)) (pre ++ v :: post) = pre ++ [v]).
      { rewrite firstn_app, firstn_all2 by lia.
        replace (S (List.length pre) - List.length pre) with 1 by lia.
        reflexivity. }
      assert (E3 : forall y n,
                 skipn (List.length pre + S n) (pre ++ y :: post) = skipn n post).
      { intros y n. rewrite skipn_app, skipn_all2 by lia.
        replace (List.length pre + S n - List.length pre) with (S n) by lia.
        reflexivity. }
      rewrite E1, E2. cbn [List.length map snd].
      replace (S (List.length pre) + List.length l)
        with (List.length pre + S (List.length l)) by lia.
      rewrite !E3, !length_app. cbn [List.length map snd].
      replace (List.length pre + S (List.length post) - List.length pre)
        with (S (List.length pre + S (List.length post) - S (List.length pre)))
        by lia.
      cbn [firstn]. rewrite <- !app_assoc. reflexivity.
    + rewrite list_insert_ge by lia.
      rewrite (firstn_all2 (n := S k)), (firstn_all2 (n := k)) by lia.
      replace (List.length cells - S k) with 0 by lia.
      replace (List.length cells - k) with 0 by lia.
      rewrite !skipn_all2 by (simpl; lia). reflexivity.
Qed.

Lemma skipn_repeat_cells {A : Type} (x : A) (n g : nat) :
  skipn n (repeat x g) = repeat x (g - n).
Proof.
  revert g. induction n as [|n IH]; intros g; [now rewrite Nat.sub_0_r |].
  destruct g as [|g]; [reflexivity | apply IH].
Qed.

(** A filled row is the assigned cells, cut at the width of the grid or
    followed by the cells left empty. *)
Lemma fill_row_cells (g : nat) (l : list (nat * cell)) :
  map fst l = seq 0 (List.length l) ->
  fill_row g l
  = firstn g (map snd l) ++ repeat new_cell (g - List.length l).
Proof.
  intros Hl. unfold fill_row. rewrite (assign_from l 0) by exact Hl.
  rewrite repeat_length, Nat.sub_0_r. simpl. f_equal.
  apply skipn_repeat_cells.
Qed.

Lemma length_fill_row (g : nat) (l : list (nat * cell)) :
  List.length (fill_row g l) = g.
Proof.
  unfold fill_row. generalize (repeat_length new_cell g).
  generalize (repeat new_cell g) as cells. induction l as [|a l IH]; intros cells H.
  - exact H.
  - simpl. apply IH. now rewrite length_insert.
Qed.

(** The assignments kept by the guards are those of the first cells of the
    row. *)
Lemma evaluate_indices (g k : nat) (l : list (nat * outcome cell))
    (cells : list (nat * cell)) :
  map fst l = seq k (List.length l) ->
  evaluate g l = Returned cells ->
  map fst cells = seq k (List.length cells)
  /\ List.length cells = Nat.min (g - k) (List.length l).
Proof.
  revert k cells. induction l as [|[i text] l IH]; intros k cells Hl.
  - simpl. intros [= <-]. split; [reflexivity |]. simpl. lia.
  - simpl in Hl. injection Hl as -> Hl. cbn [evaluate].
    destruct (Nat.ltb_spec k g) as [Hk|Hk].
    + destruct text as [c|e]; [| discriminate]. cbn [mbind outcome_bind].
      destruct (evaluate g l) as [cells'|e] eqn:E; [| discriminate].
      cbn [mbind outcome_bind]. intros [= <-].
      destruct (IH (S k) cells' Hl eq_refl) as [Hi Hn]. simpl.
      rewrite Hi, Hn. split; [reflexivity | lia].
    + intros E. destruct (IH (S k) cells Hl E) as [Hi Hn].
      assert (Hz : List.length cells = 0) by lia.
      destruct cells; [| discriminate Hz]. split; [reflexivity |]. simpl. lia.
Qed.

Lemma each_related {A B : Type} (f : A -> outcome B) (l : list A) (ys : list B) :
  each f l = Returned ys -> Forall2 (fun x y => f x = Returned y) l ys.
Proof.
  revert ys. induction l as [|x l IH]; intros ys; simpl.
  - intros [= <-]. constructor.
  - destruct (f x) as [y|e] eqn:E; [| discriminate]. cbn [mbind outcome_bind].
    destruct (each f l) as [ys'|e]; [| discriminate]. cbn [mbind outcome_bind].
    intros [= <-]. constructor; [exact E | now apply IH].
Qed.

Section WithEnvironment.
Variable path_exists : string -> bool.
Variable picture_loads : string -> bool.
Variable self : tab.

(** Every populate function assigns the cells 0, 1, 2, ... in order. *)
Lemma new_row_indices (c : table_category) (idx : nat) (row_data : record) :
  map fst (new_row path_exists picture_loads self c idx row_data)
  = seq 0 (List.length (new_row path_exists picture_loads self c idx row_data)).
Proof. destruct c; reflexivity. Qed.

(** The row that a record adds. *)
Lemma add_record_row (c : table_category) (g : nat) (ir : nat * record)
    (r : list cell) :
  add_record path_exists picture_loads self c g ir = Returned r ->
  exists cells,
    evaluate g (new_row path_exists picture_loads self c (fst ir) (snd ir))
    = Returned cells
    /\ r = map snd cells ++ repeat new_cell (g - List.length cells)
    /\ List.length cells
       = Nat.min g
           (List.length (new_row path_exists picture_loads self c (fst ir) (snd ir)))
    /\ List.length r = g.
Proof.
  unfold add_record.
  destruct (evaluate g _) as [cells|e] eqn:E; [| discriminate].
  cbn [mbind outcome_bind]. intros [= <-]. exists cells.
  destruct (evaluate_indices g 0 _ cells (new_row_indices c (fst ir) (snd ir)) E)
    as [Hi Hn].
  rewrite Nat.sub_0_r in Hn. split; [reflexivity |]. split; [| split].
  - rewrite (fill_row_cells g cells Hi). f_equal.
    apply firstn_all2. rewrite length_map. lia.
  - exact Hn.
  - apply length_fill_row.
Qed.

Lemma added_rows_grid (c : table_category) (t t' : table) (l : list record) :
  grid t' = grid t ->
  added_rows path_exists picture_loads self c t' l
  = added_rows path_exists picture_loads self c t l.
Proof. intros H. unfold added_rows. now rewrite H. Qed.

Lemma populate_table_again (c : table_category) (t populated : table)
    (first second : list record) :
  header_rows c <= List.length (rows t) ->
  populate_table path_exists picture_loads self c t first = Returned populated ->
  populate_table path_exists picture_loads self c populated second
  = populate_table path_exists picture_loads self c t second.
Proof.
  intros Hh H. rewrite PopulateFacts.populate_table_added in H.
  destruct (added_rows _ _ _ c t first) as [added|e]; [| discriminate].
  cbn [mbind outcome_bind] in H. injection H as <-.
  rewrite !PopulateFacts.populate_table_added.
  rewrite (added_rows_grid c t (Table (grid t) _) second) by reflexivity.
  cbn [grid rows].
  rewrite firstn_app, firstn_firstn, Nat.min_id, length_firstn.
  replace (header_rows c - Nat.min (header_rows c) (List.length (rows t))) with 0 by lia.
  rewrite firstn_0, app_nil_r. reflexivity.
Qed.

End WithEnvironment.

End RowFacts.

(** X7.  Whenever the population of a table returns, every row it has added
    has exactly as many cells as the grid of the table has columns: the
    cells assigned under their guards, which are the first cells of the row
    in order, followed by empty cells in the columns that the populate
    function does not assign.  The rows added to the information-needs
    table have the width of the grid as well. *)
Theorem added_rows_fit_the_grid :
  forall (path_exists picture_loads : string -> bool) (self : tab)
         (c : Populate.table_category) (t : Docx.table)
         (additional_rows : list record) (added : list (list Docx.cell)),
    Populate.added_rows path_exists picture_loads self c t additional_rows
    = Returned added ->
    Forall (fun r => List.length r = Docx.grid t) added
    /\ Forall2
         (fun (ir : nat * record) (r : list Docx.cell) =>
            exists cells,
              Populate.evaluate (Docx.grid t)
                (Populate.new_row path_exists picture_loads self c (fst ir) (snd ir))
              = Returned cells
              /\ r = map snd cells
                       ++ repeat Docx.new_cell (Docx.grid t - List.length cells)
              /\ List.length cells
                 = Nat.min (Docx.grid t)
                     (List.length
                        (Populate.new_row path_exists picture_loads self c
                           (fst ir) (snd ir))))
         (PyStr.enumerate1 additional_rows) added
    /\ forall (data_row : record) (i : nat) (item : string),
         List.length (Render.bus_info_needs_row data_row (Docx.grid t) i item)
         = Docx.grid t.
Proof.
  intros path_exists picture_loads self c t additional_rows added H.
  apply RowFacts.each_related in H.
  split; [| split].
  - induction H as [|ir r l rs Hr _ IH]; constructor; [| exact IH].
    now apply RowFacts.add_record_row in Hr as (cells & _ & _ & _ & Hlen).
  - induction H as [|ir r l rs Hr _ IH]; constructor; [| exact IH].
    apply RowFacts.add_record_row in Hr as (cells & He & Hrow & Hn & _).
    exists cells. now repeat split.
  - intros data_row i item. apply RowFacts.length_fill_row.
Qed.

(** The household roster, three columns wide, and its two members: of the
    ten assignments of a member row the first three are made. *)
Lemma added_rows_fit_witness :
  Forall (fun r => List.length r = Docx.grid Sample.roster)
    [ [Sample.text_cell "1"; Sample.text_cell "Ana"; Sample.text_cell "Head"];
      [Sample.text_cell "2"; Sample.text_cell "Ben"; Sample.text_cell "Son"] ].
Proof.
  refine (proj1 (added_rows_fit_the_grid (fun _ => false) (fun _ => false)
                   Sample.fresh_tab Populate.HHMember Sample.roster Sample.members
                   _ _)).
  vm_compute. reflexivity.
Defined.

(** X8.  Populating a table that has its header rows replaces whatever an
    earlier population that returned has added: the records of the first
    call leave no row behind, and the second call returns or raises what it
    does on the table as it was before the first. *)
Theorem population_overwrites_population :
  forall (path_exists picture_loads : string -> bool) (self : tab)
         (c : Populate.table_category) (t populated : Docx.table)
         (first second : list record),
    Populate.header_rows c <= List.length (Docx.rows t) ->
    Populate.populate_table path_exists picture_loads self c t first
    = Returned populated ->
    Populate.populate_table path_exists picture_loads self c populated second
    = Populate.populate_table path_exists picture_loads self c t second.
Proof.
  intros path_exists picture_loads self c t populated first second.
  apply RowFacts.populate_table_again.
Qed.

(** The household roster, populated with its members and then with none. *)
Lemma population_overwrites_witness :
  Populate.populate_table (fun _ => false) (fun _ => false) Sample.fresh_tab
    Populate.HHMember
    (Docx.Table 3
       (Sample.roster_header
          ++ [ [Sample.text_cell "1"; Sample.text_cell "Ana"; Sample.text_cell "Head"];
               [Sample.text_cell "2"; Sample.text_cell "Ben"; Sample.text_cell "Son"] ]))
    []
  = Populate.populate_table (fun _ => false) (fun _ => false) Sample.fresh_tab
      Populate.HHMember Sample.roster [].
Proof.
  apply (population_overwrites_population (fun _ => false) (fun _ => false)
           Sample.fresh_tab Populate.HHMember Sample.roster _ Sample.members []).
  - simpl. lia.
  - vm_compute. reflexivity.
Defined.

(** ** Marker cells and the column mapping *)

Module ColumnFacts.
Import PyStr Mapper Turn.

(** What the loop over row 4 returns. *)
Lemma marker_column_some (marker : string) (df : Frame.t) (c : nat) :
  Frame.marker_column marker df = Some c ->
  3 < List.length df
  /\ c < Frame.width df
  /\ Frame.is_marker marker (Frame.iloc df 3 c) = true
  /\ forall c', c' < c -> Frame.is_marker marker (Frame.iloc df 3 c') = false.
Proof.
  unfold Frame.marker_column, Frame.first_index.
  destruct (Nat.ltb_spec 3 (List.length df)) as [Hlen|]; [| discriminate].
  intros H. apply MapperFacts.first_index_from_some in H as (k & -> & Hk & Hp & Hmin).
  rewrite MapperFacts.length_iloc_row in Hk. simpl. repeat split.
  - assumption.
  - assumption.
  - now rewrite <- MapperFacts.nth_iloc_row.
  - intros c' Hc'. rewrite <- MapperFacts.nth_iloc_row by lia. now apply Hmin.
Qed.

Lemma marker_column_none (marker : string) (df : Frame.t) (c : nat) :
  Frame.marker_column marker df = None ->
  3 < List.length df -> c < Frame.width df ->
  Frame.is_marker marker (Frame.iloc df 3 c) = false.
Proof.
  unfold Frame.marker_column, Frame.first_index. intros H Hlen Hc.
  destruct (Nat.ltb_spec 3 (List.length df)) as [_|]; [| lia].
  rewrite <- MapperFacts.nth_iloc_row by assumption.
  apply (MapperFacts.first_index_from_none _ _ _ H).
  now rewrite MapperFacts.length_iloc_row.
Qed.

(** Assigning a key that the dictionary does not hold appends it. *)
Lemma set_fresh {V : Type} (d : PyDict.t V) (k : string) (v : V) :
  PyDict.get d k = None -> PyDict.set d k v = d ++ [(k, v)].
Proof.
  induction d as [|[k' v'] d IH]; simpl; [reflexivity |].
  destruct (String.eqb k k'); [discriminate |].
  intros H. now rewrite IH.
Qed.

Lemma get_app_fresh {V : Type} (d : PyDict.t V) (k k' : string) (v : V) :
  k <> k' -> PyDict.get d k = None -> PyDict.get (d ++ [(k', v)]) k = None.
Proof.
  intros Hne. induction d as [|[k0 v0] d IH]; simpl.
  - now destruct (String.eqb_spec k k').
  - destruct (String.eqb k k0); [discriminate | exact IH].
Qed.

Lemma fold_map_placeholder (df : Frame.t) (l : list string)
    (acc : PyDict.t nat * list string) :
  List.NoDup l ->
  (forall p, In p l -> PyDict.get (fst acc) p = None) ->
  fold_left (map_placeholder df) l acc
  = (fst acc ++ flat_map (binding df) l, snd acc ++ flat_map (complaint df) l).
Proof.
  revert acc. induction l as [|q l IH]; intros [m printed] Hnd Hfresh.
  - simpl. now rewrite !app_nil_r.
  - apply List.NoDup_cons_iff in Hnd as [Hq Hnd]. cbn [fold_left flat_map].
    unfold map_placeholder at 2, binding at 1, complaint at 1.
    destruct (scan df q) as [col|] eqn:E; cbn [fst snd].
    + rewrite IH; cbn [fst snd].
      * rewrite (set_fresh m q col) by (apply (Hfresh q); now left).
        now rewrite <- !app_assoc.
      * assumption.
      * intros p Hp. rewrite (set_fresh m q col) by (apply (Hfresh q); now left).
        apply get_app_fresh; [intros -> ; contradiction |].
        apply (Hfresh p). now right.
    + rewrite IH; cbn [fst snd].
      * now rewrite <- !app_assoc.
      * assumption.
      * intros p Hp. apply (Hfresh p). now right.
Qed.

Lemma keys_bindings (df : Frame.t) (l : list string) :
  PyDict.keys (flat_map (binding df) l)
  = List.filter (fun p => match scan df p with Some _ => true | None => false end) l.
Proof.
  induction l as [|q l IH]; [reflexivity |]. cbn [flat_map List.filter].
  unfold PyDict.keys in *. rewrite map_app, IH. unfold binding at 1.
  now destruct (scan df q).
Qed.

Lemma complaints_warnings (df : Frame.t) (l : list string) :
  flat_map (complaint df) l
  = map warning
      (List.filter (fun p => match scan df p with Some _ => false | None => true end) l).
Proof.
  induction l as [|q l IH]; [reflexivity |]. cbn [flat_map List.filter].
  rewrite IH. unfold complaint at 1. now destruct (scan df q).
Qed.

Lemma length_filter_split {A : Type} (f g : A -> bool) (l : list A) :
  (forall x, g x = negb (f x)) ->
  List.length (List.filter f l) + List.length (List.filter g l) = List.length l.
Proof.
  intros H. induction l as [|x l IH]; [reflexivity |]. simpl. rewrite (H x).
  destruct (f x); simpl; lia.
Qed.

Lemma get_bindings (df : Frame.t) (l : list string) (p : string) (c : nat) :
  PyDict.get (flat_map (binding df) l) p = Some c -> scan df p = Some c.
Proof.
  induction l as [|q l IH]; [discriminate |]. cbn [flat_map].
  unfold binding at 1. destruct (scan df q) as [col|] eqn:E; [| exact IH].
  simpl. destruct (String.eqb_spec p q) as [->|]; [| exact IH].
  intros [= <-]. exact E.
Qed.

End ColumnFacts.

(** X9.  The column of a marker such as KEY or PARENT_KEY is the leftmost
    cell of row 4 whose text, trimmed and upper-cased, is the marker: the
    frame has a row 4, the column is one of the frame, and no cell to its
    left matches.  No column is returned only when the frame has no row 4 or
    no cell of that row matches. *)
Theorem marker_column_is_leftmost :
  forall (marker : string) (df : Frame.t),
    match Frame.marker_column marker df with
    | Some c =>
        3 < List.length df
        /\ c < Frame.width df
        /\ Frame.is_marker marker (Frame.iloc df 3 c) = true
        /\ forall c', c' < c -> Frame.is_marker marker (Frame.iloc df 3 c') = false
    | None =>
        List.length df <= 3
        \/ forall c, c < Frame.width df ->
             Frame.is_marker marker (Frame.iloc df 3 c) = false
    end.
Proof.
  intros marker df. destruct (Frame.marker_column marker df) as [c|] eqn:E.
  - now apply ColumnFacts.marker_column_some.
  - destruct (Nat.le_gt_cases (List.length df) 3) as [Hle|Hgt]; [now left | right].
    intros c Hc. now apply ColumnFacts.marker_column_none.
Qed.

(** X10.  A call of [find_column_mapping] that finds no cached mapping, on
    placeholders that are pairwise distinct, treats every placeholder exactly
    once: the keys of the mapping are the placeholders found in rows 1-4, in
    the order of the list, the warnings are those of the other placeholders,
    in the order of the list, and every column bound is a column of the
    frame. *)
Theorem mapping_accounts_for_every_placeholder :
  forall (self : tab) (df : Frame.t) (placeholders : list string),
    Mapper.cached self = None ->
    List.NoDup placeholders ->
    let mapping := snd (fst (Mapper.find_column_mapping self df placeholders)) in
    let printed := snd (Mapper.find_column_mapping self df placeholders) in
    PyDict.keys mapping
    = List.filter
        (fun p => match Mapper.scan df p with Some _ => true | None => false end)
        placeholders
    /\ printed
       = map Mapper.warning
           (List.filter
              (fun p => match Mapper.scan df p with Some _ => false | None => true end)
              placeholders)
    /\ List.length (PyDict.keys mapping) + List.length printed
       = List.length placeholders
    /\ forall p c, PyDict.get mapping p = Some c ->
         In p placeholders /\ c < Frame.width df.
Proof.
  intros self df placeholders Hc Hnd mapping printed.
  destruct (MapperFacts.find_column_mapping_fresh self df placeholders Hc) as [Hm Hp].
  fold mapping in Hm. fold printed in Hp.
  rewrite (ColumnFacts.fold_map_placeholder df placeholders ([], []) Hnd) in Hm, Hp
    by (intros; reflexivity).
  cbn [fst snd app] in Hm, Hp.
  assert (Hkeys := ColumnFacts.keys_bindings df placeholders).
  assert (Hwarn := ColumnFacts.complaints_warnings df placeholders).
  rewrite <- Hm in Hkeys. rewrite <- Hp in Hwarn.
  split; [exact Hkeys |]. split; [exact Hwarn |]. split.
  - rewrite Hkeys, Hwarn, length_map.
    apply ColumnFacts.length_filter_split. intros p. now destruct (Mapper.scan df p).
  - intros p c Hg. split.
    + assert (Hin : In p (PyDict.keys mapping)).
      { clear - Hg. unfold PyDict.keys.
        induction mapping as [|[k v] m IH]; [discriminate |]. simpl in *.
        destruct (String.eqb_spec p k) as [->|]; [now left | right; now apply IH]. }
      rewrite Hkeys in Hin. now apply List.filter_In in Hin.
    + rewrite Hm in Hg. apply ColumnFacts.get_bindings in Hg.
      apply MapperFacts.scan_first_match in Hg as [r [(_ & _ & Hw & _) _]].
      exact Hw.
Qed.

(** The sample frame and a placeholder it does not hold. *)
Lemma mapping_accounts_witness :
  let mapping :=
    snd (fst (Mapper.find_column_mapping Sample.fresh_tab Sample.people
                ["name"; "age"; "town"])) in
  let printed :=
    snd (Mapper.find_column_mapping Sample.fresh_tab Sample.people
           ["name"; "age"; "town"]) in
  PyDict.keys mapping = ["name"; "age"]
  /\ printed = [Mapper.warning "town"]
  /\ List.length (PyDict.keys mapping) + List.length printed = 3
  /\ forall p c, PyDict.get mapping p = Some c ->
       In p ["name"; "age"; "town"] /\ c < Frame.width Sample.people.
Proof.
  apply (mapping_accounts_for_every_placeholder Sample.fresh_tab Sample.people
           ["name"; "age"; "town"]).
  - reflexivity.
  - repeat constructor; simpl; intuition discriminate.
Defined.

(** ** The placeholders found in a template *)

Module DiscoveryFacts.
Import PyStr Docx Pattern Discovery PyStrFacts PatternFacts.

Lemma findall_from_here (c : ascii) (s : string) :
  findall_from 0 (String c s) =
    match match_length (String c s) with
    | Some n => take (n - 2) s :: findall_from (n - 1) s
    | None => findall_from 0 s
    end.
Proof. reflexivity. Qed.

Lemma contains_cons (sub : string) (c : ascii) (s : string) :
  contains sub s = true -> contains sub (String c s) = true.
Proof.
  intros H. change (contains sub (String c s))
    with (String.prefix sub (String c s) || contains sub s).
  rewrite H. apply orb_true_r.
Qed.

Lemma contains_prefix (sub s : string) :
  String.prefix sub s = true -> contains sub s = true.
Proof.
  intros H. destruct s as [|c s].
  - change (contains sub "") with (String.prefix sub "" || false). now rewrite H.
  - change (contains sub (String c s))
      with (String.prefix sub (String c s) || contains sub s). now rewrite H.
Qed.

Lemma prefix_append (a b : string) : String.prefix a (a +:+ b) = true.
Proof.
  induction a as [|x a IH]; [now destruct b |].
  rewrite append_cons. simpl. now destruct (Ascii.ascii_dec x x).
Qed.

Lemma no_close_mem (name : string) : no_close name -> mem_char "}" name = false.
Proof.
  induction name as [|c name IH]; [reflexivity |].
  intros H. apply no_close_tail in H as [Hc H]. rewrite mem_char_cons.
  destruct (Ascii.eqb_spec c "}") as [->|_]; [contradiction | now apply IH].
Qed.

(** What a match at the head of a text is. *)
Lemma match_length_token (c : ascii) (s : string) (n : nat) :
  match_length (String c s) = Some n ->
  exists name post,
    String c s = token name +:+ post /\ take (n - 2) s = name
    /\ name <> "" /\ mem_char "}" name = false.
Proof.
  rewrite match_length_cons. destruct (Ascii.eqb_spec c "{") as [->|]; [| discriminate].
  destruct (body_length s) as [[|m]|] eqn:E; try discriminate.
  intros [= <-]. destruct (body_length_split _ _ E) as (name & post & -> & Hlen & Hno).
  exists name, post. repeat split.
  - unfold token. now rewrite !append_cons, !PathFacts.append_assoc3.
  - match goal with
    | |- take ?k _ = _ => replace k with (String.length name) by lia
    end.
    apply FilenameFacts.take_append.
  - intros ->. discriminate.
  - now apply no_close_mem.
Qed.

(** Every name found is the name of a token of the text. *)
Lemma findall_from_names (s : string) (k : nat) :
  Forall (fun name =>
            name <> "" /\ mem_char "}" name = false
            /\ contains (token name) s = true)
    (findall_from k s).
Proof.
  revert k. induction s as [|c s IH]; intros k; [destruct k; constructor |].
  assert (Hstep : forall k',
             Forall (fun name =>
                       name <> "" /\ mem_char "}" name = false
                       /\ contains (token name) (String c s) = true)
               (findall_from k' s)).
  { intros k'. eapply List.Forall_impl; [| apply (IH k')].
    intros name (H1 & H2 & H3). repeat split; try assumption.
    now apply contains_cons. }
  destruct k as [|k]; [| apply Hstep].
  rewrite findall_from_here.
  destruct (match_length (String c s)) as [n|] eqn:E; [| apply Hstep].
  constructor; [| apply Hstep].
  destruct (match_length_token _ _ _ E) as (name & post & Hs & -> & Hne & Hcl).
  repeat split; try assumption.
  rewrite Hs. apply contains_prefix, prefix_append.
Qed.

(** Something is found exactly when the pattern matches somewhere. *)
Lemma findall_has_match (s : string) :
  has_match s = negb (match findall s with [] => true | _ :: _ => false end).
Proof.
  unfold findall. induction s as [|c s IH]; [reflexivity |].
  rewrite has_match_here, findall_from_here.
  destruct (match_length (String c s)); [reflexivity | exact IH].
Qed.

Lemma length_sub_from (s : string) (k : nat) :
  String.length (sub_from k s) <= String.length s.
Proof.
  revert k. induction s as [|c s IH]; intros k; [destruct k; simpl; lia |].
  destruct k as [|k]; [| simpl; specialize (IH k); lia].
  rewrite sub_from_here. destruct (match_length (String c s)) as [n|].
  - specialize (IH (n - 1)). simpl. lia.
  - specialize (IH 0). simpl. lia.
Qed.

(** The sweep shortens a text in which the pattern matches. *)
Lemma sub_shortens (s : string) :
  has_match s = true -> String.length (sub s) < String.length s.
Proof.
  unfold sub. induction s as [|c s IH]; [discriminate |].
  rewrite has_match_here, sub_from_here.
  destruct (match_length (String c s)) as [n|].
  - intros _. pose proof (length_sub_from s (n - 1)). simpl. lia.
  - intros H. specialize (IH H). simpl. lia.
Qed.

(** A loop that adds to a set what each element gives. *)
Lemma fold_left_adds {A : Type} (f : A -> gset string -> gset string)
    (found : A -> string -> Prop) (l : list A) :
  Forall (fun a => forall acc name, name ∈ f a acc <-> name ∈ acc \/ found a name) l ->
  forall acc name,
    name ∈ fold_left (fun acc a => f a acc) l acc
    <-> name ∈ acc \/ exists a, In a l /\ found a name.
Proof.
  induction 1 as [|a l Ha _ IH]; intros acc name; simpl.
  - split; [now left | intros [H|(a & [] & _)]; exact H].
  - rewrite IH, Ha. split.
    + intros [[H|H]|(b & Hb & H)]; [now left | right | right].
      * exists a. split; [now left | exact H].
      * exists b. split; [now right | exact H].
    + intros [H|(b & [<-|Hb] & H)]; [left; now left | left; now right | right].
      exists b. now split.
Qed.

Lemma update_adds (acc : gset string) (matches : list string) (name : string) :
  name ∈ update acc matches <-> name ∈ acc \/ In name matches.
Proof.
  unfold update. rewrite elem_of_union, elem_of_list_to_set, list_elem_of_In.
  reflexivity.
Qed.

(** The names found in a table are those found in the text of its cells,
    at any depth. *)
Lemma search_table_adds (t : table) :
  forall acc name,
    name ∈ search_table t acc
    <-> name ∈ acc
        \/ exists c, In c (table_all_cells t) /\ In name (findall (cell_text c)).
Proof.
  induction t as [g rs IH | ps ts IH]
    using table_tree_ind
    with (Q := fun c => forall acc name,
                 name ∈ search_cell c acc
                 <-> name ∈ acc
                     \/ exists c', In c' (cell_all_cells c)
                                   /\ In name (findall (cell_text c'))).
  - intros acc name. cbn [search_table table_all_cells].
    rewrite (fold_left_adds
               (fun row acc => fold_left (fun acc c => search_cell c acc) row acc)
               (fun row name =>
                  exists c, In c (flat_map cell_all_cells row)
                            /\ In name (findall (cell_text c)))).
    + split; (intros [H|H]; [now left | right]).
      * destruct H as (row & Hrow & c & Hc & Hn). exists c. split; [| exact Hn].
        apply in_flat_map. now exists row.
      * destruct H as (c & Hc & Hn). apply in_flat_map in Hc as (row & Hrow & Hc).
        exists row. split; [exact Hrow |]. now exists c.
    + eapply List.Forall_impl; [| exact IH]. intros row Hrow acc' name'.
      rewrite (fold_left_adds search_cell
                 (fun c name =>
                    exists c', In c' (cell_all_cells c)
                               /\ In name (findall (cell_text c')))) by exact Hrow.
      split; (intros [H|H]; [now left | right]).
      * destruct H as (c & Hc & c' & Hc' & Hn). exists c'. split; [| exact Hn].
        apply in_flat_map. now exists c.
      * destruct H as (c' & Hc' & Hn). apply in_flat_map in Hc' as (c & Hc & Hc').
        exists c. split; [exact Hc |]. now exists c'.
  - intros acc name. cbn [search_cell cell_all_cells].
    rewrite (fold_left_adds search_table
               (fun t name =>
                  exists c, In c (table_all_cells t)
                            /\ In name (findall (cell_text c)))) by exact IH.
    rewrite update_adds. split.
    + intros [[H|H]|(t & Ht & c & Hc & Hn)]; [now left | right | right].
      * exists (Cell ps ts). split; [now left | exact H].
      * exists c. split; [| exact Hn]. right. apply in_flat_map. now exists t.
    + intros [H|(c & [<-|Hc] & Hn)]; [left; now left | left; now right | right].
      apply in_flat_map in Hc as (t & Ht & Hc). exists t. split; [exact Ht |].
      now exists c.
Qed.

End DiscoveryFacts.

(** X11.  Every name that the search for placeholders finds in a text is
    not empty, holds no closing brace, and occurs in the text between
    braces; and the final sweep changes a text exactly when the search
    finds a name in it: it then makes the text shorter, and the search
    finds nothing in the text it leaves. *)
Theorem found_names_are_tokens :
  forall s : string,
    Forall (fun name =>
              name <> "" /\ PyStr.mem_char "}" name = false
              /\ PyStr.contains (PyStr.token name) s = true)
      (Discovery.findall s)
    /\ Discovery.findall (Pattern.sub s) = []
    /\ match Discovery.findall s with
       | [] => Pattern.sub s = s
       | _ :: _ => String.length (Pattern.sub s) < String.length s
       end.
Proof.
  intros s. split; [apply DiscoveryFacts.findall_from_names |]. split.
  - pose proof (DiscoveryFacts.findall_has_match (Pattern.sub s)) as H.
    rewrite PatternFacts.sub_no_match in H.
    now destruct (Discovery.findall (Pattern.sub s)).
  - pose proof (DiscoveryFacts.findall_has_match s) as H.
    destruct (Discovery.findall s).
    + now apply PatternFacts.sub_fixed.
    + now apply DiscoveryFacts.sub_shortens.
Qed.

(** X12.  A call [find_placeholders()] that the memo of the decorator does
    not answer, on a tab that holds no list of placeholders and with a
    template that loads, returns every name once and leaves the list it
    returns in the memo; it returns a name exactly when the name is found
    in the text of a paragraph of the body or in the text of a cell of a
    table, the cells of nested tables at any depth included. *)
Theorem discovery_reaches_nested_cells :
  forall (self : tab) (doc : Docx.document),
    match _placeholders_cache self with Some (_ :: _) => False | _ => True end ->
    exists found,
      Discovery.find_placeholders None self (Returned doc)
      = (Returned found, Some found)
      /\ List.NoDup found
      /\ forall name,
           In name found
           <-> (exists p, In p (Docx.paragraphs doc)
                          /\ In name (Discovery.findall (Docx.text p)))
               \/ (exists c, In c (flat_map Discovery.table_all_cells (Docx.tables doc))
                             /\ In name (Discovery.findall (Docx.cell_text c))).
Proof.
  intros self doc Hcache.
  unfold Discovery.find_placeholders, Discovery.find_placeholders_body.
  destruct (_placeholders_cache self) as [[|p ps]|]; try contradiction.
  all: cbn [mbind outcome_bind]; cbv zeta; eexists; split; [reflexivity |]; split;
    [ apply NoDup_ListNoDup, NoDup_elements
    | intros name; rewrite <- list_elem_of_In, elem_of_elements;
      unfold Discovery._search_tables_for_placeholders;
      rewrite (DiscoveryFacts.fold_left_adds Discovery.search_table
                 (fun t name =>
                    exists c, In c (Discovery.table_all_cells t)
                              /\ In name (Discovery.findall (Docx.cell_text c))))
        by (apply List.Forall_forall; intros t _;
            apply DiscoveryFacts.search_table_adds);
      rewrite (DiscoveryFacts.fold_left_adds
                 (fun p acc => Discovery.update acc (Discovery.findall (Docx.text p)))
                 (fun p name => In name (Discovery.findall (Docx.text p))))
        by (apply List.Forall_forall; intros q _ acc n;
            apply DiscoveryFacts.update_adds);
      rewrite elem_of_empty; split;
      [ intros [[[]|H]|(t & Ht & c & Hc & Hn)];
        [ now left
        | right; exists c; split; [apply in_flat_map; now exists t | exact Hn] ]
      | intros [H|(c & Hc & Hn)];
        [ left; now right
        | right; apply in_flat_map in Hc as (t & Ht & Hc);
          exists t; split; [exact Ht | now exists c] ] ] ].
Qed.

(** A letter with a table nested in a cell of a table. *)
Lemma discovery_reaches_witness :
  exists found,
    Discovery.find_placeholders None Sample.fresh_tab (Returned Letters.nested_letter)
    = (Returned found, Some found)
    /\ List.NoDup found
    /\ forall name,
         In name found
         <-> (exists p, In p (Docx.paragraphs Letters.nested_letter)
                        /\ In name (Discovery.findall (Docx.text p)))
             \/ (exists c, In c (flat_map Discovery.table_all_cells
                                   (Docx.tables Letters.nested_letter))
                           /\ In name (Discovery.findall (Docx.cell_text c))).
Proof.
  apply (discovery_reaches_nested_cells Sample.fresh_tab Letters.nested_letter).
  exact I.
Defined.

(** ** Uploads *)

Module UploadFacts.
Import PyStr Docx Discovery.

(** The upload of a template leaves the tab as it is. *)
Lemma preload_keeps (self : tab) (template : outcome document) :
  fst (_preload_placeholders self template) = self.
Proof. now destruct template. Qed.

Lemma uploads_keep (templates : list (outcome document)) (self : tab) :
  upload_word_templates self templates = self.
Proof.
  unfold upload_word_templates.
  induction templates as [|template templates IH]; [reflexivity |].
  simpl. now rewrite preload_keeps.
Qed.

(** With a template that loads, a call that the memo does not answer
    returns a list and keeps it. *)
Lemma first_call_kept (self : tab) (doc : document) :
  exists found,
    find_placeholders None self (Returned doc) = (Returned found, Some found).
Proof.
  unfold find_placeholders, find_placeholders_body.
  destruct (_placeholders_cache self) as [[|p ps]|]; cbn [mbind outcome_bind]; eauto.
Qed.

Lemma length_take (n : nat) (s : string) :
  String.length (take n s) = Nat.min n (String.length s).
Proof.
  revert s. induction n as [|n IH]; intros [|c s]; simpl; try reflexivity.
  now rewrite IH.
Qed.

End UploadFacts.

(** X13.  The placeholders that the first call [find_placeholders()]
    returns are kept for good.  The upload of a template changes nothing in
    the tab: its call of [find_placeholders] on the loaded document raises
    before the body runs, and the line of the error is printed.  So after
    any number of uploads a later call returns the list of the first call
    and keeps the memo, whatever template is selected then. *)
Theorem first_placeholders_stay :
  forall (self : tab) (doc : Docx.document)
         (uploads : list (outcome Docx.document)) (later : outcome Docx.document),
    let first := Discovery.find_placeholders None self (Returned doc) in
    Discovery.upload_word_templates self uploads = self
    /\ snd (Discovery._preload_placeholders self (Returned doc))
       = ["Error pre-loading placeholders: unhashable type: 'Document'"]
    /\ Discovery.find_placeholders (snd first)
         (Discovery.upload_word_templates self uploads) later
       = first.
Proof.
  intros self doc uploads later first.
  split; [apply UploadFacts.uploads_keep |]. split; [reflexivity |].
  rewrite UploadFacts.uploads_keep. unfold first.
  destruct (UploadFacts.first_call_kept self doc) as [found ->]. reflexivity.
Qed.

(** X14.  The name shown for an uploaded file is never longer than 30
    characters and starts with the first 27 characters of the file name;
    shortening a name that has been shortened changes nothing. *)
Theorem display_name_is_short :
  forall filename : string,
    String.length (Status.display_name filename) <= 30
    /\ PyStr.take 27 (Status.display_name filename) = PyStr.take 27 filename
    /\ Status.display_name (Status.display_name filename)
       = Status.display_name filename.
Proof.
  intros filename.
  assert (Hlen : String.length (Status.display_name filename) <= 30).
  { unfold Status.display_name.
    destruct (Nat.leb_spec (String.length filename) 30) as [Hle|Hgt]; [exact Hle |].
    rewrite PathFacts.length_append, UploadFacts.length_take.
    change (String.length "...") with 3.
    pose proof (Nat.le_min_l 27 (String.length filename)). lia. }
  split; [exact Hlen |]. split.
  - unfold Status.display_name.
    destruct (Nat.leb_spec (String.length filename) 30) as [Hle|Hgt]; [reflexivity |].
    rewrite <- (FilenameFacts.take_append (PyStr.take 27 filename) "...") at 2.
    rewrite UploadFacts.length_take.
    replace (Nat.min 27 (String.length filename)) with 27 by lia. reflexivity.
  - unfold Status.display_name at 1.
    now destruct (Nat.leb_spec (String.length (Status.display_name filename)) 30);
      [| lia].
Qed.

(** ** Paragraphs without a token of the row, and keys with blanks around *)

Module FrameFacts.
Import PyStr Docx Render Keys.

(** Replacing a text that does not occur changes nothing. *)
Lemma replace_absent (old new s : string) :
  contains old s = false -> replace old new s = s.
Proof.
  unfold replace. induction s as [|c s IH]; [reflexivity |].
  change (contains old (String c s))
    with (String.prefix old (String c s) || contains old s).
  intros H. apply orb_false_elim in H as [Hp Hs].
  cbn [replace_from]. rewrite Hp. now rewrite IH.
Qed.

Lemma substitute_absent (data_row : record) (s : string) :
  (forall key v, In (key, v) data_row -> contains (token key) s = false) ->
  substitute data_row s = s.
Proof.
  unfold substitute. induction data_row as [|[k v] d IH]; intros H; [reflexivity |].
  cbn [fold_left fst snd]. rewrite replace_absent by (apply (H k v); now left).
  apply IH. intros key v' Hin. apply (H key v'). now right.
Qed.

Lemma get_in {V : Type} (d : PyDict.t V) (k : string) (v : V) :
  PyDict.get d k = Some v -> In (k, v) d.
Proof.
  induction d as [|[k' v'] d IH]; simpl; [discriminate |].
  destruct (String.eqb_spec k k') as [->|].
  - intros [= ->]. now left.
  - intros H. right. now apply IH.
Qed.

(** Stripping twice is stripping once. *)
Lemma rstrip_by_twice (p : ascii -> bool) (s : string) :
  rstrip_by p (rstrip_by p s) = rstrip_by p s.
Proof.
  induction s as [|c s IH]; [reflexivity |].
  cbn [rstrip_by]. destruct (is_empty (rstrip_by p s) && p c) eqn:E; [reflexivity |].
  cbn [rstrip_by]. now rewrite IH, E.
Qed.

Lemma lstrip_by_head (p : ascii -> bool) (s : string) :
  match lstrip_by p s with
  | "" => True
  | String c _ => p c = false
  end.
Proof.
  induction s as [|c s IH]; [exact I |].
  cbn [lstrip_by]. destruct (p c) eqn:E; [exact IH | exact E].
Qed.

Lemma lstrip_by_rstrip_by (p : ascii -> bool) (s : string) :
  match s with "" => True | String c _ => p c = false end ->
  lstrip_by p (rstrip_by p s) = rstrip_by p s.
Proof.
  destruct s as [|c s]; [reflexivity |]. intros Hc.
  cbn [rstrip_by]. rewrite Hc, andb_false_r. cbn [lstrip_by]. now rewrite Hc.
Qed.

Lemma strip_by_twice (p : ascii -> bool) (s : string) :
  strip_by p (strip_by p s) = strip_by p s.
Proof.
  unfold strip_by.
  rewrite (lstrip_by_rstrip_by p (lstrip_by p s)) by apply lstrip_by_head.
  apply rstrip_by_twice.
Qed.

Lemma add_row_stripped (df : Frame.t) (col : nat)
    (cache : gmap string (list record)) (row : Frame.series) :
  stripped_keys cache -> stripped_keys (AuxIndex.add_row df col cache row).
Proof.
  intros H key. unfold AuxIndex.add_row.
  destruct (Frame.at_col row col) as [v|]; [| apply H].
  destruct (String.eqb_spec key (strip (str_of v))) as [->|Hne].
  - intros _. apply strip_by_twice.
  - rewrite lookup_alter_ne by congruence.
    destruct (cache !! strip (str_of v)); [apply H |].
    rewrite lookup_insert_ne by congruence. apply H.
Qed.

Lemma add_file_stripped (cache : gmap string (list record)) (file : option Frame.t) :
  stripped_keys cache -> stripped_keys (AuxIndex.add_file cache file).
Proof.
  intros H. unfold AuxIndex.add_file. destruct file as [df|]; [| exact H].
  destruct (Frame.marker_column "PARENT_KEY" df) as [col|]; [| exact H].
  revert cache H. induction (Frame.data_rows df) as [|row rows IH]; intros cache H.
  - exact H.
  - simpl. apply IH. now apply add_row_stripped.
Qed.

Lemma preload_stripped (self : tab) :
  stripped_keys (_additional_data_cache (AuxIndex._preload_additional_data self)).
Proof.
  unfold AuxIndex._preload_additional_data. cbn [_additional_data_cache].
  assert (H : stripped_keys ∅) by (intros key [l Hl]; now rewrite lookup_empty in Hl).
  revert H. generalize (∅ : gmap string (list record)) as cache.
  induction (additional_excel_paths self) as [|file files IH]; intros cache H.
  - exact H.
  - simpl. apply IH. now apply add_file_stripped.
Qed.

Section WithEnvironment.
Variable path_exists : string -> bool.
Variable picture_loads : string -> bool.
Variable self : tab.

Lemma replace_in_paragraph_absent (data_row : record) (paragraph : Docx.paragraph) :
  (forall key v, In (key, v) data_row ->
     contains (token key) (text paragraph) = false) ->
  replace_in_paragraph path_exists picture_loads self data_row paragraph = paragraph.
Proof.
  intros H. unfold replace_in_paragraph.
  destruct (contains "{" (text paragraph)); [| reflexivity].
  assert (Himg : try_image path_exists picture_loads self data_row paragraph = None).
  { unfold try_image. destruct (image_folder self) as [folder|]; [| reflexivity].
    unfold PyDict.mem.
    destruct (PyDict.get data_row "resp_pix") as [v|] eqn:E; [| reflexivity].
    apply get_in in E. apply H in E.
    change (token "resp_pix") with "{resp_pix}" in E. now rewrite E. }
  rewrite Himg. unfold replace_text.
  now rewrite substitute_absent, String.eqb_refl.
Qed.

Lemma replace_in_paragraph_free (data_row : record) (paragraph : Docx.paragraph) :
  token_free data_row paragraph = true ->
  replace_in_paragraph path_exists picture_loads self data_row paragraph = paragraph.
Proof.
  intros H. apply replace_in_paragraph_absent. intros key v Hin.
  unfold token_free in H. rewrite forallb_forall in H.
  specialize (H (key, v) Hin). now apply negb_true_iff in H.
Qed.

Lemma map_fixed {A : Type} (f : A -> A) (l : list A) :
  Forall (fun x => f x = x) l -> map f l = l.
Proof. induction 1 as [|x l Hx _ IH]; simpl; [reflexivity | now rewrite Hx, IH]. Qed.

Lemma forallb_app_true {A : Type} (f : A -> bool) (l l' : list A) :
  forallb f (l ++ l') = true -> forallb f l = true /\ forallb f l' = true.
Proof. rewrite forallb_app. apply andb_true_iff. Qed.

Lemma forallb_flat_map {A B : Type} (f : B -> bool) (g : A -> list B) (l : list A) :
  forallb f (flat_map g l) = true -> Forall (fun x => forallb f (g x) = true) l.
Proof.
  induction l as [|x l IH]; simpl; [constructor |].
  intros H. apply forallb_app_true in H as [Hx Hl]. constructor; [exact Hx | now apply IH].
Qed.

(** A table that holds no information-needs table and no token of the row
    is returned as it is. *)
Lemma replace_in_table_free (data_row : record) (t : table) :
  no_needs_table t = true ->
  forallb (token_free data_row) (table_all_paragraphs t) = true ->
  replace_in_table path_exists picture_loads self data_row t = t.
Proof.
  induction t as [g rs IH | ps ts IH]
    using table_tree_ind
    with (Q := fun c =>
                 no_needs_in_cell c = true ->
                 forallb (token_free data_row) (cell_all_paragraphs c) = true ->
                 replace_in_cell path_exists picture_loads self data_row c = c).
  - intros Hn Hf. cbn [no_needs_table] in Hn.
    apply andb_true_iff in Hn as [Hsig Hrows].
    apply negb_true_iff in Hsig. cbn [replace_in_table]. rewrite Hsig.
    f_equal. cbn [table_all_paragraphs] in Hf.
    apply forallb_flat_map in Hf. rewrite forallb_forall in Hrows.
    apply map_fixed. rewrite List.Forall_forall in IH, Hf.
    apply List.Forall_forall. intros row Hrow.
    specialize (IH row Hrow). specialize (Hf row Hrow).
    specialize (Hrows row Hrow). apply forallb_flat_map in Hf.
    rewrite forallb_forall in Hrows. apply map_fixed.
    rewrite List.Forall_forall in IH, Hf. apply List.Forall_forall.
    intros c Hc. apply (IH c Hc); [apply (Hrows c Hc) | apply (Hf c Hc)].
  - intros Hn Hf. cbn [no_needs_in_cell] in Hn. cbn [cell_all_paragraphs] in Hf.
    apply forallb_app_true in Hf as [Hps Hts]. cbn [replace_in_cell]. f_equal.
    + apply map_fixed, List.Forall_forall. intros p Hp.
      apply replace_in_paragraph_free. rewrite forallb_forall in Hps. now apply Hps.
    + apply forallb_flat_map in Hts. rewrite forallb_forall in Hn.
      apply map_fixed. rewrite List.Forall_forall in IH, Hts.
      apply List.Forall_forall. intros t Ht.
      apply (IH t Ht); [apply (Hn t Ht) | apply (Hts t Ht)].
Qed.

Lemma replace_placeholders_free (doc : document) (data_row : record) :
  let updated :=
    snd (replace_placeholders_optimized path_exists picture_loads self doc data_row) in
  forallb no_needs_table (tables doc) = true ->
  forallb (token_free updated) (all_paragraphs doc) = true ->
  fst (replace_placeholders_optimized path_exists picture_loads self doc data_row)
  = doc.
Proof.
  unfold replace_placeholders_optimized. cbn [fst snd]. cbv zeta.
  set (updated := if PyDict.mem data_row "bus_info_needs" then _ else _).
  intros Hn Hf. unfold all_paragraphs in Hf.
  apply forallb_app_true in Hf as [Hps Hts]. destruct doc as [ps ts].
  cbn [paragraphs tables] in *. f_equal.
  - apply map_fixed, List.Forall_forall. intros p Hp.
    apply replace_in_paragraph_free. rewrite forallb_forall in Hps. now apply Hps.
  - unfold _replace_in_tables_optimized. apply forallb_flat_map in Hts.
    rewrite forallb_forall in Hn. rewrite List.Forall_forall in Hts.
    apply map_fixed, List.Forall_forall. intros t Ht.
    apply replace_in_table_free; [apply (Hn t Ht) | apply (Hts t Ht)].
Qed.

End WithEnvironment.

End FrameFacts.

(** X15.  The replacement step returns a document as it is, every run and
    picture kept, when no table of the document, at any depth, is taken for
    the information-needs table and no paragraph, at any depth, holds the
    token of a key of the row: the row as the step itself extends it, with
    the keys of the ranking when it has the field of the needs. *)
Theorem untouched_paragraphs_keep_their_runs :
  forall (path_exists picture_loads : string -> bool) (self : tab)
         (doc : Docx.document) (data_row : record),
    let updated :=
      snd (Render.replace_placeholders_optimized path_exists picture_loads self
             doc data_row) in
    forallb Render.no_needs_table (Docx.tables doc) = true ->
    forallb (Render.token_free updated) (Docx.all_paragraphs doc) = true ->
    fst (Render.replace_placeholders_optimized path_exists picture_loads self
           doc data_row)
    = doc.
Proof.
  intros path_exists picture_loads self doc data_row.
  apply FrameFacts.replace_placeholders_free.
Qed.

(** The letter with a nested table, and a row with the field of the needs
    and none of the fields of the letter. *)
Lemma untouched_paragraphs_witness :
  fst (Render.replace_placeholders_optimized (fun _ => true) (fun _ => true)
         Sample.photo_tab Letters.nested_letter
         [("bus_info_needs", Str "Prices"); ("village", Str "Sta. Cruz")])
  = Letters.nested_letter.
Proof.
  apply (untouched_paragraphs_keep_their_runs (fun _ => true) (fun _ => true)
           Sample.photo_tab Letters.nested_letter
           [("bus_info_needs", Str "Prices"); ("village", Str "Sta. Cruz")]);
    vm_compute; reflexivity.
Defined.

(** X16.  Blanks around a key do not matter to the lookup of additional
    records: a key and the same key stripped give the same records; and
    the index built from the additional files holds stripped keys only. *)
Theorem lookup_ignores_blanks :
  forall (self : tab) (key_value : string),
    AuxIndex.get_additional_data_for_key_optimized self (PyStr.strip key_value)
    = AuxIndex.get_additional_data_for_key_optimized self key_value
    /\ Keys.stripped_keys
         (_additional_data_cache (AuxIndex._preload_additional_data self)).
Proof.
  intros self key_value. split.
  - unfold AuxIndex.get_additional_data_for_key_optimized, PyStr.strip.
    now rewrite FrameFacts.strip_by_twice.
  - apply FrameFacts.preload_stripped.
Qed.

(** ** The documents of a batch *)

Module SavedFacts.
Import PyStr Docx Job Trace.

Section WithEnvironment.
Variable path_exists : string -> bool.
Variable picture_loads : string -> bool.
Variable float_sum_text : list value -> string.
Variable load_template : outcome Docx.document.
Variable save : string -> Docx.document -> outcome unit.
Variable self : tab.

(** The document saved by a job has been swept. *)
Lemma render_swept (a : args) (output_path : string) (new_doc : document) :
  render path_exists picture_loads float_sum_text load_template save self a
  = Returned (output_path, new_doc) ->
  exists doc, new_doc = Sweep.clear_all_remaining_placeholders_optimized doc.
Proof.
  intros H. apply RenderedFacts.render_returned in H as (doc & rd & -> & _).
  eauto.
Qed.

Lemma job_documents_swept (a : args) :
  Forall (fun doc =>
            Forall (fun p => ~ Pattern.has_token (text p)) (all_paragraphs doc))
    (saved_documents
       (job_events path_exists picture_loads float_sum_text load_template save
          self a)).
Proof.
  unfold job_events.
  destruct (render _ _ _ _ _ _ a) as [[p d]|e] eqn:E; [| constructor].
  apply render_swept in E as [doc ->]. repeat constructor.
  apply SweepFacts.swept_document.
Qed.

Lemma error_line_documents (a : args) :
  saved_documents
    (error_line path_exists picture_loads float_sum_text load_template save self a)
  = [].
Proof.
  unfold error_line.
  now destruct (process_single_document _ _ _ _ _ _ a) as [[p|] err].
Qed.

End WithEnvironment.

Lemma saved_documents_app (l l' : list event) :
  saved_documents (l ++ l') = saved_documents l ++ saved_documents l'.
Proof. apply flat_map_app. Qed.

Lemma saved_documents_unlinks (l : list string) :
  saved_documents (map Unlink l) = [].
Proof. induction l as [|p l IH]; [reflexivity | exact IH]. Qed.

End SavedFacts.

(** X17.  No document written by a batch holds a placeholder token: in
    every paragraph of every document saved, the paragraphs of tables
    nested at any depth included, no text of the form of a name between
    braces is left, whatever the rows, the template and the order in which
    the jobs complete. *)
Theorem saved_documents_hold_no_token :
  forall (path_exists picture_loads : string -> bool)
         (float_sum_text : list value -> string)
         (load_template : outcome Docx.document)
         (save : string -> Docx.document -> outcome unit) (self : tab)
         (as_completed : list Job.args -> list Job.args)
         (destination_path : string) (data_rows : list Frame.series)
         (column_mapping : PyDict.t nat) (key_column : nat),
    Forall (fun doc =>
              Forall (fun p => ~ Pattern.has_token (Docx.text p))
                (Docx.all_paragraphs doc))
      (Trace.saved_documents
         (Job.run_batch path_exists picture_loads float_sum_text load_template
            save self as_completed destination_path data_rows column_mapping
            key_column)).
Proof.
  intros. rewrite BatchFacts.run_batch_trace. cbv zeta.
  rewrite !SavedFacts.saved_documents_app, SavedFacts.saved_documents_unlinks.
  cbn [Trace.saved_documents flat_map app]. rewrite !app_nil_r.
  apply Forall_app. split.
  - unfold Trace.saved_documents. rewrite BatchFacts.flat_map_flat_map.
    apply List.Forall_flat_map, List.Forall_forall. intros a _.
    apply SavedFacts.job_documents_swept.
  - unfold Trace.saved_documents. rewrite BatchFacts.flat_map_flat_map.
    rewrite BatchFacts.flat_map_nil; [constructor |].
    intros a. apply SavedFacts.error_line_documents.
Qed.
